(** * places: the [do_update] decision pipeline of the Places sensor

    A shallow embedding of [custom_components/places/sensor.py]: the
    update gate, the geo-math, the parser of the reverse-geocode reply, the
    display formatter, the JSON snapshot of the entity, and the validation
    of a sensor imported from YAML.

    Conventions of the model
    - a Python [str] is a Rocq [string], one [ascii] per character; case
      mapping and white space are the ASCII ones;
    - a finite Python [float] (and an [int]) is a rational number of [Q]:
      comparisons and [int()] are exact on them, rounding errors of the
      arithmetic are not modelled;
    - the trigonometric [haversine] method is stated over the real numbers;
    - an uncaught Python exception is a [Raise]; the entity keeps the
      attribute values it had when the exception was raised;
    - what the host and the network return during one call of [do_update]
      (the tracker state, the decoded replies, the clock) is the input
      [Cycle] of the call.

    Left out: logging, the composition of the request URLs, the update of
    the configuration entry in the host's registry (lines 933-937), the
    content of the event that is fired (only the exception its
    construction can raise is kept), and the callers of [do_update]
    ([tsc_update], [async_update] and the registration of the entity),
    which only test that the tracker has coordinates. *)

From Stdlib Require Import Ascii String QArith Qround Reals Lra.
From stdpp Require Import gmap strings list pretty.

Local Open Scope string_scope.
Local Open Scope list_scope.
Local Open Scope Z_scope.

(** ** Python strings *)

Module PyStr.

Definition code (c : ascii) : nat := nat_of_ascii c.

(** [str.isspace] on the ASCII range: TAB..CR, FS..US and the blank. *)
Definition is_space (c : ascii) : bool :=
  let n := code c in
  ((9 <=? n)%nat && (n <=? 13)%nat) || ((28 <=? n)%nat && (n <=? 32)%nat).

Definition is_upper (c : ascii) : bool :=
  let n := code c in (65 <=? n)%nat && (n <=? 90)%nat.

Definition is_lower (c : ascii) : bool :=
  let n := code c in (97 <=? n)%nat && (n <=? 122)%nat.

Definition to_lower (c : ascii) : ascii :=
  if is_upper c then ascii_of_nat (code c + 32) else c.

Definition to_upper (c : ascii) : ascii :=
  if is_lower c then ascii_of_nat (code c - 32) else c.

Fixpoint map_chars (f : ascii -> ascii) (s : string) : string :=
  match s with
  | EmptyString => EmptyString
  | String c r => String (f c) (map_chars f r)
  end.

(** [s.lower()] and [s.upper()] *)
Definition lower : string -> string := map_chars to_lower.
Definition upper : string -> string := map_chars to_upper.

(** [s.title()]: a cased character is upper-cased when the character
    before it is not cased, lower-cased otherwise. *)
Fixpoint title_go (prev_cased : bool) (s : string) : string :=
  match s with
  | EmptyString => EmptyString
  | String c r =>
      if is_lower c then
        String (if prev_cased then c else to_upper c) (title_go true r)
      else if is_upper c then
        String (if prev_cased then to_lower c else c) (title_go true r)
      else String c (title_go false r)
  end.

Definition title (s : string) : string := title_go false s.

Fixpoint lstrip (s : string) : string :=
  match s with
  | EmptyString => EmptyString
  | String c r => if is_space c then lstrip r else s
  end.

Definition rstrip (s : string) : string := String.rev (lstrip (String.rev s)).

(** [s.strip()] *)
Definition strip (s : string) : string := rstrip (lstrip s).

(** [s.startswith(p)] *)
Fixpoint startswith (p s : string) : bool :=
  match p, s with
  | EmptyString, _ => true
  | String a p', String b s' => if Ascii.eqb a b then startswith p' s' else false
  | String _ _, EmptyString => false
  end.

(** [sub in s] for two strings *)
Fixpoint contains (sub s : string) : bool :=
  startswith sub s ||
  match s with
  | EmptyString => false
  | String _ r => contains sub r
  end.

(** [s[:n]] and [s[n:]] for [n >= 0] *)
Fixpoint take (n : nat) (s : string) : string :=
  match n, s with
  | S k, String c r => String c (take k r)
  | _, _ => EmptyString
  end.

Fixpoint drop (n : nat) (s : string) : string :=
  match n, s with
  | S k, String _ r => drop k r
  | _, _ => s
  end.

(** [s[:-n]] *)
Definition drop_last (n : nat) (s : string) : string :=
  take (String.length s - n) s.

(** [s.replace(old, new)] for a non-empty [old]: occurrences are replaced
    from the left, without overlap.  [skip] counts the characters of a
    matched occurrence still to be dropped. *)
Fixpoint replace_go (old new : string) (skip : nat) (s : string) : string :=
  match s with
  | EmptyString => EmptyString
  | String c r =>
      match skip with
      | S k => replace_go old new k r
      | O =>
          if startswith old s
          then new +:+ replace_go old new (String.length old - 1) r
          else String c (replace_go old new 0 r)
      end
  end.

Definition replace (old new s : string) : string := replace_go old new 0 s.

(** [s.split(sep)] for a one-character separator *)
Fixpoint split (sep : ascii) (s : string) : list string :=
  match s with
  | EmptyString => [EmptyString]
  | String c r =>
      let parts := split sep r in
      if Ascii.eqb c sep then EmptyString :: parts
      else match parts with
           | p :: ps => String c p :: ps
           | [] => [String c EmptyString]
           end
  end.

(** [sep.join(items)] *)
Fixpoint join (sep : string) (items : list string) : string :=
  match items with
  | [] => EmptyString
  | [x] => x
  | x :: rest => x +:+ sep +:+ join sep rest
  end.

(** [x in items] for a list of strings *)
Definition mem (x : string) (items : list string) : bool :=
  existsb (String.eqb x) items.

Definition digit (n : nat) : ascii := ascii_of_nat (48 + n).

(** ["%02d" % n] *)
Definition fmt02 (n : nat) : string :=
  if (n <? 100)%nat
  then String (digit (n / 10)) (String (digit (n mod 10)) EmptyString)
  else pretty n.

End PyStr.


(** ** Python values, exceptions *)

(** The values an attribute of the entity or an entry of a decoded JSON
    document can hold.  [PDatetime] is a [datetime] object (with its
    [str()]); it is the only value here that [json.dump] rejects. *)
#[warning="-register-all"]
Inductive pyval : Type :=
| PNone
| PBool (b : bool)
| PNum (q : Q)
| PStr (s : string)
| PList (l : list pyval)
| PDict (d : list (string * pyval))
| PDatetime (s : string).

Inductive exn : Type :=
| KeyError (k : string)
| IndexError
| TypeError
| AttributeError
| ValueError
| UnboundLocalError (v : string).

Inductive result (A : Type) : Type :=
| Ok (a : A)
| Raise (e : exn).

Arguments Ok {A} a.
Arguments Raise {A} e.

Definition bind {A B : Type} (m : result A) (k : A -> result B) : result B :=
  match m with Ok a => k a | Raise e => Raise e end.

Notation "'let*' x := m 'in' k" := (bind m (fun x => k))
  (at level 10, x name, m at level 200, k at level 200).

(** [None] for an absent optional string, the string otherwise *)
Definition of_opt (o : option string) : pyval :=
  match o with Some s => PStr s | None => PNone end.

(** [v is None] *)
Definition is_none (v : pyval) : bool :=
  match v with PNone => true | _ => false end.

(** [bool(v)] *)
Definition truthy (v : pyval) : bool :=
  match v with
  | PNone => false
  | PBool b => b
  | PNum q => negb (Qeq_bool q 0)
  | PStr s => negb (String.eqb s EmptyString)
  | PList l => match l with [] => false | _ => true end
  | PDict d => match d with [] => false | _ => true end
  | PDatetime _ => true
  end.

(** [v == s] where [s] is a [str] or [None] *)
Definition eq_opt_str (v : pyval) (s : option string) : bool :=
  match v, s with
  | PNone, None => true
  | PStr a, Some b => String.eqb a b
  | _, _ => false
  end.

Fixpoint assoc (k : string) (d : list (string * pyval)) : option pyval :=
  match d with
  | [] => None
  | (k', v) :: rest => if String.eqb k k' then Some v else assoc k rest
  end.

(** [k in v] for a string [k] *)
Definition py_in (k : string) (v : pyval) : result bool :=
  match v with
  | PDict d => Ok (bool_decide (is_Some (assoc k d)))
  | PStr s => Ok (PyStr.contains k s)
  | PList l => Ok (existsb (fun x => eq_opt_str x (Some k)) l)
  | _ => Raise TypeError
  end.

(** [v[k]] for a string [k] *)
Definition py_getitem (v : pyval) (k : string) : result pyval :=
  match v with
  | PDict d => match assoc k d with Some x => Ok x | None => Raise (KeyError k) end
  | _ => Raise TypeError
  end.

(** [json.dump] accepts a value iff no [datetime] occurs in it. *)
Fixpoint serializable (v : pyval) : bool :=
  match v with
  | PDatetime _ => false
  | PList l => forallb serializable l
  | PDict d => forallb (fun kv => serializable (snd kv)) d
  | _ => true
  end.

(** Builtins and host functions the pipeline calls on coordinates and
    numbers; they are floating-point code outside this repository. *)
Class Builtins : Type := {
  (** [float(text)] does not raise [ValueError] *)
  float_ok : string -> bool;
  (** [float(text)] *)
  float_of : string -> Q;
  (** [str(x)] for a number [x] *)
  str_num : Q -> string;
  (** [homeassistant.util.location.distance(float(a), float(b), float(c), float(d))], in meters *)
  distance : string -> string -> string -> string -> Q;
  (** [Places.haversine(float(a), float(b), float(c), float(d))] evaluated in
      floating point, the parameters in the order [lon1 lat1 lon2 lat2] *)
  haversine_float : string -> string -> string -> string -> Q
}.

(** ** The entity *)

(** The place attributes of the [Places] object ([self._street], ...). *)
Inductive field : Type :=
| _street_number | _street | _city | _postal_town | _postal_code | _region
| _state_abbr | _country | _county | _formatted_address | _place_type
| _place_name | _place_category | _place_neighbourhood
| _latitude_old | _longitude_old | _latitude | _longitude
| _devicetracker_zone | _devicetracker_zone_name | _mtime | _last_place_name
| _location_current | _location_previous | _direction | _map_link
| _formatted_place | _osm_id | _osm_type | _wikidata_id
| _osm_dict | _osm_details_dict | _wikidata_dict | _attr_native_value.

#[global] Instance field_eq_dec : EqDecision field.
Proof. solve_decision. Defined.

Definition field_code (f : field) : nat :=
  match f with
  | _street_number => 0 | _street => 1 | _city => 2 | _postal_town => 3
  | _postal_code => 4 | _region => 5 | _state_abbr => 6 | _country => 7
  | _county => 8 | _formatted_address => 9 | _place_type => 10
  | _place_name => 11 | _place_category => 12 | _place_neighbourhood => 13
  | _latitude_old => 14 | _longitude_old => 15 | _latitude => 16
  | _longitude => 17 | _devicetracker_zone => 18
  | _devicetracker_zone_name => 19 | _mtime => 20 | _last_place_name => 21
  | _location_current => 22 | _location_previous => 23 | _direction => 24
  | _map_link => 25 | _formatted_place => 26 | _osm_id => 27 | _osm_type => 28
  | _wikidata_id => 29 | _osm_dict => 30 | _osm_details_dict => 31
  | _wikidata_dict => 32 | _attr_native_value => 33
  end%nat.

Definition all_fields : list field :=
  [ _street_number; _street; _city; _postal_town; _postal_code; _region;
    _state_abbr; _country; _county; _formatted_address; _place_type;
    _place_name; _place_category; _place_neighbourhood;
    _latitude_old; _longitude_old; _latitude; _longitude;
    _devicetracker_zone; _devicetracker_zone_name; _mtime; _last_place_name;
    _location_current; _location_previous; _direction; _map_link;
    _formatted_place; _osm_id; _osm_type; _wikidata_id;
    _osm_dict; _osm_details_dict; _wikidata_dict; _attr_native_value ].

Definition field_of_code (n : nat) : option field := all_fields !! n.

#[global] Program Instance field_countable : Countable field :=
  inj_countable' field_code (fun n => default _street_number (field_of_code n)) _.
Next Obligation. intros []; reflexivity. Qed.

(** What [__init__] reads from the configuration entry and the home zone.
    [do_update] assigns none of these but the name: [_attr_name] stands for
    [self._attr_name] and for [self._config[CONF_NAME]], which lines 924-927
    assign together. *)
Record Config : Type := {
  _attr_name : string;
  _api_key : option string;
  _options : string;
  _devicetracker_id : string;
  _home_zone : string;
  _map_provider : string;
  _map_zoom : Z;
  _language : option string;
  _extended_attr : bool;
  _show_time : bool;
  _home_latitude : option string;
  _home_longitude : option string;
  _attr_entity_picture : pyval
}.

(** The [Places] object.  [_distance_km] and [_distance_m] are numbers on
    every path ([__init__]: [0], [import_attributes]: [float(...)],
    [do_update]: a distance). *)
Record Places : Type := {
  config : Config;
  initial_update : bool;
  _updateskipped : Z;
  _distance_km : Q;
  _distance_m : Q;
  attrs : gmap field pyval
}.

(** [self.<f>] *)
Definition get (s : Places) (f : field) : pyval := default PNone (attrs s !! f).

(** [self.<f> = v] *)
Definition set (f : field) (v : pyval) (s : Places) : Places :=
  {| config := config s; initial_update := initial_update s;
     _updateskipped := _updateskipped s; _distance_km := _distance_km s;
     _distance_m := _distance_m s; attrs := <[f := v]> (attrs s) |}.

Definition set_initial_update (b : bool) (s : Places) : Places :=
  {| config := config s; initial_update := b;
     _updateskipped := _updateskipped s; _distance_km := _distance_km s;
     _distance_m := _distance_m s; attrs := attrs s |}.

Definition set_updateskipped (n : Z) (s : Places) : Places :=
  {| config := config s; initial_update := initial_update s;
     _updateskipped := n; _distance_km := _distance_km s;
     _distance_m := _distance_m s; attrs := attrs s |}.

Definition set_distance_km (q : Q) (s : Places) : Places :=
  {| config := config s; initial_update := initial_update s;
     _updateskipped := _updateskipped s; _distance_km := q;
     _distance_m := _distance_m s; attrs := attrs s |}.

Definition set_distance_m (q : Q) (s : Places) : Places :=
  {| config := config s; initial_update := initial_update s;
     _updateskipped := _updateskipped s; _distance_km := _distance_km s;
     _distance_m := q; attrs := attrs s |}.

(** [cfg] under another name *)
Definition rename (name : string) (cfg : Config) : Config :=
  {| _attr_name := name; _api_key := _api_key cfg; _options := _options cfg;
     _devicetracker_id := _devicetracker_id cfg; _home_zone := _home_zone cfg;
     _map_provider := _map_provider cfg; _map_zoom := _map_zoom cfg;
     _language := _language cfg; _extended_attr := _extended_attr cfg;
     _show_time := _show_time cfg; _home_latitude := _home_latitude cfg;
     _home_longitude := _home_longitude cfg;
     _attr_entity_picture := _attr_entity_picture cfg |}.

(** [self._attr_name = name; self._config[CONF_NAME] = self._attr_name] *)
Definition set_name (name : string) (s : Places) : Places :=
  {| config := rename name (config s); initial_update := initial_update s;
     _updateskipped := _updateskipped s; _distance_km := _distance_km s;
     _distance_m := _distance_m s; attrs := attrs s |}.

(** The attribute values of [__init__] before a snapshot is imported;
    [now] is [str(datetime.now())]. *)
Definition init_attrs (now : string) : gmap field pyval :=
  <[_mtime := PStr now]> (<[_direction := PStr "stationary"]> ∅).

Definition init (cfg : Config) (now : string) : Places :=
  {| config := cfg; initial_update := true; _updateskipped := 0;
     _distance_km := 0; _distance_m := 0; attrs := init_attrs now |}.

(** ** The JSON snapshot *)

(** The names [const.py] (and [homeassistant.const], for the last two)
    give to the entries of the attribute dictionary. *)
Inductive attr_key : Type :=
| ATTR_STREET_NUMBER | ATTR_STREET | ATTR_CITY | ATTR_POSTAL_TOWN
| ATTR_POSTAL_CODE | ATTR_REGION | ATTR_STATE_ABBR | ATTR_COUNTRY
| ATTR_COUNTY | ATTR_FORMATTED_ADDRESS | ATTR_PLACE_TYPE | ATTR_PLACE_NAME
| ATTR_PLACE_CATEGORY | ATTR_PLACE_NEIGHBOURHOOD | ATTR_FORMATTED_PLACE
| ATTR_LATITUDE_OLD | ATTR_LONGITUDE_OLD | ATTR_LATITUDE | ATTR_LONGITUDE
| ATTR_DEVICETRACKER_ID | ATTR_DEVICETRACKER_ZONE
| ATTR_DEVICETRACKER_ZONE_NAME | ATTR_HOME_ZONE | ATTR_PICTURE
| ATTR_DISTANCE_KM | ATTR_DISTANCE_M | ATTR_MTIME | ATTR_LAST_PLACE_NAME
| ATTR_LOCATION_CURRENT | ATTR_LOCATION_PREVIOUS | ATTR_HOME_LATITUDE
| ATTR_HOME_LONGITUDE | ATTR_DIRECTION_OF_TRAVEL | ATTR_MAP_LINK
| ATTR_OPTIONS | ATTR_OSM_ID | ATTR_OSM_TYPE | ATTR_WIKIDATA_ID
| ATTR_OSM_DICT | ATTR_OSM_DETAILS_DICT | ATTR_WIKIDATA_DICT
| CONF_NAME | CONF_STATE.

(** [float(v)] *)
Definition py_float `{Builtins} (v : pyval) : result Q :=
  match v with
  | PNum q => Ok q
  | PBool b => Ok (if b then 1%Q else 0%Q)
  | PStr t => if float_ok t then Ok (float_of t) else Raise ValueError
  | _ => Raise TypeError
  end.

(** [if v is not None: d[k] = v] *)
Definition put (k : string) (v : pyval) (d : gmap string pyval) : gmap string pyval :=
  match v with PNone => d | _ => <[k := v]> d end.

(** [json.dump] of a dictionary to the snapshot file: [None] when it raises
    [TypeError].  [json.load] gives back the dictionary that was written. *)
Definition json_dump (d : gmap string pyval) : option (gmap string pyval) :=
  if decide (map_Forall (fun _ v => serializable v = true) d) then Some d else None.

Section Snapshot.

(** [const.py] is not among the sources: the text of each key is a
    parameter. *)
Context `{Builtins} (key : attr_key -> string).

Definition extra_state_attributes (s : Places) : gmap string pyval :=
  let return_attr : gmap string pyval := ∅ in
  let return_attr := put (key ATTR_STREET_NUMBER) (get s _street_number) return_attr in
  let return_attr := put (key ATTR_STREET) (get s _street) return_attr in
  let return_attr := put (key ATTR_CITY) (get s _city) return_attr in
  let return_attr := put (key ATTR_POSTAL_TOWN) (get s _postal_town) return_attr in
  let return_attr := put (key ATTR_POSTAL_CODE) (get s _postal_code) return_attr in
  let return_attr := put (key ATTR_REGION) (get s _region) return_attr in
  let return_attr := put (key ATTR_STATE_ABBR) (get s _state_abbr) return_attr in
  let return_attr := put (key ATTR_COUNTRY) (get s _country) return_attr in
  let return_attr := put (key ATTR_COUNTY) (get s _county) return_attr in
  let return_attr := put (key ATTR_FORMATTED_ADDRESS) (get s _formatted_address) return_attr in
  let return_attr := put (key ATTR_PLACE_TYPE) (get s _place_type) return_attr in
  let return_attr := put (key ATTR_PLACE_NAME) (get s _place_name) return_attr in
  let return_attr := put (key ATTR_PLACE_CATEGORY) (get s _place_category) return_attr in
  let return_attr := put (key ATTR_PLACE_NEIGHBOURHOOD) (get s _place_neighbourhood) return_attr in
  let return_attr := put (key ATTR_FORMATTED_PLACE) (get s _formatted_place) return_attr in
  let return_attr := put (key ATTR_LATITUDE_OLD) (get s _latitude_old) return_attr in
  let return_attr := put (key ATTR_LONGITUDE_OLD) (get s _longitude_old) return_attr in
  let return_attr := put (key ATTR_LATITUDE) (get s _latitude) return_attr in
  let return_attr := put (key ATTR_LONGITUDE) (get s _longitude) return_attr in
  let return_attr := put (key ATTR_DEVICETRACKER_ID) (PStr (_devicetracker_id (config s))) return_attr in
  let return_attr := put (key ATTR_DEVICETRACKER_ZONE) (get s _devicetracker_zone) return_attr in
  let return_attr := put (key ATTR_DEVICETRACKER_ZONE_NAME) (get s _devicetracker_zone_name) return_attr in
  let return_attr := put (key ATTR_HOME_ZONE) (PStr (_home_zone (config s))) return_attr in
  let return_attr := put (key ATTR_PICTURE) (_attr_entity_picture (config s)) return_attr in
  let return_attr := put (key ATTR_DISTANCE_KM) (PNum (_distance_km s)) return_attr in
  let return_attr := put (key ATTR_DISTANCE_M) (PNum (_distance_m s)) return_attr in
  let return_attr := put (key ATTR_MTIME) (get s _mtime) return_attr in
  let return_attr := put (key ATTR_LAST_PLACE_NAME) (get s _last_place_name) return_attr in
  let return_attr := put (key ATTR_LOCATION_CURRENT) (get s _location_current) return_attr in
  let return_attr := put (key ATTR_LOCATION_PREVIOUS) (get s _location_previous) return_attr in
  let return_attr := put (key ATTR_HOME_LATITUDE) (of_opt (_home_latitude (config s))) return_attr in
  let return_attr := put (key ATTR_HOME_LONGITUDE) (of_opt (_home_longitude (config s))) return_attr in
  let return_attr := put (key ATTR_DIRECTION_OF_TRAVEL) (get s _direction) return_attr in
  let return_attr := put (key ATTR_MAP_LINK) (get s _map_link) return_attr in
  let return_attr := put (key ATTR_OPTIONS) (PStr (_options (config s))) return_attr in
  let return_attr := put (key ATTR_OSM_ID) (get s _osm_id) return_attr in
  let return_attr := put (key ATTR_OSM_TYPE) (get s _osm_type) return_attr in
  let return_attr := put (key ATTR_WIKIDATA_ID) (get s _wikidata_id) return_attr in
  let return_attr := put (key ATTR_OSM_DICT) (get s _osm_dict) return_attr in
  let return_attr := put (key ATTR_OSM_DETAILS_DICT) (get s _osm_details_dict) return_attr in
  let return_attr := put (key ATTR_WIKIDATA_DICT) (get s _wikidata_dict) return_attr in
  return_attr.

(** [if k in json_attr: self.<f> = json_attr.get(k)] *)
Definition load (json_attr : gmap string pyval) (k : attr_key) (f : field)
    (s : Places) : Places :=
  match json_attr !! key k with
  | Some v => set f v s
  | None => s
  end.

(** [if k in json_attr: self.<distance> = float(json_attr.get(k))] *)
Definition load_float (json_attr : gmap string pyval) (k : attr_key)
    (store : Q -> Places -> Places) (s : Places) : result Places :=
  match json_attr !! key k with
  | Some v => let* q := py_float v in Ok (store q s)
  | None => Ok s
  end.

(** [import_attributes], called by [__init__] with the decoded snapshot
    (the empty dictionary when there is none). *)
Definition import_attributes (json_attr : gmap string pyval) (s : Places) : result Places :=
  if decide (json_attr = ∅) then Ok s else
  let s := set_initial_update false s in
  let s := load json_attr CONF_STATE _attr_native_value s in
  let s := load json_attr ATTR_STREET_NUMBER _street_number s in
  let s := load json_attr ATTR_STREET _street s in
  let s := load json_attr ATTR_CITY _city s in
  let s := load json_attr ATTR_POSTAL_TOWN _postal_town s in
  let s := load json_attr ATTR_POSTAL_CODE _postal_code s in
  let s := load json_attr ATTR_REGION _region s in
  let s := load json_attr ATTR_STATE_ABBR _state_abbr s in
  let s := load json_attr ATTR_COUNTRY _country s in
  let s := load json_attr ATTR_COUNTY _county s in
  let s := load json_attr ATTR_FORMATTED_ADDRESS _formatted_address s in
  let s := load json_attr ATTR_PLACE_TYPE _place_type s in
  let s := load json_attr ATTR_PLACE_NAME _place_name s in
  let s := load json_attr ATTR_PLACE_CATEGORY _place_category s in
  let s := load json_attr ATTR_PLACE_NEIGHBOURHOOD _place_neighbourhood s in
  let s := load json_attr ATTR_FORMATTED_PLACE _formatted_place s in
  let s := load json_attr ATTR_LATITUDE_OLD _latitude_old s in
  let s := load json_attr ATTR_LONGITUDE_OLD _longitude_old s in
  let s := load json_attr ATTR_LATITUDE _latitude s in
  let s := load json_attr ATTR_LONGITUDE _longitude s in
  let s := load json_attr ATTR_DEVICETRACKER_ZONE _devicetracker_zone s in
  let s := load json_attr ATTR_DEVICETRACKER_ZONE_NAME _devicetracker_zone_name s in
  let* s := load_float json_attr ATTR_DISTANCE_KM set_distance_km s in
  let* s := load_float json_attr ATTR_DISTANCE_M set_distance_m s in
  let s := load json_attr ATTR_MTIME _mtime s in
  let s := load json_attr ATTR_LAST_PLACE_NAME _last_place_name s in
  let s := load json_attr ATTR_LOCATION_CURRENT _location_current s in
  let s := load json_attr ATTR_LOCATION_PREVIOUS _location_previous s in
  let s := load json_attr ATTR_DIRECTION_OF_TRAVEL _direction s in
  let s := load json_attr ATTR_MAP_LINK _map_link s in
  let s := load json_attr ATTR_OSM_ID _osm_id s in
  let s := load json_attr ATTR_OSM_TYPE _osm_type s in
  let s := load json_attr ATTR_WIKIDATA_ID _wikidata_id s in
  let s := load json_attr ATTR_OSM_DICT _osm_dict s in
  let s := load json_attr ATTR_OSM_DETAILS_DICT _osm_details_dict s in
  let s := load json_attr ATTR_WIKIDATA_DICT _wikidata_dict s in
  Ok s.

(** The dictionary [do_update] hands to [json.dump] when a cycle ends:
    name, state, then the attributes. *)
Definition sensor_attributes (s : Places) : gmap string pyval :=
  let d : gmap string pyval := <[key CONF_NAME := PStr (_attr_name (config s))]> ∅ in
  let d := <[key CONF_STATE := get s _attr_native_value]> d in
  extra_state_attributes s ∪ d.

(** The content of the snapshot file after the write: [None] when
    [json.dump] raised (the exception is caught and logged). *)
Definition save_snapshot (s : Places) : option (gmap string pyval) :=
  json_dump (sensor_attributes s).

(** A new entity reading the snapshot file back: [__init__] followed by
    [import_attributes]; a file that does not decode counts as no file. *)
Definition reload (file : option (gmap string pyval)) (cfg : Config) (now : string)
    : result Places :=
  import_attributes (default ∅ file) (init cfg now).

End Snapshot.

(** ** [_reset_attributes] *)

(** [now] is the [datetime.now()] object the method stores. *)
Definition _reset_attributes (now : string) (s : Places) : Places :=
  let s := set _street PNone s in
  let s := set _street_number PNone s in
  let s := set _city PNone s in
  let s := set _postal_town PNone s in
  let s := set _postal_code PNone s in
  let s := set _region PNone s in
  let s := set _state_abbr PNone s in
  let s := set _country PNone s in
  let s := set _county PNone s in
  let s := set _formatted_address PNone s in
  let s := set _place_type PNone s in
  let s := set _place_name PNone s in
  let s := set _mtime (PDatetime now) s in
  let s := set _osm_id PNone s in
  let s := set _osm_type PNone s in
  let s := set _wikidata_id PNone s in
  let s := set _osm_dict PNone s in
  let s := set _osm_details_dict PNone s in
  let s := set _wikidata_dict PNone s in
  set_updateskipped 0 s.

(** ** One update cycle: what the host and the network return *)

(** The decoded reply of the reverse-geocode request, typed after the
    Nominatim [jsonv2] schema: a key may be missing, a key that is there
    holds a string (the [address] and [namedetails] objects hold strings).
    [r_osm_id] is [str(osm_decoded["osm_id"])]; [r_raw] is the decoded
    dictionary itself. *)
Record Reply : Type := {
  r_type : option string;
  r_addresstype : option string;
  r_category : option string;
  r_address : option (gmap string string);
  r_namedetails : option (gmap string string);
  r_display_name : option string;
  r_osm_id : option string;
  r_osm_type : option string;
  r_error_message : option string;
  r_raw : pyval
}.

Record Cycle : Type := {
  (** the [friendly_name] attribute of the state the host holds for this
      entity, a string; [None] when the entity has no id or no state yet, or
      when the attribute is [None] (lines 901-910) *)
  friendly_name : option string;
  (** [str()] of the tracker's latitude and longitude when [is_float]
      accepts them (lines 961-976); the tracker reports numbers or the
      text of numbers, so that [float()] accepts these texts at lines
      1100-1112 (a tracker that reports a bool is not covered: [is_float]
      accepts it and [float("True")] raises [ValueError] at line 1100) *)
  new_latitude : option string;
  new_longitude : option string;
  (** the [gps_accuracy] attribute as a number, when there is one *)
  gps_accuracy_attr : option Q;
  (** [hass.states.get(devicetracker_id).state] *)
  tracker_state : string;
  (** the tracker's [zone] attribute and the name of that zone entity *)
  tracker_zone : option string;
  zone_entity_name : option string;
  (** [osm_decoded] when it is a non-empty dictionary; [None] when the
      request failed, the body was empty or did not decode *)
  osm_decoded : option Reply;
  (** [osm_details_dict] and [wikidata_dict] after their requests: the
      decoded body, [{}] without a usable response, [None] when the body
      does not decode *)
  osm_details_decoded : pyval;
  wikidata_decoded : pyval;
  (** the clock: [now.hour], [now.minute], [str(datetime.now())] at line
      1492 and the [datetime.now()] of [_reset_attributes] *)
  now_hour : nat;
  now_minute : nat;
  now_text : string;
  now_reset : string
}.

(** How a call of [do_update] ends, with the entity as it is then. *)
Inductive outcome : Type :=
| Done (s : Places)
| Raised (e : exn) (s : Places).

Definition state_of (o : outcome) : Places :=
  match o with Done s => s | Raised _ s => s end.

(** The call returned, no exception was raised. *)
Definition completes (o : outcome) : bool :=
  match o with Done _ => true | Raised _ _ => false end.

(** ** Reading the stored state (lines 871-1057) *)

(** [is_float(v)]: only [ValueError] is caught.  Python's [float] takes a
    bool, so [is_float] accepts one; [str] of it is then ['True'] or
    ['False'], which [float] refuses at lines 1100-1112: see [float_old]. *)
Definition is_float `{Builtins} (v : pyval) : result bool :=
  match v with
  | PNone => Ok false
  | PStr t => Ok (float_ok t)
  | PNum _ | PBool _ => Ok true
  | PList _ | PDict _ | PDatetime _ => Raise TypeError
  end.

(** [str(v)] for the values [is_float] accepts, and for [None] *)
Definition py_str `{Builtins} (v : pyval) : string :=
  match v with
  | PStr t => t
  | PNum q => str_num q
  | PBool true => "True"
  | PBool false => "False"
  | PNone => "None"
  | _ => EmptyString
  end.

(** [str(o)] for an optional string *)
Definition str_opt (o : option string) : string :=
  match o with Some t => t | None => "None" end.

(** [str(v) if is_float(v) else None] *)
Definition float_text `{Builtins} (v : pyval) : result (option string) :=
  let* b := is_float v in Ok (if b then Some (py_str v) else None).

(** [self._attr_native_value[:-14]] *)
Definition slice_off_time (v : pyval) : result pyval :=
  match v with
  | PStr t => Ok (PStr (PyStr.drop_last 14 t))
  | PList l => Ok (PList (firstn (length l - 14) l))
  | _ => Raise TypeError
  end.

(** [in_zone] when [self._devicetracker_zone] is the string [z] *)
Definition in_zone_str (z : string) : bool :=
  let z := PyStr.lower z in
  negb (PyStr.contains "stationary" z
        || String.eqb z "away"
        || String.eqb z "not_home"
        || String.eqb z "notset").

(** [in_zone] on the value of [self._devicetracker_zone] *)
Definition in_zone (zone : pyval) : result bool :=
  match zone with
  | PNone => Ok false
  | PStr z => Ok (in_zone_str z)
  | _ => Raise AttributeError
  end.

(** [a + "," + b] when both are there *)
Definition location (lat lon : option string) : option string :=
  match lat, lon with
  | Some a, Some b => Some (a +:+ "," +:+ b)
  | _, _ => None
  end.

(** The locals [do_update] computes from the stored state before the gate. *)
Record Prelude : Type := {
  previous_state : pyval;
  old_latitude : option string;
  old_longitude : option string;
  home_latitude : option string;
  home_longitude : option string;
  last_distance_m : Q;
  prev_last_place_name : pyval;
  last_place_name : pyval
}.

(** Lines 871-874: the previous display state without its time suffix *)
Definition previous_state_of (s : Places) : result pyval :=
  if negb (is_none (get s _attr_native_value)) && _show_time (config s)
  then slice_off_time (get s _attr_native_value)
  else Ok (get s _attr_native_value).

(** Lines 901-944: the entity takes the friendly name the host shows for
    it when that is another name than its own. *)
Definition sync_name (c : Cycle) (s : Places) : Places :=
  match friendly_name c with
  | Some name =>
      if negb (String.eqb (_attr_name (config s)) name) then set_name name s else s
  | None => s
  end.

(** Lines 871-874 and 957-1057: the previous display state without its
    time suffix, the old and the home coordinates, the last place name. *)
Definition read_state `{Builtins} (s : Places) : result Prelude :=
  let cfg := config s in
  let* previous_state := previous_state_of s in
  let* old_latitude := float_text (get s _latitude) in
  let* old_longitude := float_text (get s _longitude) in
  let* home_latitude := float_text (of_opt (_home_latitude cfg)) in
  let* home_longitude := float_text (of_opt (_home_longitude cfg)) in
  let* zoned := in_zone (get s _devicetracker_zone) in
  let last_place_name :=
    if negb zoned then
      if negb (is_none (get s _place_name)) && negb (eq_opt_str (get s _place_name) (Some "-"))
      then get s _place_name
      else get s _last_place_name
    else get s _devicetracker_zone_name in
  Ok {| previous_state := previous_state;
        old_latitude := old_latitude; old_longitude := old_longitude;
        home_latitude := home_latitude; home_longitude := home_longitude;
        last_distance_m := _distance_m s;
        prev_last_place_name := get s _last_place_name;
        last_place_name := last_place_name |}.

(** ** Geo-math and gate (lines 1092-1252) *)

(** [int(x)]: truncation towards zero *)
Definition int (x : Q) : Z := Z.quot (Qnum x) (Zpos (Qden x)).

(** [round(x)] to the nearest integer, ties to even *)
Definition round_half_even (x : Q) : Z :=
  let f := Qfloor x in
  match Qcompare (x - inject_Z f) (1 # 2) with
  | Lt => f
  | Gt => f + 1
  | Eq => if Z.even f then f else f + 1
  end.

(** [round(distance_m / 1000, 3)] *)
Definition round_km (distance_m : Q) : Q := inject_Z (round_half_even distance_m) / 1000.

(** Lines 1114-1121, given the value of [deviation] *)
Definition classify_direction (deviation last_distance_m distance_m : Q) : string :=
  if Qle_bool deviation (2 # 10) then "stationary"
  else if Qlt_le_dec distance_m last_distance_m then "towards home"
  else if Qlt_le_dec last_distance_m distance_m then "away from home"
  else "stationary".

(** All four of the new and the home coordinates are there. *)
Definition coordinates_ok (c : Cycle) (p : Prelude) : bool :=
  bool_decide (is_Some (new_latitude c)) && bool_decide (is_Some (new_longitude c))
  && bool_decide (is_Some (home_latitude p)) && bool_decide (is_Some (home_longitude p)).

(** [old_latitude is not None and old_longitude is not None] *)
Definition has_old (p : Prelude) : bool :=
  bool_decide (is_Some (old_latitude p)) && bool_decide (is_Some (old_longitude p)).

(** The log line 1138 subscripts [self._home_zone.split(".")[1]] once the
    coordinates are there. *)
Definition log_home_zone (c : Cycle) (p : Prelude) (cfg : Config) : result unit :=
  if coordinates_ok c p then
    match PyStr.split "." (_home_zone cfg) with
    | _ :: _ :: _ => Ok tt
    | _ => Raise IndexError
    end
  else Ok tt.

(** [float(old_latitude)] and [float(old_longitude)] at lines 1109-1110,
    evaluated once all six coordinates are there.  [old_latitude] is
    [str(self._latitude)]: the text of a number, or a text [float()]
    accepted in [is_float]; but [is_float] also accepts a bool, and
    [float("True")] raises [ValueError]. *)
Definition float_old (c : Cycle) (p : Prelude) (s : Places) : result unit :=
  if coordinates_ok c p && has_old p then
    match get s _latitude, get s _longitude with
    | PBool _, _ | _, PBool _ => Raise ValueError
    | _, _ => Ok tt
    end
  else Ok tt.

(** Everything [do_update] evaluates before the gate, the name apart:
    nothing else is assigned to the entity up to there. *)
Definition prelude `{Builtins} (c : Cycle) (s : Places) : result Prelude :=
  let* p := read_state s in
  let* _ := float_old c p s in
  let* _ := log_home_zone c p (config s) in
  Ok p.

(** The text of a coordinate that is there *)
Definition text (o : option string) : string := default EmptyString o.

(** [distance_m]: meters between the new position and home *)
Definition distance_m `{Builtins} (c : Cycle) (p : Prelude) : Q :=
  distance (text (new_latitude c)) (text (new_longitude c))
           (text (home_latitude p)) (text (home_longitude p)).

(** [deviation], with the arguments in the order of the call at line 1108 *)
Definition deviation `{Builtins} (c : Cycle) (p : Prelude) : Q :=
  haversine_float (text (old_latitude p)) (text (old_longitude p))
                  (text (new_latitude c)) (text (new_longitude c)).

Definition direction `{Builtins} (c : Cycle) (p : Prelude) : string :=
  if has_old p
  then classify_direction (deviation c p) (last_distance_m p) (distance_m c p)
  else "stationary".

(** [distance_traveled]: meters between the new and the old position,
    [0] without an old position *)
Definition distance_traveled `{Builtins} (c : Cycle) (p : Prelude) : Q :=
  if has_old p
  then distance (text (new_latitude c)) (text (new_longitude c))
                (text (old_latitude p)) (text (old_longitude p))
  else 0%Q.

(** [gps_accuracy]: [1] unless the tracker reports a number *)
Definition gps_accuracy (c : Cycle) : Q := default 1%Q (gps_accuracy_attr c).

Definition current_location (c : Cycle) : option string :=
  location (new_latitude c) (new_longitude c).

Definition previous_location (p : Prelude) : option string :=
  location (old_latitude p) (old_longitude p).

(** [devicetracker_zone_name] (lines 1157-1173) *)
Definition devicetracker_zone_name (c : Cycle) : string :=
  let name :=
    match tracker_zone c with
    | Some _ => default (tracker_state c) (zone_entity_name c)
    | None => tracker_state c
    end in
  if String.eqb (PyStr.lower name) name then PyStr.title name else name.

(** The chain of lines 1215-1252: the value of [proceed_with_update] and
    of [self._updateskipped] after it. *)
Definition update_gate `{Builtins} (c : Cycle) (p : Prelude) (s : Places) : bool * Z :=
  let skipped := _updateskipped s in
  if negb (coordinates_ok c p) then (false, skipped)
  else if Qeq_bool (gps_accuracy c) 0 then (false, skipped)
  else if initial_update s then (true, skipped)
  else if bool_decide (current_location c = previous_location p) then (false, skipped)
  else if (0 <? int (distance_traveled c p)) && (3 <? skipped) then (true, skipped)
  else if int (distance_traveled c p) <? 10 then (false, skipped + 1)
  else (true, skipped).

(** The three map links (lines 1065-1091) *)
Definition maplink_apple (c : Cycle) (cfg : Config) : string :=
  "https://maps.apple.com/maps/?q=" +:+ str_opt (current_location c)
  +:+ "&z=" +:+ pretty (_map_zoom cfg).

Definition maplink_google (c : Cycle) (cfg : Config) : string :=
  "https://maps.google.com/?q=" +:+ str_opt (current_location c)
  +:+ "&ll=" +:+ str_opt (current_location c)
  +:+ "&z=" +:+ pretty (_map_zoom cfg).

Definition maplink_osm (c : Cycle) (cfg : Config) : string :=
  "https://www.openstreetmap.org/?mlat=" +:+ str_opt (new_latitude c)
  +:+ "&mlon=" +:+ str_opt (new_longitude c)
  +:+ "#map=" +:+ pretty (_map_zoom cfg)
  +:+ "/" +:+ PyStr.take 8 (str_opt (new_latitude c))
  +:+ "/" +:+ PyStr.take 9 (str_opt (new_longitude c)).

(** Lines 1260-1289: the zone, the reset, the new position *)
Definition begin_update `{Builtins} (c : Cycle) (p : Prelude) (s : Places) : Places :=
  let cfg := config s in
  let s := set _devicetracker_zone (PStr (tracker_state c)) s in
  let s := _reset_attributes (now_reset c) s in
  let s := set _latitude (of_opt (new_latitude c)) s in
  let s := set _longitude (of_opt (new_longitude c)) s in
  let s := set _latitude_old (of_opt (old_latitude p)) s in
  let s := set _longitude_old (of_opt (old_longitude p)) s in
  let s := set _location_current (of_opt (current_location c)) s in
  let s := set _location_previous (of_opt (previous_location p)) s in
  let s := set _devicetracker_zone (PStr (tracker_state c)) s in
  let s := set _devicetracker_zone_name (PStr (devicetracker_zone_name c)) s in
  let s := set_distance_km (round_km (distance_m c p)) s in
  let s := set_distance_m (distance_m c p) s in
  let s := set _direction (PStr (direction c p)) s in
  set _map_link
    (PStr (if String.eqb (_map_provider cfg) "google" then maplink_google c cfg
           else if String.eqb (_map_provider cfg) "osm" then maplink_osm c cfg
           else maplink_apple c cfg)) s.

(** ** The parser of the reply (lines 1385-1475) *)

(** [d[k]] when the key may be missing *)
Definition need {A : Type} (k : string) (o : option A) : result A :=
  match o with Some a => Ok a | None => Raise (KeyError k) end.

(** [y if y is there else x]: an assignment under [if key in dict] *)
Definition override (x y : option string) : option string :=
  match y with Some _ => y | None => x end.

(** The loop of lines 1419-1424: the first language code, in the
    configured order, with a ["name:" + code] entry. *)
Fixpoint language_name (languages : list string) (namedetails : gmap string string)
    : option string :=
  match languages with
  | [] => None
  | language :: rest =>
      match namedetails !! ("name:" +:+ language) with
      | Some v => Some v
      | None => language_name rest namedetails
      end
  end.

(** The value of the first key of [keys] that [d] has *)
Fixpoint first_present (keys : list string) (d : gmap string string) : option string :=
  match keys with
  | [] => None
  | k :: rest => match d !! k with Some v => Some v | None => first_present rest d end
  end.

(** The locals the parser assigns. *)
Record Parsed : Type := {
  place_type : option string;
  place_name : option string;
  place_category : option string;
  place_neighbourhood : option string;
  street_number : option string;
  street : option string;
  city : option string;
  postal_town : option string;
  region : option string;
  state_abbr : option string;
  county : option string;
  country : option string;
  postal_code : option string;
  formatted_address : option string;
  osm_id : option string;
  osm_type : option string;
  (** [new_state] after line 1426 *)
  new_state_place : option string
}.

(** Lines 1406-1426: [(place_type, place_category, place_name, new_state)] *)
Definition parse_place (cfg : Config) (zone : string) (r : Reply)
    : result (option string * option string * option string * option string) :=
  if PyStr.contains "place" (_options cfg) then
    let* place_type := need "type" (r_type r) in
    let* place_type :=
      (if String.eqb place_type "yes"
       then need "addresstype" (r_addresstype r) else Ok place_type) in
    let* address := need "address" (r_address r) in
    let place_name := address !! place_type in
    let place_category := r_category r in
    let place_name :=
      match place_category with
      | Some category => override place_name (address !! category)
      | None => place_name
      end in
    let* namedetails := need "namedetails" (r_namedetails r) in
    let place_name := override place_name (namedetails !! "name") in
    let place_name :=
      match _language cfg with
      | Some languages =>
          override place_name (language_name (PyStr.split "," languages) namedetails)
      | None => place_name
      end in
    let new_state :=
      if negb (in_zone_str zone) && negb (bool_decide (place_name = Some "house"))
      then place_name else None in
    Ok (Some place_type, place_category, place_name, new_state)
  else Ok (None, None, None, None).

(** [address["ISO3166-2-lvl4"].split("-")[1].upper()] *)
Definition parse_state_abbr (address : gmap string string) : result (option string) :=
  match address !! "ISO3166-2-lvl4" with
  | Some v =>
      match PyStr.split "-" v with
      | _ :: abbr :: _ => Ok (Some (PyStr.upper abbr))
      | _ => Raise IndexError
      end
  | None => Ok None
  end.

Definition parse_city (address : gmap string string) : option string :=
  match first_present
          ["city"; "town"; "village"; "township"; "municipality"; "city_district"]
          address with
  | Some city =>
      if PyStr.startswith "City of" city
      then Some (PyStr.drop 8 city +:+ " City") else Some city
  | None => None
  end.

Definition parse_reply (cfg : Config) (zone : string) (r : Reply) : result Parsed :=
  let* place := parse_place cfg zone r in
  let '(place_type, place_category, place_name, new_state) := place in
  let* address := need "address" (r_address r) in
  let* state_abbr := parse_state_abbr address in
  Ok {| place_type := place_type;
        place_name := place_name;
        place_category := place_category;
        place_neighbourhood := first_present ["neighbourhood"; "hamlet"] address;
        street_number := address !! "house_number";
        street := address !! "road";
        city := parse_city address;
        postal_town := override (address !! "city_district") (address !! "suburb");
        region := address !! "state";
        state_abbr := state_abbr;
        county := address !! "county";
        country := address !! "country";
        postal_code := address !! "postcode";
        formatted_address := r_display_name r;
        osm_id := r_osm_id r;
        osm_type := r_osm_type r;
        new_state_place := new_state |}.

(** ** Storing the parsed locals (lines 1477-1525) *)

(** [last_place_name] at line 1522 *)
Definition next_last_place_name (c : Cycle) (p : Prelude) (q : Parsed) (s : Places) : pyval :=
  if initial_update s then get s _last_place_name
  else if eq_opt_str (last_place_name p) (place_name q)
          || eq_opt_str (last_place_name p) (Some (devicetracker_zone_name c))
  then get s _last_place_name
  else last_place_name p.

Definition store_parsed (c : Cycle) (p : Prelude) (q : Parsed) (s : Places) : Places :=
  let last := next_last_place_name c p q s in
  let s := set _place_type (of_opt (place_type q)) s in
  let s := set _place_category (of_opt (place_category q)) s in
  let s := set _place_neighbourhood (of_opt (place_neighbourhood q)) s in
  let s := set _place_name (of_opt (place_name q)) s in
  let s := set _street_number (of_opt (street_number q)) s in
  let s := set _street (of_opt (street q)) s in
  let s := set _city (of_opt (city q)) s in
  let s := set _postal_town (of_opt (postal_town q)) s in
  let s := set _region (of_opt (region q)) s in
  let s := set _state_abbr (of_opt (state_abbr q)) s in
  let s := set _county (of_opt (county q)) s in
  let s := set _country (of_opt (country q)) s in
  let s := set _postal_code (of_opt (postal_code q)) s in
  let s := set _formatted_address (of_opt (formatted_address q)) s in
  let s := set _mtime (PStr (now_text c)) s in
  let s := match osm_id q with Some i => set _osm_id (PStr i) s | None => s end in
  let s := set _osm_type (of_opt (osm_type q)) s in
  set _last_place_name last s.

(** ** The display formatter (lines 1527-1731) *)

Definition newline : string := String (ascii_of_nat 10) EmptyString.

(** [display_options]: the options string split at the commas, each
    piece stripped *)
Definition display_options (cfg : Config) : list string :=
  map PyStr.strip (PyStr.split "," (_options cfg)).

(** [[x]] when [x] is there, nothing otherwise *)
Definition opt (o : option string) : list string :=
  match o with Some x => [x] | None => [] end.

Definition isDriving (options : list string) (direction : string) (q : Parsed) : bool :=
  negb (String.eqb direction "stationary")
  && (bool_decide (place_category q = Some "highway")
      || bool_decide (place_type q = Some "motorway"))
  && PyStr.mem "driving" options.

(** Lines 1560-1566 *)
Definition category_label (q : Parsed) : list string :=
  match place_category q with
  | Some pc =>
      if negb (String.eqb (PyStr.lower pc) "highway")
      then [PyStr.strip (PyStr.title pc)] else []
  | None => []
  end.

(** Lines 1549-1566: [place_category.lower()] is evaluated, also when
    [place_category] is [None], once [place_type] is there and is not
    "unclassified". *)
Definition type_label (q : Parsed) : result (list string) :=
  match place_type q with
  | Some pt =>
      if String.eqb (PyStr.lower pt) "unclassified" then Ok (category_label q)
      else match place_category q with
           | None => Raise AttributeError
           | Some pc =>
               if negb (String.eqb (PyStr.lower pc) "highway")
               then Ok [PyStr.strip (PyStr.replace "Construction" EmptyString
                          (PyStr.replace "Proposed" EmptyString (PyStr.title pt)))]
               else Ok (category_label q)
           end
  | None => Ok (category_label q)
  end.

Definition street_label (q : Parsed) : list string :=
  match street q with
  | Some st =>
      match street_number q with
      | None => [PyStr.strip st]
      | Some n => [PyStr.strip n +:+ " " +:+ PyStr.strip st]
      end
  | None => []
  end.

Definition house_label (q : Parsed) : list string :=
  match place_type q, place_neighbourhood q with
  | Some pt, Some nb =>
      if String.eqb (PyStr.lower pt) "house" then [PyStr.strip nb] else []
  | _, _ => []
  end.

Definition city_label (q : Parsed) : list string :=
  match city q with
  | Some ci => [PyStr.strip (PyStr.replace " Township" EmptyString ci)]
  | None => match county q with Some co => [PyStr.strip co] | None => [] end
  end.

Definition formatted_place_array (options : list string)
    (zone zone_name direction : string) (q : Parsed) : result (list string) :=
  if negb (in_zone_str zone) then
    let driving := if isDriving options direction q then ["Driving"] else [] in
    let* place :=
      match place_name q with
      | None =>
          let* label := type_label q in
          Ok (label ++ street_label q ++ house_label q)
      | Some pn => Ok [PyStr.strip pn]
      end in
    Ok (driving ++ place ++ city_label q ++ opt (state_abbr q))
  else Ok [PyStr.strip zone_name].

(** [formatted_place] (lines 1597-1600) *)
Definition formatted_place (options : list string)
    (zone zone_name direction : string) (q : Parsed) : result string :=
  let* array := formatted_place_array options zone zone_name direction q in
  Ok (PyStr.strip (PyStr.replace "  " " "
        (PyStr.replace newline " " (PyStr.join ", " array)))).

(** [user_display] before line 1694 *)
Definition user_display (options : list string)
    (zone zone_name direction : string) (q : Parsed) : list string :=
  let has o := PyStr.mem o options in
  (if has "driving" && isDriving options direction q then ["Driving"] else [])
  ++ (if has "zone_name" && negb (has "do_not_show_not_home") then [zone_name]
      else if has "zone" && negb (has "do_not_show_not_home") then [zone]
      else [])
  ++ (if has "place_name" then opt (place_name q) else [])
  ++ (if has "place" then
        opt (place_name q)
        ++ match place_category q with
           | Some pc => if negb (String.eqb (PyStr.lower pc) "place") then [pc] else []
           | None => []
           end
        ++ match place_type q with
           | Some pt => if negb (String.eqb (PyStr.lower pt) "yes") then [pt] else []
           | None => []
           end
        ++ opt (place_neighbourhood q)
        ++ opt (street_number q)
        ++ opt (street q)
      else
        (if has "street_number" then opt (street_number q) else [])
        ++ (if has "street" then opt (street q) else []))
  ++ (if has "city" then opt (city q) else [])
  ++ (if has "county" then opt (county q) else [])
  ++ (if has "state" || has "region" then opt (region q) else [])
  ++ (if has "postal_code" then opt (postal_code q) else [])
  ++ (if has "country" then opt (country q) else [])
  ++ (if has "formatted_address" then opt (formatted_address q) else []).

(** The names [locals()] holds at line 1702.  [deviation] is bound when
    there is an old position, [language] when the loop of line 1419 ran. *)
Definition locals (deviation_bound language_bound : bool) : list string :=
  [ "self"; "reason"; "previous_state"; "new_state"; "distance_traveled";
    "devicetracker_zone"; "devicetracker_zone_id";
    "devicetracker_zone_name_state"; "devicetracker_zone_name";
    "home_latitude"; "home_longitude"; "old_latitude"; "old_longitude";
    "new_latitude"; "new_longitude"; "last_distance_m"; "last_updated";
    "current_location"; "previous_location"; "home_location";
    "maplink_apple"; "maplink_google"; "maplink_osm"; "last_place_name";
    "prev_last_place_name"; "gps_accuracy"; "now"; "proceed_with_update";
    "distance_m"; "distance_km"; "direction"; "osm_url"; "osm_decoded";
    "osm_response"; "osm_json_input"; "place_type"; "place_name";
    "place_category"; "place_neighbourhood"; "street_number"; "street";
    "city"; "postal_town"; "region"; "state_abbr"; "county"; "country";
    "postal_code"; "formatted_address"; "target_option"; "formatted_place";
    "osm_id"; "osm_type"; "wikidata_id"; "isDriving"; "display_options";
    "options_array"; "option"; "formatted_place_array"; "user_display" ]
  ++ (if deviation_bound then ["deviation"] else [])
  ++ (if language_bound then ["language"] else []).

(** [items.remove(x)]: the first occurrence goes *)
Fixpoint remove_first (x : string) (items : list string) : list string :=
  match items with
  | [] => []
  | y :: rest => if String.eqb x y then rest else y :: remove_first x rest
  end.

(** The loop of lines 1697-1703: [target_option] and what is appended *)
Fixpoint reorder (names : list string) (target_option : option string)
    (options : list string) : list (option string) :=
  match options with
  | [] => []
  | option :: rest =>
      let target_option := if String.eqb option "state" then Some "region" else target_option in
      let target_option :=
        if String.eqb option "place_neighborhood" then Some "place_neighbourhood"
        else target_option in
      if PyStr.mem option names
      then target_option :: reorder names target_option rest
      else reorder names target_option rest
  end.

(** [", ".join(items)] raises [TypeError] on an item that is [None]. *)
Fixpoint all_strings (items : list (option string)) : result (list string) :=
  match items with
  | [] => Ok []
  | Some x :: rest => let* r := all_strings rest in Ok (x :: r)
  | None :: _ => Raise TypeError
  end.

(** [new_state] after line 1731 *)
Definition build_new_state (cfg : Config) (names : list string)
    (zone zone_name direction : string) (r : Reply) (q : Parsed)
    (formatted_place : string) : result (option string) :=
  let options := display_options cfg in
  match r_error_message r with
  | Some error_message => Ok (Some error_message)
  | None =>
      if PyStr.mem "formatted_place" options then Ok (Some formatted_place)
      else if negb (in_zone_str zone) then
        let* display :=
          (if PyStr.mem "do_not_reorder" options
           then all_strings (reorder names None (remove_first "do_not_reorder" options))
           else Ok (user_display options zone zone_name direction q)) in
        match display with
        | [] => Ok (new_state_place q)
        | _ => Ok (Some (PyStr.join ", " display))
        end
      else if PyStr.mem "zone_name" options then Ok (Some zone_name)
      else Ok (Some zone)
  end.

(** ** Committing the display state (lines 1735-2033) *)

(** ["%02d:%02d" % (now.hour, now.minute)] *)
Definition current_time (c : Cycle) : string :=
  PyStr.fmt02 (now_hour c) +:+ ":" +:+ PyStr.fmt02 (now_minute c).

(** The condition of lines 1737-1750 *)
Definition state_changed (previous_state : pyval) (new_state : option string)
    (zone : string) (initial : bool) : result bool :=
  match previous_state, new_state with
  | PNone, _ => Ok true
  | _, None => Ok true
  | PStr ps, Some ns =>
      let a := PyStr.strip (PyStr.lower ps) in
      let b := PyStr.strip (PyStr.lower ns) in
      let a' := PyStr.strip (PyStr.lower (PyStr.replace " " EmptyString ps)) in
      let z := PyStr.strip (PyStr.lower zone) in
      Ok ((negb (String.eqb a b) && negb (String.eqb a' b) && negb (String.eqb a z))
          || initial)
  | _, Some _ => Raise AttributeError
  end.

(** Lines 2018-2033: the new value of [self._attr_native_value] *)
Definition commit_state (show_time : bool) (current_time : string)
    (new_state : option string) : pyval :=
  match new_state with
  | Some ns =>
      if show_time
      then PStr (PyStr.take (255 - 14) ns +:+ " (since " +:+ current_time +:+ ")")
      else PStr (PyStr.take 255 ns)
  | None => PNone
  end.

(** Lines 1755-1760; no branch binds [osm_type_abbr] for another type. *)
Definition osm_type_abbr (osm_type : string) : result string :=
  let t := PyStr.lower osm_type in
  if String.eqb t "node" then Ok "N"
  else if String.eqb t "way" then Ok "W"
  else if String.eqb t "relation" then Ok "R"
  else Raise (UnboundLocalError "osm_type_abbr").

(** Lines 1886-1893 *)
Definition wikidata_of (details : pyval) : result pyval :=
  if truthy details then
    let* has := py_in "extratags" details in
    if has : bool then
      let* extratags := py_getitem details "extratags" in
      let* has := py_in "wikidata" extratags in
      if has : bool then py_getitem extratags "wikidata" else Ok PNone
    else Ok PNone
  else Ok PNone.

(** The extended fetches (lines 1752-2017), run when [_extended_attr] is
    set.  A [Response] object never contains the text "error_message". *)
Definition extended_fetch (c : Cycle) (q : Parsed) (s : Places) : outcome :=
  match osm_id q, osm_type q with
  | Some _, Some ty =>
      match osm_type_abbr ty with
      | Raise e => Raised e s
      | Ok _ =>
          let s := set _osm_details_dict (osm_details_decoded c) s in
          match wikidata_of (osm_details_decoded c) with
          | Raise e => Raised e s
          | Ok wikidata_id =>
              let s := set _wikidata_id wikidata_id s in
              Done (if is_none wikidata_id then s
                    else set _wikidata_dict (wikidata_decoded c) s)
          end
      end
  | _, _ => Done s
  end.

(** Building the event (lines 2035-2085) reads [wikidata_dict], which is
    bound only inside the extended fetch. *)
Definition event_data (cfg : Config) (q : Parsed) : result unit :=
  if _extended_attr cfg then
    match osm_id q, osm_type q with
    | Some _, Some _ => Ok tt
    | _, _ => Raise (UnboundLocalError "wikidata_dict")
    end
  else Ok tt.

(** Line 2108 *)
Definition finish (s : Places) : outcome := Done (set_initial_update false s).

(** Lines 2018-2033 and the event, once the display state counts as changed *)
Definition commit (c : Cycle) (q : Parsed) (new_state : option string) (s : Places) : outcome :=
  let cfg := config s in
  let s := set _attr_native_value (commit_state (_show_time cfg) (current_time c) new_state) s in
  match event_data cfg q with
  | Raise e => Raised e s
  | Ok _ => finish s
  end.

(** Lines 1385-2107: the reply is a non-empty dictionary. *)
Definition geocode_stage `{Builtins} (c : Cycle) (p : Prelude) (r : Reply) (s : Places) : outcome :=
  let cfg := config s in
  let zone := tracker_state c in
  let zone_name := devicetracker_zone_name c in
  match parse_reply cfg zone r with
  | Raise e => Raised e s
  | Ok q =>
      let s := store_parsed c p q s in
      match formatted_place (display_options cfg) zone zone_name (direction c p) q with
      | Raise e => Raised e s
      | Ok fp =>
          let s := set _formatted_place (PStr fp) s in
          let names :=
            locals (has_old p)
              (PyStr.contains "place" (_options cfg)
               && bool_decide (is_Some (_language cfg))) in
          match build_new_state cfg names zone zone_name (direction c p) r q fp with
          | Raise e => Raised e s
          | Ok new_state =>
              let s := if _extended_attr cfg then set _osm_dict (r_raw r) s else s in
              match state_changed (previous_state p) new_state zone (initial_update s) with
              | Raise e => Raised e s
              | Ok false => finish s
              | Ok true =>
                  if _extended_attr cfg then
                    match extended_fetch c q s with
                    | Raised e s => Raised e s
                    | Done s => commit c q new_state s
                    end
                  else commit c q new_state s
              end
          end
      end
  end.

(** ** [do_update] *)

(** The value of [proceed_with_update] after the gate *)
Definition proceed_with_update `{Builtins} (c : Cycle) (s : Places) : result bool :=
  let* p := prelude c s in Ok (fst (update_gate c p s)).

(** The slice of line 872 is evaluated before the name is synchronised,
    the rest of what [prelude] evaluates after it. *)
Definition do_update `{Builtins} (c : Cycle) (s : Places) : outcome :=
  match previous_state_of s with
  | Raise e => Raised e s
  | Ok _ =>
      let s := sync_name c s in
      match prelude c s with
      | Raise e => Raised e s
      | Ok p =>
          let '(proceed, skipped) := update_gate c p s in
          let s := set_updateskipped skipped s in
          if proceed && negb (String.eqb (tracker_state c) EmptyString) then
            let s := begin_update c p s in
            match osm_decoded c with
            | Some r => geocode_stage c p r s
            | None => finish s
            end
          else Done s
      end
  end.

(** ** [haversine] (lines 827-841), over the real numbers *)

Module Geo.

Local Open Scope R_scope.

(** [math.radians] *)
Definition radians (x : R) : R := x * (PI / 180).

Definition haversine (lon1 lat1 lon2 lat2 : R) : R :=
  let lon1 := radians lon1 in
  let lat1 := radians lat1 in
  let lon2 := radians lon2 in
  let lat2 := radians lat2 in
  let dlon := lon2 - lon1 in
  let dlat := lat2 - lat1 in
  let a := sin (dlat / 2) ^ 2 + cos lat1 * cos lat2 * sin (dlon / 2) ^ 2 in
  let c := 2 * asin (sqrt a) in
  let r := 6371 in
  c * r.

(** The call of line 1108: the latitudes are passed where [haversine]
    takes the longitudes, and the other way round. *)
Definition deviation_call (old_latitude old_longitude new_latitude new_longitude : R) : R :=
  haversine old_latitude old_longitude new_latitude new_longitude.

End Geo.

(** ** Sample data *)

Module Sample.

(** Key texts for the attribute dictionary, one per constant. *)
Definition key (k : attr_key) : string :=
  match k with
  | ATTR_STREET_NUMBER => "street_number" | ATTR_STREET => "street"
  | ATTR_CITY => "city" | ATTR_POSTAL_TOWN => "postal_town"
  | ATTR_POSTAL_CODE => "postal_code" | ATTR_REGION => "state_province"
  | ATTR_STATE_ABBR => "state_abbr" | ATTR_COUNTRY => "country"
  | ATTR_COUNTY => "county" | ATTR_FORMATTED_ADDRESS => "formatted_address"
  | ATTR_PLACE_TYPE => "place_type" | ATTR_PLACE_NAME => "place_name"
  | ATTR_PLACE_CATEGORY => "place_category"
  | ATTR_PLACE_NEIGHBOURHOOD => "place_neighbourhood"
  | ATTR_FORMATTED_PLACE => "formatted_place"
  | ATTR_LATITUDE_OLD => "previous_latitude"
  | ATTR_LONGITUDE_OLD => "previous_longitude"
  | ATTR_LATITUDE => "current_latitude" | ATTR_LONGITUDE => "current_longitude"
  | ATTR_DEVICETRACKER_ID => "devicetracker_entityid"
  | ATTR_DEVICETRACKER_ZONE => "devicetracker_zone"
  | ATTR_DEVICETRACKER_ZONE_NAME => "devicetracker_zone_name"
  | ATTR_HOME_ZONE => "home_zone" | ATTR_PICTURE => "entity_picture"
  | ATTR_DISTANCE_KM => "distance_from_home_km"
  | ATTR_DISTANCE_M => "distance_from_home_m"
  | ATTR_MTIME => "last_changed" | ATTR_LAST_PLACE_NAME => "last_place_name"
  | ATTR_LOCATION_CURRENT => "current_location"
  | ATTR_LOCATION_PREVIOUS => "previous_location"
  | ATTR_HOME_LATITUDE => "home_latitude" | ATTR_HOME_LONGITUDE => "home_longitude"
  | ATTR_DIRECTION_OF_TRAVEL => "direction_of_travel"
  | ATTR_MAP_LINK => "map_link" | ATTR_OPTIONS => "options"
  | ATTR_OSM_ID => "osm_id" | ATTR_OSM_TYPE => "osm_type"
  | ATTR_WIKIDATA_ID => "wikidata_id" | ATTR_OSM_DICT => "osm_dict"
  | ATTR_OSM_DETAILS_DICT => "osm_details_dict"
  | ATTR_WIKIDATA_DICT => "wikidata_dict"
  | CONF_NAME => "name" | CONF_STATE => "state"
  end.

(** Builtins for the examples: every non-empty text is a number, the
    tracker is [to_home] meters from home and moved [moved] meters. *)
Definition builtins (to_home moved dev : Q) : Builtins :=
  {| float_ok := fun t => negb (String.eqb t EmptyString);
     float_of := fun _ => 0%Q;
     str_num := fun _ => "0";
     distance := fun _ _ c _ => if String.eqb c "51.5" then to_home else moved;
     haversine_float := fun _ _ _ _ => dev |}.

Definition cfg (options : string) (language : option string) : Config :=
  {| _attr_name := "Places"; _api_key := None; _options := options;
     _devicetracker_id := "device_tracker.phone"; _home_zone := "zone.home";
     _map_provider := "osm"; _map_zoom := 18; _language := language;
     _extended_attr := false; _show_time := false;
     _home_latitude := Some "51.5"; _home_longitude := Some "-0.1";
     _attr_entity_picture := PNone |}.

(** An entity that already completed an update at (51.6, -0.2). *)
Definition entity (options : string) (skipped : Z) : Places :=
  {| config := cfg options None; initial_update := false;
     _updateskipped := skipped; _distance_km := 12; _distance_m := 12000;
     attrs := <[_latitude := PStr "51.6"]> (<[_longitude := PStr "-0.2"]>
                (<[_devicetracker_zone := PStr "not_home"]> (init_attrs "2023-01-01 10:00:00"))) |}.

Definition reply (address namedetails : option (gmap string string))
    (error_message : option string) : Reply :=
  {| r_type := Some "park"; r_addresstype := Some "leisure";
     r_category := Some "leisure"; r_address := address;
     r_namedetails := namedetails; r_display_name := None;
     r_osm_id := None; r_osm_type := None;
     r_error_message := error_message; r_raw := PDict [] |}.

Definition cycle (accuracy : option Q) (zone : string) (r : option Reply) : Cycle :=
  {| friendly_name := None;
     new_latitude := Some "51.7"; new_longitude := Some "-0.3";
     gps_accuracy_attr := accuracy; tracker_state := zone;
     tracker_zone := None; zone_entity_name := None;
     osm_decoded := r; osm_details_decoded := PDict [];
     wikidata_decoded := PDict [];
     now_hour := 9; now_minute := 5;
     now_text := "2023-01-01 09:05:00"; now_reset := "2023-01-01 09:04:59" |}.

(** The cycle [c] when the host shows the entity under [name]. *)
Definition renamed (name : string) (c : Cycle) : Cycle :=
  {| friendly_name := Some name;
     new_latitude := new_latitude c; new_longitude := new_longitude c;
     gps_accuracy_attr := gps_accuracy_attr c; tracker_state := tracker_state c;
     tracker_zone := tracker_zone c; zone_entity_name := zone_entity_name c;
     osm_decoded := osm_decoded c; osm_details_decoded := osm_details_decoded c;
     wikidata_decoded := wikidata_decoded c;
     now_hour := now_hour c; now_minute := now_minute c;
     now_text := now_text c; now_reset := now_reset c |}.

End Sample.

(** ** Predicates used in the statements *)

(** The attributes [_reset_attributes] sets to [None]. *)
Definition reset_fields : list field :=
  [ _street; _street_number; _city; _postal_town; _postal_code; _region;
    _state_abbr; _country; _county; _formatted_address; _place_type;
    _place_name; _osm_id; _osm_type; _wikidata_id; _osm_dict;
    _osm_details_dict; _wikidata_dict ].

(** The attributes it does not assign. *)
Definition kept_fields : list field :=
  [ _place_category; _place_neighbourhood; _latitude_old; _longitude_old;
    _latitude; _longitude; _devicetracker_zone; _devicetracker_zone_name;
    _last_place_name; _location_current; _location_previous; _direction;
    _map_link; _formatted_place; _attr_native_value ].

(** The reply has every key the parser subscripts without a test: the
    address and, with a place option, the type, the address type when the
    type is "yes", and the name details.  With a place option it also has a
    category: the parser only tests for that key, but without it the
    formatter calls [place_category.lower()] on [None] (line 1552). *)
Definition reply_complete (cfg : Config) (r : Reply) : bool :=
  match r_address r with
  | None => false
  | Some address =>
      (if PyStr.contains "place" (_options cfg)
       then match r_type r with
            | Some t => negb (String.eqb t "yes") || bool_decide (is_Some (r_addresstype r))
            | None => false
            end
            && bool_decide (is_Some (r_namedetails r))
            && bool_decide (is_Some (r_category r))
       else true)
      && match address !! "ISO3166-2-lvl4" with
         | Some v => (2 <=? length (PyStr.split "-" v))%nat
         | None => true
         end
  end.

(** Something is there to display: an error message, the formatted place,
    a zone the tracker is in, or the zone option outside of a zone. *)
Definition display_source (cfg : Config) (c : Cycle) (r : Reply) : bool :=
  let options := display_options cfg in
  bool_decide (is_Some (r_error_message r))
  || PyStr.mem "formatted_place" options
  || in_zone_str (tracker_state c)
  || (negb (PyStr.mem "do_not_reorder" options)
      && (PyStr.mem "zone_name" options || PyStr.mem "zone" options)
      && negb (PyStr.mem "do_not_show_not_home" options)).

(** [place_type] as lines 1407-1409 take it from the reply *)
Definition reply_place_type (r : Reply) : option string :=
  match r_type r with
  | Some t => if String.eqb t "yes" then r_addresstype r else Some t
  | None => None
  end.

(** The place name in the words of the specification, by priority: the
    entry ["name:" + code] of the first configured language code that has
    one; else the bare ["name"]; else the address entry of the category;
    else the address entry of the place type. *)
Definition spec_place_name (languages : option string)
    (address namedetails : gmap string string)
    (place_type : string) (category : option string) : option string :=
  match languages ≫= (fun l => language_name (PyStr.split "," l) namedetails) with
  | Some localized => Some localized
  | None =>
      match namedetails !! "name" with
      | Some name => Some name
      | None =>
          match category ≫= (fun cat => address !! cat) with
          | Some by_category => Some by_category
          | None => address !! place_type
          end
      end
  end.

(** What [extra_state_attributes] puts under each key; [PNone] stands for
    no entry. *)
Definition exported (s : Places) (a : attr_key) : pyval :=
  match a with
  | ATTR_STREET_NUMBER => get s _street_number
  | ATTR_STREET => get s _street
  | ATTR_CITY => get s _city
  | ATTR_POSTAL_TOWN => get s _postal_town
  | ATTR_POSTAL_CODE => get s _postal_code
  | ATTR_REGION => get s _region
  | ATTR_STATE_ABBR => get s _state_abbr
  | ATTR_COUNTRY => get s _country
  | ATTR_COUNTY => get s _county
  | ATTR_FORMATTED_ADDRESS => get s _formatted_address
  | ATTR_PLACE_TYPE => get s _place_type
  | ATTR_PLACE_NAME => get s _place_name
  | ATTR_PLACE_CATEGORY => get s _place_category
  | ATTR_PLACE_NEIGHBOURHOOD => get s _place_neighbourhood
  | ATTR_FORMATTED_PLACE => get s _formatted_place
  | ATTR_LATITUDE_OLD => get s _latitude_old
  | ATTR_LONGITUDE_OLD => get s _longitude_old
  | ATTR_LATITUDE => get s _latitude
  | ATTR_LONGITUDE => get s _longitude
  | ATTR_DEVICETRACKER_ID => PStr (_devicetracker_id (config s))
  | ATTR_DEVICETRACKER_ZONE => get s _devicetracker_zone
  | ATTR_DEVICETRACKER_ZONE_NAME => get s _devicetracker_zone_name
  | ATTR_HOME_ZONE => PStr (_home_zone (config s))
  | ATTR_PICTURE => _attr_entity_picture (config s)
  | ATTR_DISTANCE_KM => PNum (_distance_km s)
  | ATTR_DISTANCE_M => PNum (_distance_m s)
  | ATTR_MTIME => get s _mtime
  | ATTR_LAST_PLACE_NAME => get s _last_place_name
  | ATTR_LOCATION_CURRENT => get s _location_current
  | ATTR_LOCATION_PREVIOUS => get s _location_previous
  | ATTR_HOME_LATITUDE => of_opt (_home_latitude (config s))
  | ATTR_HOME_LONGITUDE => of_opt (_home_longitude (config s))
  | ATTR_DIRECTION_OF_TRAVEL => get s _direction
  | ATTR_MAP_LINK => get s _map_link
  | ATTR_OPTIONS => PStr (_options (config s))
  | ATTR_OSM_ID => get s _osm_id
  | ATTR_OSM_TYPE => get s _osm_type
  | ATTR_WIKIDATA_ID => get s _wikidata_id
  | ATTR_OSM_DICT => get s _osm_dict
  | ATTR_OSM_DETAILS_DICT => get s _osm_details_dict
  | ATTR_WIKIDATA_DICT => get s _wikidata_dict
  | CONF_NAME | CONF_STATE => PNone
  end.

(** The stored values [do_update] reads have the types it writes: the
    display state and the zone are strings or [None], the coordinates are
    strings, numbers or [None] (no bool, no container), the home zone is an
    entity id with a dot. *)
Definition well_typed (s : Places) : bool :=
  let scalar v :=
    match v with PNone | PNum _ | PStr _ => true | _ => false end in
  let text v := match v with PNone | PStr _ => true | _ => false end in
  text (get s _attr_native_value)
  && scalar (get s _latitude) && scalar (get s _longitude)
  && text (get s _devicetracker_zone)
  && (2 <=? length (PyStr.split "." (_home_zone (config s))))%nat.
(** The attributes the geocode stage (lines 1385-2107) assigns. *)
Definition stage_assigns (f : field) : bool :=
  match f with
  | _latitude_old | _longitude_old | _latitude | _longitude
  | _devicetracker_zone | _devicetracker_zone_name
  | _location_current | _location_previous | _direction | _map_link => false
  | _ => true
  end.

(** The character [ch] occurs in [s]. *)
Fixpoint has_char (ch : ascii) (s : string) : bool :=
  match s with
  | EmptyString => false
  | String c r => Ascii.eqb c ch || has_char ch r
  end.

(** The keys the city is looked up under, in the order of lines 1438-1449. *)
Definition city_keys : list string :=
  ["city"; "town"; "village"; "township"; "municipality"; "city_district"].

(** What the loop of lines 1697-1703 can append: [None] or one of the two
    literal names, never a value of the reply. *)
Definition placeholder (item : option string) : bool :=
  match item with
  | None => true
  | Some t => String.eqb t "region" || String.eqb t "place_neighbourhood"
  end.



(** The key [import_attributes] reads each attribute from. *)
Definition key_of (f : field) : attr_key :=
  match f with
  | _street_number => ATTR_STREET_NUMBER
  | _street => ATTR_STREET
  | _city => ATTR_CITY
  | _postal_town => ATTR_POSTAL_TOWN
  | _postal_code => ATTR_POSTAL_CODE
  | _region => ATTR_REGION
  | _state_abbr => ATTR_STATE_ABBR
  | _country => ATTR_COUNTRY
  | _county => ATTR_COUNTY
  | _formatted_address => ATTR_FORMATTED_ADDRESS
  | _place_type => ATTR_PLACE_TYPE
  | _place_name => ATTR_PLACE_NAME
  | _place_category => ATTR_PLACE_CATEGORY
  | _place_neighbourhood => ATTR_PLACE_NEIGHBOURHOOD
  | _latitude_old => ATTR_LATITUDE_OLD
  | _longitude_old => ATTR_LONGITUDE_OLD
  | _latitude => ATTR_LATITUDE
  | _longitude => ATTR_LONGITUDE
  | _devicetracker_zone => ATTR_DEVICETRACKER_ZONE
  | _devicetracker_zone_name => ATTR_DEVICETRACKER_ZONE_NAME
  | _mtime => ATTR_MTIME
  | _last_place_name => ATTR_LAST_PLACE_NAME
  | _location_current => ATTR_LOCATION_CURRENT
  | _location_previous => ATTR_LOCATION_PREVIOUS
  | _direction => ATTR_DIRECTION_OF_TRAVEL
  | _map_link => ATTR_MAP_LINK
  | _formatted_place => ATTR_FORMATTED_PLACE
  | _osm_id => ATTR_OSM_ID
  | _osm_type => ATTR_OSM_TYPE
  | _wikidata_id => ATTR_WIKIDATA_ID
  | _osm_dict => ATTR_OSM_DICT
  | _osm_details_dict => ATTR_OSM_DETAILS_DICT
  | _wikidata_dict => ATTR_WIKIDATA_DICT
  | _attr_native_value => CONF_STATE
  end.

(** [float(v)] raises no exception. *)
Definition float_accepts `{Builtins} (v : pyval) : bool :=
  match py_float v with Ok _ => true | Raise _ => false end.

(** The entry of a distance is absent or a value [float] accepts. *)
Definition distance_loadable `{Builtins} (o : option pyval) : bool :=
  match o with Some v => float_accepts v | None => true end.

(** ** The YAML import ([async_setup_platform], lines 154-346) *)

Module Yaml.

(** The constants of [const.py] and [homeassistant.const] the import
    reads; [hashlib.md5(text.encode()).hexdigest()]; Python's [==]. *)
Record Env : Type := {
  CONF_NAME : string;
  CONF_DEVICETRACKER_ID : string;
  CONF_HOME_ZONE : string;
  CONF_YAML_HASH : string;
  CONF_LATITUDE : string;
  CONF_LONGITUDE : string;
  CONF_PLATFORM : string;
  CONF_SCAN_INTERVAL : string;
  TRACKING_DOMAINS : list string;
  HOME_LOCATION_DOMAINS : list string;
  Platform_SENSOR : string;
  md5_hexdigest : string -> string;
  py_eq : pyval -> pyval -> bool
}.

Record Hass : Type := {
  (** [hass.states.get(entity_id).attributes]; [None] when
      [hass.states.get] returns [None] *)
  states : string -> option (gmap string pyval);
  (** [hass.data[DOMAIN].values()]; empty without the domain *)
  data_domain : list (gmap string pyval)
}.

(** [entity_id.split(".")[0]] *)
Definition domain_of (entity_id : string) : string :=
  match PyStr.split "." entity_id with
  | domain :: _ => domain
  | [] => EmptyString
  end.

(** [d.setdefault(k, v)] *)
Definition setdefault (k : string) (v : pyval) (d : gmap string pyval)
    : gmap string pyval :=
  match d !! k with Some _ => d | None => <[k := v]> d end.

(** [CONF_LATITUDE in attributes and CONF_LONGITUDE in attributes] *)
Definition has_position (k : Env) (attributes : gmap string pyval) : bool :=
  bool_decide (is_Some (attributes !! CONF_LATITUDE k))
  && bool_decide (is_Some (attributes !! CONF_LONGITUDE k)).

(** Lines 274-303: [false] where the function returns [False]. *)
Definition home_zone_ok (k : Env) (hass : Hass) (import_config : gmap string pyval)
    : result bool :=
  match import_config !! CONF_HOME_ZONE k with
  | None => Ok true
  | Some PNone => Ok false
  | Some (PStr home_zone) =>
      if negb (PyStr.mem (domain_of home_zone) (HOME_LOCATION_DOMAINS k)) then Ok false
      else Ok (bool_decide (is_Some (states hass home_zone)))
  | Some _ => Raise AttributeError
  end.

(** Lines 306-310, where the tracker id is the string [id]:
    [get(CONF_NAME) + get(CONF_DEVICETRACKER_ID) + get(CONF_HOME_ZONE)]. *)
Definition string_to_hash (k : Env) (import_config : gmap string pyval) (id : string)
    : result string :=
  match import_config !! CONF_NAME k with
  | Some (PStr name) =>
      match import_config !! CONF_HOME_ZONE k with
      | Some (PStr home_zone) => Ok (name +:+ id +:+ home_zone)
      | _ => Raise TypeError
      end
  | _ => Raise TypeError
  end.

(** Lines 320-328 *)
Definition all_yaml_hashes (k : Env) (hass : Hass) : list pyval :=
  omap (fun m : gmap string pyval => m !! CONF_YAML_HASH k) (data_domain hass).

(** [validate_import]: the value it returns and [import_config] as it is
    then. *)
Definition validate_import (k : Env) (hass : Hass) (import_config : gmap string pyval)
    : result (bool * gmap string pyval) :=
  match import_config !! CONF_DEVICETRACKER_ID k with
  | None | Some PNone => Ok (false, import_config)
  | Some (PStr id) =>
      if negb (PyStr.mem (domain_of id) (TRACKING_DOMAINS k))
      then Ok (false, import_config)
      else
        match states hass id with
        | None => Ok (false, import_config)
        | Some attributes =>
            if String.eqb (domain_of id) (Platform_SENSOR k)
               && negb (has_position k attributes)
            then Ok (false, import_config)
            else
              let* ok := home_zone_ok k hass import_config in
              if negb ok then Ok (false, import_config)
              else
                let* text := string_to_hash k import_config id in
                let yaml_hash := md5_hexdigest k text in
                let import_config :=
                  setdefault (CONF_YAML_HASH k) (PStr yaml_hash) import_config in
                let* h := need (CONF_YAML_HASH k) (import_config !! CONF_YAML_HASH k) in
                Ok (negb (existsb (py_eq k h) (all_yaml_hashes k hass)), import_config)
        end
  | Some _ => Raise AttributeError
  end.

(** Lines 341-344 *)
Definition import_config_of (k : Env) (config : gmap string pyval) : gmap string pyval :=
  delete (CONF_SCAN_INTERVAL k) (delete (CONF_PLATFORM k) config).

(** [do_import]: the data handed to the config flow, [None] when the
    sensor is not imported. *)
Definition do_import (k : Env) (hass : Hass) (config : gmap string pyval)
    : result (option (gmap string pyval)) :=
  let* v := validate_import k hass (import_config_of k config) in
  Ok (if fst v then Some (snd v) else None).

End Yaml.

(** Sample data for the YAML import: [==] on strings. *)
Definition sample_env : Yaml.Env :=
  {| Yaml.CONF_NAME := "name";
     Yaml.CONF_DEVICETRACKER_ID := "devicetracker_id";
     Yaml.CONF_HOME_ZONE := "home_zone";
     Yaml.CONF_YAML_HASH := "yaml_hash";
     Yaml.CONF_LATITUDE := "latitude";
     Yaml.CONF_LONGITUDE := "longitude";
     Yaml.CONF_PLATFORM := "platform";
     Yaml.CONF_SCAN_INTERVAL := "scan_interval";
     Yaml.TRACKING_DOMAINS := ["device_tracker"; "sensor"; "person"];
     Yaml.HOME_LOCATION_DOMAINS := ["zone"; "device_tracker"; "sensor"];
     Yaml.Platform_SENSOR := "sensor";
     Yaml.md5_hexdigest := fun text => "md5:" +:+ text;
     Yaml.py_eq := fun a b =>
       match a, b with
       | PStr x, PStr y => String.eqb x y
       | PNone, PNone => true
       | _, _ => false
       end |}.

Definition sample_hass (entries : list (gmap string pyval)) : Yaml.Hass :=
  {| Yaml.states := fun id =>
       if String.eqb id "device_tracker.phone" then Some ∅
       else if String.eqb id "zone.home" then Some ∅
       else None;
     Yaml.data_domain := entries |}.

Definition sample_yaml (name : option string) : gmap string pyval :=
  let d : gmap string pyval :=
    <["devicetracker_id" := PStr "device_tracker.phone"]>
      (<["home_zone" := PStr "zone.home"]> (<["platform" := PStr "places"]> ∅)) in
  match name with Some n => <["name" := PStr n]> d | None => d end.

(** The call [m] raises no exception. *)
Definition succeeds {A : Type} (m : result A) : bool :=
  match m with Ok _ => true | Raise _ => false end.

(** The local [new_state] when line 1737 is reached, as lines 1385-1731
    compute it from the reply. *)
Definition new_state_of `{Builtins} (c : Cycle) (p : Prelude) (r : Reply) (cfg : Config)
    : result (option string) :=
  let zone := tracker_state c in
  let zone_name := devicetracker_zone_name c in
  let* q := parse_reply cfg zone r in
  let* fp := formatted_place (display_options cfg) zone zone_name (direction c p) q in
  build_new_state cfg
    (locals (has_old p)
       (PyStr.contains "place" (_options cfg) && bool_decide (is_Some (_language cfg))))
    zone zone_name (direction c p) r q fp.

(** The extended fetches of lines 1752-2017 raise no exception: they are
    not configured, or they are skipped for want of an [osm_id] or an
    [osm_type], or the type is one of the three and the details decode to
    something [in] accepts. *)
Definition extended_done (c : Cycle) (cfg : Config) (r : Reply) : bool :=
  if _extended_attr cfg then
    match r_osm_id r, r_osm_type r with
    | Some _, Some osm_type =>
        succeeds (osm_type_abbr osm_type)
        && succeeds (wikidata_of (osm_details_decoded c))
    | _, _ => true
    end
  else true.

(** * Properties *)

(** ** Python strings *)

Lemma length_app (a b : string) :
  String.length (a +:+ b) = (String.length a + String.length b)%nat.
Proof. induction a as [|ch a IH]; simpl; [reflexivity | now rewrite IH]. Qed.

Lemma length_take (n : nat) (t : string) :
  String.length (PyStr.take n t) = Nat.min n (String.length t).
Proof.
  revert t; induction n as [|n IH]; intros [|ch t]; simpl; try reflexivity.
  now rewrite IH.
Qed.

Lemma length_fmt02 (n : nat) :
  (n < 100)%nat -> String.length (PyStr.fmt02 n) = 2%nat.
Proof.
  intros Hn. unfold PyStr.fmt02.
  destruct (n <? 100)%nat eqn:E; [reflexivity |].
  apply Nat.ltb_ge in E. lia.
Qed.

Example lower_ex : PyStr.lower "Not_Home" = "not_home".
Proof. reflexivity. Qed.

Example title_ex : PyStr.title "not_home away" = "Not_Home Away".
Proof. reflexivity. Qed.

Example strip_ex : PyStr.strip "  a b  " = "a b".
Proof. reflexivity. Qed.

Example replace_ex : PyStr.replace "  " " " "a  b   c" = "a b  c".
Proof. reflexivity. Qed.

Example split_ex : PyStr.split "," "zone, place," = ["zone"; " place"; EmptyString].
Proof. reflexivity. Qed.

Example join_ex : PyStr.join ", " ["a"; "b"; "c"] = "a, b, c".
Proof. reflexivity. Qed.

Example fmt02_ex : PyStr.fmt02 7 = "07" /\ PyStr.fmt02 23 = "23".
Proof. split; reflexivity. Qed.

(** ** Attribute reads and writes *)

Lemma get_set_eq (f : field) (v : pyval) (s : Places) : get (set f v s) f = v.
Proof. unfold get, set; simpl. now rewrite lookup_insert_eq. Qed.

Lemma get_set_ne (f g : field) (v : pyval) (s : Places) :
  f <> g -> get (set f v s) g = get s g.
Proof. intros Hne. unfold get, set; simpl. now rewrite lookup_insert_ne. Qed.

Lemma set_updateskipped_same (s : Places) : set_updateskipped (_updateskipped s) s = s.
Proof. now destruct s. Qed.

(** ** [_reset_attributes] *)

Lemma fields_partition (f : field) :
  In f (reset_fields ++ kept_fields ++ [_mtime]).
Proof.
  destruct f; cbv [reset_fields kept_fields app In];
    repeat (first [ left; reflexivity | right ]).
Qed.

Lemma get_set_updateskipped (n : Z) (s : Places) (f : field) :
  get (set_updateskipped n s) f = get s f.
Proof. reflexivity. Qed.

(** C8: [_reset_attributes] sets the geocode-derived attributes, and only
    them, to [None]; [_last_place_name], [_distance_km] and [_distance_m]
    keep their values, as does every other attribute but [_mtime] (set to
    the current time) and the skip counter (set to 0). *)
Theorem reset_attributes_frame (now : string) (s : Places) :
  let s' := _reset_attributes now s in
  Forall (fun f => get s' f = PNone) reset_fields
  /\ get s' _last_place_name = get s _last_place_name
  /\ _distance_km s' = _distance_km s
  /\ _distance_m s' = _distance_m s
  /\ Forall (fun f => get s' f = get s f) kept_fields
  /\ get s' _mtime = PDatetime now
  /\ _updateskipped s' = 0
  /\ config s' = config s
  /\ initial_update s' = initial_update s.
Proof.
  assert (Hreset : forall f, get (_reset_attributes now s) f =
            if bool_decide (f ∈ reset_fields) then PNone
            else if decide (f = _mtime) then PDatetime now else get s f).
  { intros f. unfold _reset_attributes. rewrite get_set_updateskipped.
    destruct f;
      repeat first [ rewrite get_set_eq | rewrite get_set_ne by discriminate ];
      reflexivity. }
  cbv zeta. unfold reset_fields, kept_fields.
  repeat (first [ apply conj | apply Forall_cons | apply Forall_nil ]);
    try reflexivity; rewrite Hreset; reflexivity.
Qed.

(** ** The gate *)


(** ** The name *)

(** What the synchronisation of the name leaves alone: everything but the
    name itself. *)
Lemma sync_name_cases (c : Cycle) (s : Places) :
  sync_name c s = s \/ exists name, sync_name c s = set_name name s.
Proof.
  unfold sync_name. destruct (friendly_name c) as [name|]; [| now left].
  destruct (negb (String.eqb (_attr_name (config s)) name)); [right; eauto | now left].
Qed.

Lemma get_sync_name (c : Cycle) (s : Places) (f : field) :
  get (sync_name c s) f = get s f.
Proof. destruct (sync_name_cases c s) as [->|[name ->]]; reflexivity. Qed.

Lemma attrs_sync_name (c : Cycle) (s : Places) : attrs (sync_name c s) = attrs s.
Proof. destruct (sync_name_cases c s) as [->|[name ->]]; reflexivity. Qed.

Lemma initial_update_sync_name (c : Cycle) (s : Places) :
  initial_update (sync_name c s) = initial_update s.
Proof. destruct (sync_name_cases c s) as [->|[name ->]]; reflexivity. Qed.

Lemma updateskipped_sync_name (c : Cycle) (s : Places) :
  _updateskipped (sync_name c s) = _updateskipped s.
Proof. destruct (sync_name_cases c s) as [->|[name ->]]; reflexivity. Qed.

Lemma distances_sync_name (c : Cycle) (s : Places) :
  _distance_km (sync_name c s) = _distance_km s
  /\ _distance_m (sync_name c s) = _distance_m s.
Proof. destruct (sync_name_cases c s) as [->|[name ->]]; split; reflexivity. Qed.

(** The configuration but for the name *)
Lemma config_sync_name (c : Cycle) (s : Places) :
  config (sync_name c s) = rename (_attr_name (config (sync_name c s))) (config s).
Proof.
  destruct (sync_name_cases c s) as [->|[name ->]]; [| reflexivity].
  destruct (config s); reflexivity.
Qed.

Lemma previous_state_of_sync_name (c : Cycle) (s : Places) :
  previous_state_of (sync_name c s) = previous_state_of s.
Proof. destruct (sync_name_cases c s) as [->|[name ->]]; reflexivity. Qed.

Lemma set_updateskipped_sync_name (c : Cycle) (s : Places) :
  set_updateskipped (_updateskipped s) (sync_name c s) = sync_name c s.
Proof.
  rewrite <- (updateskipped_sync_name c s). now destruct (sync_name c s).
Qed.

Section Name.

Context `{Builtins}.

Lemma read_state_sync_name (c : Cycle) (s : Places) :
  read_state (sync_name c s) = read_state s.
Proof. destruct (sync_name_cases c s) as [->|[name ->]]; reflexivity. Qed.

Lemma prelude_sync_name (c : Cycle) (s : Places) :
  prelude c (sync_name c s) = prelude c s.
Proof. destruct (sync_name_cases c s) as [->|[name ->]]; reflexivity. Qed.

Lemma update_gate_sync_name (c : Cycle) (p : Prelude) (s : Places) :
  update_gate c p (sync_name c s) = update_gate c p s.
Proof. destruct (sync_name_cases c s) as [->|[name ->]]; reflexivity. Qed.

Lemma well_typed_sync_name (c : Cycle) (s : Places) :
  well_typed (sync_name c s) = well_typed s.
Proof. destruct (sync_name_cases c s) as [->|[name ->]]; reflexivity. Qed.

Lemma prelude_previous_state_of (c : Cycle) (s : Places) (p : Prelude) :
  prelude c s = Ok p -> previous_state_of s = Ok (previous_state p).
Proof.
  unfold prelude, read_state. cbv zeta.
  destruct (previous_state_of s) as [v|]; cbn [bind]; [| discriminate].
  destruct (float_text (get s _latitude)); cbn [bind]; [| discriminate].
  destruct (float_text (get s _longitude)); cbn [bind]; [| discriminate].
  destruct (float_text (of_opt (_home_latitude (config s)))); cbn [bind]; [| discriminate].
  destruct (float_text (of_opt (_home_longitude (config s)))); cbn [bind]; [| discriminate].
  destruct (in_zone (get s _devicetracker_zone)); cbn [bind]; [| discriminate].
  match goal with
  | |- (let* _ := float_old c ?p0 s in _) = _ -> _ =>
      destruct (float_old c p0 s); cbn [bind]; [| discriminate];
      destruct (log_home_zone c p0 (config s)); cbn [bind]; [| discriminate]
  end.
  intros [= <-]. reflexivity.
Qed.

(** A call that reaches the gate: the name is synchronised, then the gate
    decides. *)
Lemma do_update_reached (c : Cycle) (s : Places) (p : Prelude) :
  prelude c s = Ok p ->
  do_update c s =
    if fst (update_gate c p s) && negb (String.eqb (tracker_state c) EmptyString)
    then match osm_decoded c with
         | Some r =>
             geocode_stage c p r
               (begin_update c p
                  (set_updateskipped (snd (update_gate c p s)) (sync_name c s)))
         | None =>
             finish (begin_update c p
                       (set_updateskipped (snd (update_gate c p s)) (sync_name c s)))
         end
    else Done (set_updateskipped (snd (update_gate c p s)) (sync_name c s)).
Proof.
  intros Hp. unfold do_update.
  rewrite (prelude_previous_state_of c s p Hp). cbv zeta.
  rewrite prelude_sync_name, Hp, update_gate_sync_name.
  destruct (update_gate c p s) as [proceed skipped]. reflexivity.
Qed.

(** A call that raises before the gate leaves everything but the name. *)
Lemma do_update_raised (c : Cycle) (s : Places) (e : exn) :
  prelude c s = Raise e ->
  do_update c s = Raised e s \/ do_update c s = Raised e (sync_name c s).
Proof.
  intros Hp. unfold do_update.
  destruct (previous_state_of s) as [v|e0] eqn:Hv.
  - right. cbv zeta. now rewrite prelude_sync_name, Hp.
  - left. unfold prelude, read_state in Hp. cbv zeta in Hp.
    rewrite Hv in Hp. cbn [bind] in Hp. congruence.
Qed.

End Name.

Lemma quot_nonpos (n : Z) (d : positive) : n < 0 -> Z.quot n (Z.pos d) <= 0.
Proof.
  intros Hn. replace n with (- (- n)) by lia.
  rewrite Z.quot_opp_l by lia.
  assert (0 <= Z.quot (- n) (Z.pos d)) by (apply Z.quot_pos; lia). lia.
Qed.

Lemma int_lt_10 (x : Q) : (x < 10)%Q -> int x < 10.
Proof.
  destruct x as [n d]. unfold Qlt, int; simpl. intros Hx.
  destruct (Z_lt_le_dec n 0) as [Hneg|Hpos].
  - pose proof (quot_nonpos n d Hneg). lia.
  - apply Z.quot_lt_upper_bound; lia.
Qed.

Lemma int_pos (x : Q) : (1 <= x)%Q -> 0 < int x.
Proof.
  destruct x as [n d]. unfold Qle, int; simpl. intros Hx.
  apply Z.quot_str_pos. lia.
Qed.

Lemma int_small (x : Q) : (x < 1)%Q -> int x <= 0.
Proof.
  destruct x as [n d]. unfold Qlt, int; simpl. intros Hx.
  destruct (Z_lt_le_dec n 0) as [Hneg|Hpos].
  - now apply quot_nonpos.
  - rewrite Z.quot_small; lia.
Qed.

Section Gate.

Context `{Builtins}.

Lemma gate_accuracy_zero (c : Cycle) (p : Prelude) (s : Places) :
  (gps_accuracy c == 0)%Q -> update_gate c p s = (false, _updateskipped s).
Proof.
  intros Hacc. unfold update_gate.
  destruct (coordinates_ok c p); simpl; [| reflexivity].
  apply Qeq_bool_iff in Hacc. now rewrite Hacc.
Qed.

(** The later stages never assign the skip counter. *)
Lemma extended_fetch_updateskipped (c : Cycle) (q : Parsed) (s : Places) :
  _updateskipped (state_of (extended_fetch c q s)) = _updateskipped s.
Proof. unfold extended_fetch. repeat (case_match; simpl); reflexivity. Qed.

Lemma commit_updateskipped (c : Cycle) (q : Parsed) (ns : option string) (s : Places) :
  _updateskipped (state_of (commit c q ns s)) = _updateskipped s.
Proof. unfold commit, finish. repeat (case_match; simpl); reflexivity. Qed.

Lemma store_parsed_updateskipped (c : Cycle) (p : Prelude) (q : Parsed) (s : Places) :
  _updateskipped (store_parsed c p q s) = _updateskipped s.
Proof. unfold store_parsed. destruct (osm_id q); reflexivity. Qed.

Lemma geocode_stage_updateskipped (c : Cycle) (p : Prelude) (r : Reply) (s : Places) :
  _updateskipped (state_of (geocode_stage c p r s)) = _updateskipped s.
Proof.
  pose proof (store_parsed_updateskipped c p) as Hstore.
  unfold geocode_stage, finish.
  destruct (parse_reply _ _ r) as [q|]; [| reflexivity].
  destruct (formatted_place _ _ _ _ q) as [fp|]; [| apply Hstore].
  destruct (build_new_state _ _ _ _ _ r q fp) as [ns|]; [| apply Hstore].
  destruct (state_changed _ ns _ _) as [[|]|];
    try (destruct (_extended_attr (config s)); apply Hstore).
  destruct (_extended_attr (config s)).
  - match goal with
    | |- context [extended_fetch c q ?s1] =>
        pose proof (extended_fetch_updateskipped c q s1) as Hx;
        destruct (extended_fetch c q s1) as [s2|e s2]; simpl in Hx
    end.
    + rewrite commit_updateskipped, Hx. apply Hstore.
    + simpl. rewrite Hx. apply Hstore.
  - rewrite commit_updateskipped. apply Hstore.
Qed.

(** Once the gate lets the cycle through and the tracker reports a state,
    the skip counter is 0 when [do_update] ends, however it ends. *)
Lemma do_update_resets_skips (c : Cycle) (p : Prelude) (s : Places) :
  prelude c s = Ok p ->
  fst (update_gate c p s) = true ->
  tracker_state c <> EmptyString ->
  _updateskipped (state_of (do_update c s)) = 0.
Proof.
  intros Hp Hgate Hzone. rewrite (do_update_reached c s p Hp), Hgate.
  apply String.eqb_neq in Hzone. rewrite Hzone. cbn [andb negb].
  destruct (osm_decoded c) as [r|]; [| reflexivity].
  now rewrite geocode_stage_updateskipped.
Qed.

End Gate.

(** C3: with a reported GPS accuracy of exactly 0 the gate does not let
    the cycle through, whatever the distance moved.  No request is made and
    nothing is assigned but the name, which is synchronised before the gate
    (lines 901-944): the display state and the attribute dictionary are as
    they were, and a call that reaches the gate returns the entity as the
    synchronisation of the name left it. *)
Theorem accuracy_zero_never_proceeds `{Builtins} (c : Cycle) (s : Places) :
  (gps_accuracy c == 0)%Q ->
  proceed_with_update c s <> Ok true
  /\ (state_of (do_update c s) = s \/ state_of (do_update c s) = sync_name c s)
  /\ get (state_of (do_update c s)) _attr_native_value = get s _attr_native_value
  /\ (forall key, extra_state_attributes key (state_of (do_update c s))
                  = extra_state_attributes key s)
  /\ forall p, prelude c s = Ok p ->
       proceed_with_update c s = Ok false
       /\ do_update c s = Done (sync_name c s).
Proof.
  intros Hacc.
  assert (Hname : forall key, extra_state_attributes key (sync_name c s)
                              = extra_state_attributes key s).
  { intros key. destruct (sync_name_cases c s) as [->|[name ->]]; reflexivity. }
  assert (Hstate : state_of (do_update c s) = s
                   \/ state_of (do_update c s) = sync_name c s).
  { destruct (prelude c s) as [p|e] eqn:Hp.
    - right. rewrite (do_update_reached c s p Hp).
      rewrite (gate_accuracy_zero c p s Hacc). cbn [fst snd andb state_of].
      apply set_updateskipped_sync_name.
    - destruct (do_update_raised c s e Hp) as [-> | ->]; [left | right]; reflexivity. }
  split.
  { unfold proceed_with_update. destruct (prelude c s) as [p|e]; cbn [bind];
      [| discriminate].
    rewrite (gate_accuracy_zero c p s Hacc). discriminate. }
  split; [exact Hstate |].
  split; [destruct Hstate as [-> | ->]; [reflexivity | apply get_sync_name] |].
  split; [intros key; destruct Hstate as [-> | ->]; [reflexivity | apply Hname] |].
  intros p Hp. split.
  - unfold proceed_with_update. rewrite Hp. cbn [bind].
    now rewrite (gate_accuracy_zero c p s Hacc).
  - rewrite (do_update_reached c s p Hp).
    rewrite (gate_accuracy_zero c p s Hacc). cbn [fst snd andb].
    now rewrite set_updateskipped_sync_name.
Qed.

Lemma accuracy_zero_never_proceeds_witness :
  let B := Sample.builtins 12500 250 (1 # 2) in
  let c := Sample.renamed "Phone" (Sample.cycle (Some 0%Q) "not_home" None) in
  let s := Sample.entity "zone_name, place" 0 in
  (gps_accuracy c == 0)%Q
  /\ @do_update B c s = Done (set_name "Phone" s)
  /\ get (state_of (@do_update B c s)) _attr_native_value = get s _attr_native_value.
Proof.
  intros B c s.
  assert (Hacc : (gps_accuracy c == 0)%Q) by reflexivity.
  split; [exact Hacc |].
  destruct (@accuracy_zero_never_proceeds B c s Hacc) as (_ & _ & Hnative & _ & Hdone).
  split; [| exact Hnative].
  refine (proj2 (Hdone _ _)). vm_compute. reflexivity.
Defined.

(** The claim of C1 as the specification words it fails below one meter:
    the entity skipped 4 updates and the tracker moved half a meter to a
    new location string, yet the gate holds the update back and counts a
    fifth skip. *)
Lemma gate_anti_starvation_counterexample :
  let B := Sample.builtins 12500 (1 # 2) 0 in
  let c := Sample.cycle (Some 10%Q) "not_home" None in
  let s := Sample.entity "zone_name, place" 4 in
  exists p,
    @prelude B c s = Ok p
    /\ coordinates_ok c p = true
    /\ ~ (gps_accuracy c == 0)%Q
    /\ initial_update s = false
    /\ current_location c <> previous_location p
    /\ (@distance_traveled B c p < 10)%Q
    /\ 3 < _updateskipped s
    /\ @proceed_with_update B c s = Ok false
    /\ _updateskipped (state_of (@do_update B c s)) = 5.
Proof.
  intros B c s. eexists. split; [vm_compute; reflexivity |].
  repeat split; try (vm_compute; congruence).
Qed.

(** C1, amended: with valid coordinates, a non-zero accuracy, after the
    initial update and at a changed location string, a movement below 10
    meters at a skip count of at most 3 holds the update back and adds
    exactly 1 to the skip count, nothing else changing but the name that
    is synchronised before the gate (lines 901-944); at a skip count above
    3 a movement of at least 1 meter (and below 10) lets the update
    through, and the skip count is 0 at the end of the cycle whenever the
    tracker reports a non-empty state. *)
Theorem gate_hysteresis `{Builtins} (c : Cycle) (s : Places) (p : Prelude) :
  prelude c s = Ok p ->
  coordinates_ok c p = true ->
  ~ (gps_accuracy c == 0)%Q ->
  initial_update s = false ->
  current_location c <> previous_location p ->
  (distance_traveled c p < 10)%Q ->
  (_updateskipped s <= 3 ->
     proceed_with_update c s = Ok false
     /\ _updateskipped (state_of (do_update c s)) = _updateskipped s + 1
     /\ do_update c s
        = Done (set_updateskipped (_updateskipped s + 1) (sync_name c s)))
  /\ (3 < _updateskipped s -> (1 <= distance_traveled c p)%Q ->
        proceed_with_update c s = Ok true
        /\ (tracker_state c <> EmptyString -> _updateskipped (state_of (do_update c s)) = 0)).
Proof.
  intros Hp Hok Hacc Hinit Hloc Hlt.
  assert (Hgate : update_gate c p s =
            if (0 <? int (distance_traveled c p)) && (3 <? _updateskipped s)
            then (true, _updateskipped s)
            else (false, _updateskipped s + 1)).
  { unfold update_gate. rewrite Hok, Hinit; simpl.
    destruct (Qeq_bool (gps_accuracy c) 0) eqn:E;
      [apply Qeq_bool_iff in E; contradiction |].
    rewrite bool_decide_eq_false_2 by exact Hloc.
    destruct ((0 <? int (distance_traveled c p)) && (3 <? _updateskipped s));
      [reflexivity |].
    pose proof (int_lt_10 _ Hlt) as Hint.
    apply Z.ltb_lt in Hint. now rewrite Hint. }
  split.
  - intros Hskip.
    assert (E : (3 <? _updateskipped s) = false) by (apply Z.ltb_ge; lia).
    rewrite E, andb_false_r in Hgate.
    rewrite (do_update_reached c s p Hp), Hgate. cbn [fst snd andb state_of].
    split; [| split; reflexivity].
    unfold proceed_with_update. rewrite Hp. cbn [bind]. now rewrite Hgate.
  - intros Hskip Hmove.
    assert (E1 : (3 <? _updateskipped s) = true) by (apply Z.ltb_lt; lia).
    assert (E2 : (0 <? int (distance_traveled c p)) = true)
      by (apply Z.ltb_lt; now apply int_pos).
    rewrite E1, E2 in Hgate; simpl in Hgate.
    split.
    + unfold proceed_with_update. rewrite Hp; simpl. now rewrite Hgate.
    + intros Hzone. apply (do_update_resets_skips c p s Hp); [| exact Hzone].
      now rewrite Hgate.
Qed.

(** X24: below one meter the update is held back at any skip count,
    and counted. *)
Lemma gate_below_one_meter `{Builtins} (c : Cycle) (s : Places) (p : Prelude) :
  coordinates_ok c p = true ->
  ~ (gps_accuracy c == 0)%Q ->
  initial_update s = false ->
  current_location c <> previous_location p ->
  (distance_traveled c p < 1)%Q ->
  update_gate c p s = (false, _updateskipped s + 1).
Proof.
  intros Hok Hacc Hinit Hloc Hlt. unfold update_gate. rewrite Hok, Hinit; simpl.
  destruct (Qeq_bool (gps_accuracy c) 0) eqn:E;
    [apply Qeq_bool_iff in E; contradiction |].
  rewrite bool_decide_eq_false_2 by exact Hloc.
  pose proof (int_small _ Hlt) as Hint.
  assert (E1 : (0 <? int (distance_traveled c p)) = false) by (apply Z.ltb_ge; lia).
  assert (E2 : (int (distance_traveled c p) <? 10) = true) by (apply Z.ltb_lt; lia).
  now rewrite E1, E2.
Qed.

Lemma gate_hysteresis_witness :
  let B := Sample.builtins 12500 (5 # 2) 0 in
  let c := Sample.cycle (Some 10%Q) "not_home" None in
  (@proceed_with_update B c (Sample.entity "zone_name, place" 2) = Ok false
   /\ _updateskipped (state_of (@do_update B c (Sample.entity "zone_name, place" 2))) = 3
   /\ @do_update B c (Sample.entity "zone_name, place" 2)
      = Done (Sample.entity "zone_name, place" 3))
  /\ (@proceed_with_update B c (Sample.entity "zone_name, place" 4) = Ok true
      /\ _updateskipped (state_of (@do_update B c (Sample.entity "zone_name, place" 4))) = 0).
Proof.
  intros B c.
  assert (Hp : forall n, exists p,
             @prelude B c (Sample.entity "zone_name, place" n) = Ok p
             /\ coordinates_ok c p = true
             /\ current_location c <> previous_location p
             /\ (@distance_traveled B c p < 10)%Q
             /\ (1 <= @distance_traveled B c p)%Q).
  { intros n. eexists. split; [vm_compute; reflexivity |].
    repeat split; vm_compute; congruence. }
  assert (Hacc : ~ (gps_accuracy c == 0)%Q) by (vm_compute; congruence).
  split.
  - destruct (Hp 2) as (p & Hpre & Hok & Hloc & Hlt & _).
    apply (proj1 (@gate_hysteresis B c _ p Hpre Hok Hacc eq_refl Hloc Hlt)).
    vm_compute; congruence.
  - destruct (Hp 4) as (p & Hpre & Hok & Hloc & Hlt & Hge).
    destruct (proj2 (@gate_hysteresis B c _ p Hpre Hok Hacc eq_refl Hloc Hlt)) as [Ht Hs];
      [reflexivity | exact Hge |].
    split; [exact Ht | apply Hs; discriminate].
Defined.

(** ** The initial update *)









(** The display state of a first update can be null although the geocode
    call succeeds: the only option is "city" and the reply has no city. *)
Lemma initial_update_null_display :
  let B := Sample.builtins 12500 0 0 in
  let c := Sample.cycle (Some 10%Q) "not_home"
             (Some (Sample.reply (Some ∅) (Some ∅) None)) in
  let s := init (Sample.cfg "city" None) "2023-01-01 09:00:00" in
  completes (@do_update B c s) = true
  /\ get (state_of (@do_update B c s)) _attr_native_value = PNone.
Proof. split; vm_compute; reflexivity. Qed.

(** The category is needed too.  With a place option, a reply that has
    every key the parser subscripts, but no category, is parsed; the
    formatter then calls [place_category.lower()] on [None] (line 1552):
    [do_update] raises [AttributeError], the display state stays [None] and
    [initial_update] stays set. *)
Lemma initial_update_needs_category :
  let B := Sample.builtins 12500 0 0 in
  let r := {| r_type := Some "park"; r_addresstype := None; r_category := None;
              r_address := Some ∅; r_namedetails := Some ∅;
              r_display_name := None; r_osm_id := None; r_osm_type := None;
              r_error_message := None; r_raw := PDict [] |} in
  let c := Sample.cycle (Some 10%Q) "not_home" (Some r) in
  let s := init (Sample.cfg "zone_name, place" None) "2023-01-01 09:00:00" in
  succeeds (parse_reply (config s) (tracker_state c) r) = true
  /\ display_source (config s) c r = true
  /\ match @do_update B c s with Raised AttributeError _ => True | _ => False end
  /\ get (state_of (@do_update B c s)) _attr_native_value = PNone
  /\ initial_update (state_of (@do_update B c s)) = true.
Proof.
  intros B r c s.
  split; [reflexivity |]. split; [reflexivity |].
  split; [vm_compute; exact I |]. split; vm_compute; reflexivity.
Qed.

(** So is the switch of the extended attributes.  With it on, a reply
    without [osm_id] has every key the parser subscripts, a category and
    something to display, yet building the event raises
    [UnboundLocalError] (line 2083): [do_update] does not return and
    [initial_update] stays set. *)
Lemma initial_update_extended_raises :
  let B := Sample.builtins 12500 0 0 in
  let r := Sample.reply (Some ∅) (Some ∅) None in
  let c := Sample.cycle (Some 10%Q) "not_home" (Some r) in
  let cfg := Sample.cfg "zone_name, place" None in
  let s := init {| _attr_name := _attr_name cfg; _api_key := _api_key cfg;
                   _options := _options cfg;
                   _devicetracker_id := _devicetracker_id cfg;
                   _home_zone := _home_zone cfg; _map_provider := _map_provider cfg;
                   _map_zoom := _map_zoom cfg; _language := _language cfg;
                   _extended_attr := true; _show_time := _show_time cfg;
                   _home_latitude := _home_latitude cfg;
                   _home_longitude := _home_longitude cfg;
                   _attr_entity_picture := _attr_entity_picture cfg |}
            "2023-01-01 09:00:00" in
  reply_complete (config s) r = true
  /\ display_source (config s) c r = true
  /\ match @do_update B c s with
     | Raised (UnboundLocalError _) _ => True
     | _ => False
     end
  /\ initial_update (state_of (@do_update B c s)) = true.
Proof.
  intros B r c cfg s.
  split; [reflexivity |]. split; [reflexivity |].
  split; [vm_compute; exact I | vm_compute; reflexivity].
Qed.


Lemma config_store_parsed (c : Cycle) (p : Prelude) (q : Parsed) (s : Places) :
  config (store_parsed c p q s) = config s.
Proof. unfold store_parsed. destruct (osm_id q); reflexivity. Qed.

Lemma initial_update_store_parsed (c : Cycle) (p : Prelude) (q : Parsed) (s : Places) :
  initial_update (store_parsed c p q s) = initial_update s.
Proof. unfold store_parsed. destruct (osm_id q); reflexivity. Qed.




(** ** The committed display state *)

Lemma get_set_distance_km (q : Q) (s : Places) (f : field) :
  get (set_distance_km q s) f = get s f.
Proof. reflexivity. Qed.

Lemma get_set_distance_m (q : Q) (s : Places) (f : field) :
  get (set_distance_m q s) f = get s f.
Proof. reflexivity. Qed.

Lemma get_set_initial_update (b : bool) (s : Places) (f : field) :
  get (set_initial_update b s) f = get s f.
Proof. reflexivity. Qed.

(** Reads an attribute through writes of other attributes. *)
Ltac skip_writes :=
  repeat first
    [ rewrite get_set_ne by discriminate
    | rewrite get_set_distance_km
    | rewrite get_set_distance_m
    | rewrite get_set_updateskipped
    | rewrite get_set_initial_update ].

Section Commit.

Context `{Builtins}.

Lemma begin_update_native (c : Cycle) (p : Prelude) (s : Places) :
  get (begin_update c p s) _attr_native_value = get s _attr_native_value.
Proof.
  unfold begin_update, _reset_attributes. cbv zeta. skip_writes. reflexivity.
Qed.

Lemma store_parsed_native (c : Cycle) (p : Prelude) (q : Parsed) (s : Places) :
  get (store_parsed c p q s) _attr_native_value = get s _attr_native_value.
Proof.
  unfold store_parsed. cbv zeta.
  destruct (osm_id q); skip_writes; reflexivity.
Qed.

Lemma extended_fetch_native (c : Cycle) (q : Parsed) (s : Places) :
  get (state_of (extended_fetch c q s)) _attr_native_value = get s _attr_native_value
  /\ config (state_of (extended_fetch c q s)) = config s.
Proof.
  unfold extended_fetch.
  destruct (osm_id q); [| split; reflexivity].
  destruct (osm_type q) as [ty|]; [| split; reflexivity].
  destruct (osm_type_abbr ty); [| split; reflexivity].
  destruct (wikidata_of _) as [w|]; cbn [state_of].
  - destruct (is_none w); skip_writes; split; reflexivity.
  - skip_writes; split; reflexivity.
Qed.

Lemma commit_native (c : Cycle) (q : Parsed) (ns : option string) (s : Places) :
  get (state_of (commit c q ns s)) _attr_native_value
  = commit_state (_show_time (config s)) (current_time c) ns.
Proof.
  unfold commit, finish. cbv zeta.
  destruct (event_data _ q); cbn [state_of]; skip_writes; apply get_set_eq.
Qed.

End Commit.

Lemma parse_reply_osm (cfg : Config) (zone : string) (r : Reply) (q : Parsed) :
  parse_reply cfg zone r = Ok q ->
  osm_id q = r_osm_id r /\ osm_type q = r_osm_type r.
Proof.
  unfold parse_reply.
  destruct (parse_place cfg zone r) as [[[[pt pc] pn] ns]|]; cbn [bind]; [| discriminate].
  destruct (need "address" (r_address r)) as [address|]; cbn [bind]; [| discriminate].
  destruct (parse_state_abbr address); cbn [bind]; [| discriminate].
  intros [= <-]. split; reflexivity.
Qed.

Section Stored.

Context `{Builtins}.

Lemma geocode_stage_native_built (c : Cycle) (p : Prelude) (r : Reply) (s : Places) :
  get (state_of (geocode_stage c p r s)) _attr_native_value = get s _attr_native_value
  \/ exists ns,
       new_state_of c p r (config s) = Ok ns
       /\ state_changed (previous_state p) ns (tracker_state c) (initial_update s) = Ok true
       /\ get (state_of (geocode_stage c p r s)) _attr_native_value
          = commit_state (_show_time (config s)) (current_time c) ns.
Proof.
  unfold geocode_stage, new_state_of, finish. cbv zeta.
  destruct (parse_reply _ _ r) as [q|]; cbn [bind]; [| now left].
  destruct (formatted_place _ _ _ _ q) as [fp|]; cbn [state_of bind];
    [| left; apply store_parsed_native].
  destruct (build_new_state _ _ _ _ _ r q fp) as [ns|]; cbn [state_of];
    [| left; skip_writes; apply store_parsed_native].
  set (s3 := if _extended_attr (config s)
             then set _osm_dict (r_raw r)
                    (set _formatted_place (PStr fp) (store_parsed c p q s))
             else set _formatted_place (PStr fp) (store_parsed c p q s)).
  assert (Hk : get s3 _attr_native_value = get s _attr_native_value).
  { subst s3. destruct (_extended_attr (config s)); skip_writes;
      apply store_parsed_native. }
  assert (Hc : config s3 = config s).
  { subst s3. destruct (_extended_attr (config s)); apply config_store_parsed. }
  assert (Hi : initial_update s3 = initial_update s).
  { subst s3. destruct (_extended_attr (config s)); apply initial_update_store_parsed. }
  rewrite Hi.
  destruct (state_changed _ ns _ _) as [[|]|] eqn:Hch; cbn [state_of].
  - destruct (_extended_attr (config s)).
    + destruct (extended_fetch_native c q s3) as [Hn Hg].
      destruct (extended_fetch c q s3) as [s4|e s4]; cbn [state_of] in *.
      * right. exists ns. split; [reflexivity |]. split; [exact Hch |].
        rewrite commit_native, Hg, Hc. reflexivity.
      * left. rewrite Hn. exact Hk.
    + right. exists ns. split; [reflexivity |]. split; [exact Hch |].
      rewrite commit_native, Hc. reflexivity.
  - left. skip_writes. exact Hk.
  - left. exact Hk.
Qed.

Lemma extended_fetch_completes (c : Cycle) (q : Parsed) (s : Places) :
  completes (extended_fetch c q s)
  = match osm_id q, osm_type q with
    | Some _, Some osm_type =>
        succeeds (osm_type_abbr osm_type)
        && succeeds (wikidata_of (osm_details_decoded c))
    | _, _ => true
    end.
Proof.
  unfold extended_fetch.
  destruct (osm_id q); [| reflexivity].
  destruct (osm_type q) as [ty|]; [| reflexivity].
  destruct (osm_type_abbr ty); [| reflexivity].
  destruct (wikidata_of (osm_details_decoded c)); reflexivity.
Qed.

(** When the stage reaches line 2018, the display value is built from the
    [new_state] of the cycle. *)
Lemma geocode_stage_native_exact (c : Cycle) (p : Prelude) (r : Reply) (s : Places)
    (ns : option string) :
  new_state_of c p r (config s) = Ok ns ->
  state_changed (previous_state p) ns (tracker_state c) (initial_update s) = Ok true ->
  extended_done c (config s) r = true ->
  get (state_of (geocode_stage c p r s)) _attr_native_value
  = commit_state (_show_time (config s)) (current_time c) ns.
Proof.
  unfold geocode_stage, new_state_of, extended_done. cbv zeta.
  destruct (parse_reply _ _ r) as [q|] eqn:Hq; cbn [bind]; [| discriminate].
  destruct (parse_reply_osm _ _ _ _ Hq) as [Hid Hty].
  destruct (formatted_place _ _ _ _ q) as [fp|]; cbn [bind]; [| discriminate].
  intros Hns Hch Hdone. rewrite Hns.
  set (s3 := if _extended_attr (config s)
             then set _osm_dict (r_raw r)
                    (set _formatted_place (PStr fp) (store_parsed c p q s))
             else set _formatted_place (PStr fp) (store_parsed c p q s)).
  assert (Hc : config s3 = config s).
  { subst s3. destruct (_extended_attr (config s)); apply config_store_parsed. }
  assert (Hi : initial_update s3 = initial_update s).
  { subst s3. destruct (_extended_attr (config s)); apply initial_update_store_parsed. }
  rewrite Hi, Hch.
  destruct (_extended_attr (config s)).
  - destruct (extended_fetch_native c q s3) as [_ Hg].
    pose proof (extended_fetch_completes c q s3) as Hx.
    rewrite Hid, Hty, Hdone in Hx.
    destruct (extended_fetch c q s3) as [s4|e s4]; cbn [state_of completes] in *;
      [| discriminate Hx].
    rewrite commit_native, Hg, Hc. reflexivity.
  - rewrite commit_native, Hc. reflexivity.
Qed.

Lemma geocode_stage_native (c : Cycle) (p : Prelude) (r : Reply) (s : Places) :
  get (state_of (geocode_stage c p r s)) _attr_native_value = get s _attr_native_value
  \/ exists ns, get (state_of (geocode_stage c p r s)) _attr_native_value
                = commit_state (_show_time (config s)) (current_time c) ns.
Proof.
  unfold geocode_stage, finish. cbv zeta.
  destruct (parse_reply _ _ r) as [q|]; [| now left].
  destruct (formatted_place _ _ _ _ q) as [fp|]; cbn [state_of];
    [| left; apply store_parsed_native].
  destruct (build_new_state _ _ _ _ _ r q fp) as [ns|]; cbn [state_of];
    [| left; skip_writes; apply store_parsed_native].
  set (s3 := if _extended_attr (config s)
             then set _osm_dict (r_raw r)
                    (set _formatted_place (PStr fp) (store_parsed c p q s))
             else set _formatted_place (PStr fp) (store_parsed c p q s)).
  assert (Hk : get s3 _attr_native_value = get s _attr_native_value).
  { subst s3. destruct (_extended_attr (config s)); skip_writes;
      apply store_parsed_native. }
  assert (Hc : config s3 = config s).
  { subst s3. destruct (_extended_attr (config s)); apply config_store_parsed. }
  destruct (state_changed _ ns _ _) as [[|]|]; cbn [state_of].
  - destruct (_extended_attr (config s)).
    + destruct (extended_fetch_native c q s3) as [Hn Hg].
      destruct (extended_fetch c q s3) as [s4|e s4]; cbn [state_of] in *.
      * right. exists ns. rewrite commit_native, Hg, Hc. reflexivity.
      * left. rewrite Hn. exact Hk.
    + right. exists ns. rewrite commit_native, Hc. reflexivity.
  - left. skip_writes. exact Hk.
  - left. exact Hk.
Qed.

Lemma new_state_of_sync_name (c : Cycle) (p : Prelude) (r : Reply) (s : Places) :
  new_state_of c p r (config (sync_name c s)) = new_state_of c p r (config s).
Proof. destruct (sync_name_cases c s) as [->|[name ->]]; reflexivity. Qed.

Lemma show_time_sync_name (c : Cycle) (s : Places) :
  _show_time (config (sync_name c s)) = _show_time (config s).
Proof. destruct (sync_name_cases c s) as [->|[name ->]]; reflexivity. Qed.

Lemma extended_done_sync_name (c : Cycle) (r : Reply) (s : Places) :
  extended_done c (config (sync_name c s)) r = extended_done c (config s) r.
Proof. destruct (sync_name_cases c s) as [->|[name ->]]; reflexivity. Qed.

(** The display value after [do_update] is the one before it, or the one
    lines 2018-2033 build from the [new_state] of the cycle. *)
Lemma do_update_native_built (c : Cycle) (s : Places) :
  get (state_of (do_update c s)) _attr_native_value = get s _attr_native_value
  \/ exists p r ns,
       prelude c s = Ok p
       /\ osm_decoded c = Some r
       /\ new_state_of c p r (config s) = Ok ns
       /\ get (state_of (do_update c s)) _attr_native_value
          = commit_state (_show_time (config s)) (current_time c) ns.
Proof.
  destruct (prelude c s) as [p|e] eqn:Hp.
  - rewrite (do_update_reached c s p Hp).
    destruct (fst (update_gate c p s) && negb (String.eqb (tracker_state c) EmptyString)).
    + destruct (osm_decoded c) as [r|]; cbn [state_of].
      * match goal with
        | |- context [geocode_stage c p r ?s1] =>
            destruct (geocode_stage_native_built c p r s1) as [Hn|(ns & Hns & _ & Hn)];
            rewrite Hn
        end.
        -- left. rewrite begin_update_native. skip_writes. apply get_sync_name.
        -- right. exists p, r, ns. split; [reflexivity |]. split; [reflexivity |].
           split.
           ++ rewrite <- (new_state_of_sync_name c p r s). exact Hns.
           ++ f_equal. apply show_time_sync_name.
      * left. unfold finish. cbn [state_of]. skip_writes.
        rewrite begin_update_native. skip_writes. apply get_sync_name.
    + left. cbn [state_of]. skip_writes. apply get_sync_name.
  - left. destruct (do_update_raised c s e Hp) as [-> | ->]; cbn [state_of];
      [reflexivity | apply get_sync_name].
Qed.


End Stored.

Lemma length_time_suffix (c : Cycle) :
  (now_hour c < 24)%nat -> (now_minute c < 60)%nat ->
  String.length (" (since " +:+ current_time c +:+ ")") = 14%nat.
Proof.
  intros Hh Hm. unfold current_time.
  rewrite !length_app, !length_fmt02 by lia. reflexivity.
Qed.

(** C10: when [do_update] reaches line 2018 with a new state that is not
    [None] (the gate is passed, the reply gives that new state, the display
    state counts as changed and the extended fetches raise nothing), the
    value it stores is that new state cut to its first 255 characters when
    [show_time] is off, and its first 241 characters followed by the 14
    characters " (since HH:MM)" when it is on: at most 255 characters in
    both cases.  Nothing else is ever stored: after any call the display
    value is the one the call found, or [None], or that text for the new
    state of the cycle. *)
Theorem committed_state_length `{Builtins} (c : Cycle) (s : Places) :
  (now_hour c < 24)%nat ->
  (now_minute c < 60)%nat ->
  let stored := get (state_of (do_update c s)) _attr_native_value in
  let shown new_state :=
    if _show_time (config s)
    then PyStr.take 241 new_state +:+ " (since " +:+ current_time c +:+ ")"
    else PyStr.take 255 new_state in
  (forall p r new_state,
      prelude c s = Ok p ->
      fst (update_gate c p s) = true ->
      tracker_state c <> EmptyString ->
      osm_decoded c = Some r ->
      new_state_of c p r (config s) = Ok (Some new_state) ->
      state_changed (previous_state p) (Some new_state) (tracker_state c)
        (initial_update s) = Ok true ->
      extended_done c (config s) r = true ->
      stored = PStr (shown new_state))
  /\ (stored = get s _attr_native_value
      \/ stored = PNone
      \/ exists p r new_state,
           prelude c s = Ok p
           /\ osm_decoded c = Some r
           /\ new_state_of c p r (config s) = Ok (Some new_state)
           /\ stored = PStr (shown new_state))
  /\ (forall new_state, (String.length (shown new_state) <= 255)%nat)
  /\ String.length (" (since " +:+ current_time c +:+ ")") = 14%nat.
Proof.
  intros Hh Hm. cbv zeta.
  pose proof (length_time_suffix c Hh Hm) as Hsuffix.
  split; [| split; [| split; [| exact Hsuffix]]].
  - intros p r new_state Hp Hgate Hzone Hr Hns Hch Hdone.
    rewrite (do_update_reached c s p Hp), Hgate, Hr.
    apply String.eqb_neq in Hzone. rewrite Hzone. cbn [andb negb].
    rewrite (geocode_stage_native_exact c p r _ (Some new_state)).
    + unfold commit_state. cbn [config begin_update set_updateskipped].
      change (config (begin_update c p ?x)) with (config x).
      cbn [config set_updateskipped]. rewrite show_time_sync_name.
      destruct (_show_time (config s)); reflexivity.
    + change (config (begin_update c p ?x)) with (config x).
      cbn [config set_updateskipped]. now rewrite new_state_of_sync_name.
    + change (initial_update (begin_update c p ?x)) with (initial_update x).
      cbn [initial_update set_updateskipped]. now rewrite initial_update_sync_name.
    + change (config (begin_update c p ?x)) with (config x).
      cbn [config set_updateskipped]. now rewrite extended_done_sync_name.
  - destruct (do_update_native_built c s) as [Hn|(p & r & [ns|] & Hp & Hr & Hns & Hn)];
      rewrite Hn.
    + now left.
    + right; right. exists p, r, ns. repeat (split; [assumption |]).
      unfold commit_state. destruct (_show_time (config s)); reflexivity.
    + right; left. reflexivity.
  - intros new_state. destruct (_show_time (config s)).
    + rewrite length_app, Hsuffix, length_take. lia.
    + rewrite length_take. lia.
Qed.

Lemma committed_state_length_witness :
  let B := Sample.builtins 12500 0 0 in
  let c := Sample.cycle (Some 10%Q) "not_home"
             (Some (Sample.reply (Some ∅) (Some ∅) None)) in
  let s := init (Sample.cfg "zone_name, place" None) "2023-01-01 09:00:00" in
  get (state_of (@do_update B c s)) _attr_native_value = PStr "Not_Home, leisure, park".
Proof.
  intros B c s.
  assert (Hp : exists p, @prelude B c s = Ok p /\ fst (@update_gate B c p s) = true
                         /\ @new_state_of B c p (Sample.reply (Some ∅) (Some ∅) None)
                              (config s) = Ok (Some "Not_Home, leisure, park")
                         /\ state_changed (previous_state p)
                              (Some "Not_Home, leisure, park") (tracker_state c)
                              (initial_update s) = Ok true).
  { let o := eval vm_compute in (@prelude B c s) in
    lazymatch o with Ok ?x => exists x end.
    repeat split; vm_compute; reflexivity. }
  destruct Hp as (p & Hp & Hgate & Hns & Hch).
  assert (Hh : (now_hour c < 24)%nat) by (vm_compute; lia).
  assert (Hm : (now_minute c < 60)%nat) by (vm_compute; lia).
  exact (proj1 (@committed_state_length B c s Hh Hm) p
           (Sample.reply (Some ∅) (Some ∅) None) "Not_Home, leisure, park"
           Hp Hgate ltac:(discriminate) eq_refl Hns Hch eq_refl).
Defined.

Example committed_state_ex :
  let B := Sample.builtins 12500 0 0 in
  let c := Sample.cycle (Some 10%Q) "not_home"
             (Some (Sample.reply (Some ∅) (Some ∅) None)) in
  let s := init (Sample.cfg "zone_name, place" None) "2023-01-01 09:00:00" in
  get (state_of (@do_update B c s)) _attr_native_value = PStr "Not_Home, leisure, park".
Proof. vm_compute. reflexivity. Qed.

(** ** Geo-math *)



(** The classification of lines 1114-1121 for a given [deviation]. *)
Lemma classify_direction_cases (deviation last_distance_m distance_m : Q) :
  ((deviation <= 2 # 10)%Q -> classify_direction deviation last_distance_m distance_m = "stationary")
  /\ (~ (deviation <= 2 # 10)%Q -> (distance_m < last_distance_m)%Q ->
      classify_direction deviation last_distance_m distance_m = "towards home")
  /\ (~ (deviation <= 2 # 10)%Q -> (last_distance_m < distance_m)%Q ->
      classify_direction deviation last_distance_m distance_m = "away from home")
  /\ (~ (deviation <= 2 # 10)%Q -> (distance_m == last_distance_m)%Q ->
      classify_direction deviation last_distance_m distance_m = "stationary").
Proof.
  unfold classify_direction.
  destruct (Qle_bool deviation (2 # 10)) eqn:E.
  - apply Qle_bool_iff in E. repeat split; intros; try reflexivity; contradiction.
  - assert (Hn : ~ (deviation <= 2 # 10)%Q)
      by (intros Hle; apply Qle_bool_iff in Hle; congruence).
    repeat split; try (intros; contradiction); intros _ Hcmp.
    + destruct (Qlt_le_dec distance_m last_distance_m) as [_|Hge]; [reflexivity |].
      exfalso. apply (Qlt_irrefl distance_m). eapply Qlt_le_trans; eauto.
    + destruct (Qlt_le_dec distance_m last_distance_m) as [Hlt|_].
      * exfalso. apply (Qlt_irrefl distance_m). eapply Qlt_trans; eauto.
      * destruct (Qlt_le_dec last_distance_m distance_m) as [_|Hge]; [reflexivity |].
        exfalso. apply (Qlt_irrefl distance_m). eapply Qle_lt_trans; eauto.
    + destruct (Qlt_le_dec distance_m last_distance_m) as [Hlt|_].
      * exfalso. rewrite Hcmp in Hlt. exact (Qlt_irrefl _ Hlt).
      * destruct (Qlt_le_dec last_distance_m distance_m) as [Hlt|_]; [| reflexivity].
        exfalso. rewrite Hcmp in Hlt. exact (Qlt_irrefl _ Hlt).
Qed.

(** C4, where the code departs from it: the tracker goes from latitude 0,
    longitude 90 to latitude 1, longitude 90, about 111 km, and from 112 km
    to 3 km from home.  The call of line 1108 passes the latitudes as
    longitudes: the deviation it computes is 0, and the direction is
    "stationary" where the haversine deviation between the two positions
    exceeds 0.2 km and the claim asks for "towards home". *)
Theorem direction_deviation_swapped :
  Geo.deviation_call 0 90 1 90 = Q2R 0
  /\ (0.2 < Geo.haversine 90 0 90 1)%R
  /\ (3000 < 112000)%Q
  /\ classify_direction 0 112000 3000 = "stationary".
Proof.
  split; [| split; [| split; reflexivity]].
  - unfold Geo.deviation_call, Geo.haversine, Geo.radians. cbv zeta.
    replace (90 * (PI / 180))%R with (PI / 2)%R by lra.
    replace ((PI / 2 - PI / 2) / 2)%R with 0%R by lra.
    rewrite cos_PI2, sin_0.
    match goal with
    | |- (2 * asin (sqrt ?a) * 6371)%R = _ => replace a with 0%R by ring
    end.
    rewrite sqrt_0, asin_0. unfold Q2R; simpl. lra.
  - unfold Geo.haversine, Geo.radians. cbv zeta.
    replace ((90 * (PI / 180) - 90 * (PI / 180)) / 2)%R with 0%R by lra.
    replace ((1 * (PI / 180) - 0 * (PI / 180)) / 2)%R with (PI / 360)%R by lra.
    rewrite sin_0.
    pose proof PI2_1 as Hpi. pose proof PI_4 as Hpi4.
    assert (Hs : (0 <= sin (PI / 360))%R) by (apply sin_ge_0; lra).
    match goal with
    | |- (_ < 2 * asin (sqrt ?a) * 6371)%R =>
        replace a with (sin (PI / 360) ^ 2)%R by ring
    end.
    rewrite sqrt_pow2 by exact Hs.
    rewrite asin_sin by lra. lra.
Qed.

(** ** The place name *)

(** X12: the language loop stops at the first code, in the configured
    order, that has an entry in the name details. *)
Lemma language_name_first_hit (before after : list string) (language v : string)
    (namedetails : gmap string string) :
  Forall (fun l => namedetails !! ("name:" +:+ l) = None) before ->
  namedetails !! ("name:" +:+ language) = Some v ->
  language_name (before ++ language :: after) namedetails = Some v.
Proof.
  intros Hbefore Hhit. induction Hbefore as [|l before Hl _ IH]; simpl.
  - now rewrite Hhit.
  - now rewrite Hl.
Qed.

(** The claim of C5 as the specification words it fails when no place
    option is configured: the name details have a French name and the
    language is "fr", yet [place_name] stays [None]. *)
Lemma place_name_counterexample :
  let cfg := Sample.cfg "zone_name, city" (Some "fr") in
  let r := Sample.reply (Some ∅)
             (Some (<["name" := "Central Park"]> (<["name:fr" := "Parc Central"]> ∅)))
             None in
  exists q, parse_reply cfg "not_home" r = Ok q /\ place_name q = None.
Proof. eexists. split; vm_compute; reflexivity. Qed.

(** C5, amended: when the options string contains "place" and the reply
    has a type (an address type when the type is "yes"), an address and
    name details, [place_name] is the entry ["name:" + code] of the first
    configured language code that has one, which overrides the bare
    ["name"], which overrides the address entry of the category, which
    overrides the address entry of the place type.  When the options string
    does not contain "place", the place block yields nothing whatever the
    reply holds, and [place_name] is [None] in every reply the parser
    accepts. *)
Theorem place_name_override (cfg : Config) (zone : string) (r : Reply) :
  (PyStr.contains "place" (_options cfg) = true ->
   forall (pt : string) (address namedetails : gmap string string),
     reply_place_type r = Some pt ->
     r_address r = Some address ->
     r_namedetails r = Some namedetails ->
     exists new_state,
       parse_place cfg zone r
       = Ok (Some pt, r_category r,
             spec_place_name (_language cfg) address namedetails pt (r_category r),
             new_state))
  /\ (PyStr.contains "place" (_options cfg) = false ->
      parse_place cfg zone r = Ok (None, None, None, None)
      /\ forall q, parse_reply cfg zone r = Ok q -> place_name q = None).
Proof.
  split.
  - intros Hplace pt address namedetails Htype Haddress Hnd.
    unfold parse_place, reply_place_type in *. rewrite Hplace.
    destruct (r_type r) as [t|]; [| discriminate]. cbn [need bind].
    assert (Hpt : (if String.eqb t "yes" then need "addresstype" (r_addresstype r)
                   else Ok t) = Ok pt).
    { destruct (String.eqb t "yes"); [| congruence]. now rewrite Htype. }
    rewrite Hpt, Haddress, Hnd. cbn [need bind].
    eexists. apply f_equal.
    apply (f_equal2 pair); [apply (f_equal2 pair); [reflexivity |] | reflexivity].
    unfold spec_place_name, override.
    destruct (_language cfg) as [l|]; cbn [mbind option_bind];
      [destruct (language_name (PyStr.split "," l) namedetails); [reflexivity |] |];
      (destruct (namedetails !! "name"); [reflexivity |]);
      (destruct (r_category r) as [cat|]; cbn [mbind option_bind];
       [destruct (address !! cat); reflexivity | reflexivity]).
  - intros Hplace.
    assert (Hnone : parse_place cfg zone r = Ok (None, None, None, None))
      by (unfold parse_place; now rewrite Hplace).
    split; [exact Hnone |].
    intros q. unfold parse_reply. rewrite Hnone. cbn [bind].
    destruct (need "address" (r_address r)) as [address|]; cbn [bind]; [| discriminate].
    destruct (parse_state_abbr address); cbn [bind]; [| discriminate].
    intros [= <-]. reflexivity.
Qed.

Lemma place_name_override_witness :
  let nd : gmap string string :=
    <["name" := "Central Park"]> (<["name:fr" := "Parc Central"]> ∅) in
  let r := Sample.reply (Some ∅) (Some nd) None in
  (exists new_state,
     parse_place (Sample.cfg "zone_name, place" (Some "fr")) "not_home" r
     = Ok (Some "park", Some "leisure", Some "Parc Central", new_state))
  /\ parse_place (Sample.cfg "zone_name, city" (Some "fr")) "not_home" r
     = Ok (None, None, None, None).
Proof.
  intros nd r. split.
  - exact (proj1 (place_name_override (Sample.cfg "zone_name, place" (Some "fr"))
                    "not_home" r)
             eq_refl "park" ∅ nd eq_refl eq_refl eq_refl).
  - exact (proj1 (proj2 (place_name_override (Sample.cfg "zone_name, city" (Some "fr"))
                           "not_home" r) eq_refl)).
Defined.

(** ** The upstream error message *)

(** Once the formatter is reached, an [error_message] of the reply is
    the new state, before the [formatted_place] option and the display
    options. *)
Lemma error_message_priority (cfg : Config) (names : list string)
    (zone zone_name direction : string) (r : Reply) (q : Parsed) (fp m : string) :
  r_error_message r = Some m ->
  build_new_state cfg names zone zone_name direction r q fp = Ok (Some m).
Proof. intros Hm. unfold build_new_state. now rewrite Hm. Qed.

Lemma parse_reply_without_address (cfg : Config) (zone : string) (r : Reply) :
  r_address r = None ->
  exists k, parse_reply cfg zone r = Raise (KeyError k).
Proof.
  intros Ha. unfold parse_reply, parse_place. rewrite Ha.
  destruct (PyStr.contains "place" (_options cfg)); cbn [need bind]; [| eauto].
  destruct (r_type r) as [t|]; cbn [need bind]; [| eauto].
  destruct (String.eqb t "yes"); cbn [need bind]; [| eauto].
  destruct (r_addresstype r); cbn [need bind]; eauto.
Qed.

(** C6, where the code departs from it: a reply that carries an
    [error_message] and no [address] object makes [do_update] raise
    [KeyError] in the parser, before the error message is looked at; the
    display state stays what it was. *)
Theorem error_message_without_address `{Builtins} (c : Cycle) (s : Places)
    (p : Prelude) (r : Reply) (m : string) :
  prelude c s = Ok p ->
  fst (update_gate c p s) = true ->
  tracker_state c <> EmptyString ->
  osm_decoded c = Some r ->
  r_error_message r = Some m ->
  r_address r = None ->
  exists k s',
    do_update c s = Raised (KeyError k) s'
    /\ get s' _attr_native_value = get s _attr_native_value.
Proof.
  intros Hp Hgate Hzone Hreply _ Haddress.
  rewrite (do_update_reached c s p Hp), Hgate, Hreply.
  apply String.eqb_neq in Hzone. rewrite Hzone. cbn [andb negb].
  unfold geocode_stage. cbv zeta.
  match goal with
  | |- context [parse_reply ?cfg ?zone r] =>
      destruct (parse_reply_without_address cfg zone r Haddress) as [k Hk]
  end.
  rewrite Hk. eexists _, _. split; [reflexivity |].
  rewrite begin_update_native. skip_writes. apply get_sync_name.
Qed.

Lemma error_message_without_address_witness :
  let B := Sample.builtins 12500 250 (1 # 2) in
  let r := Sample.reply None None (Some "Unable to geocode") in
  let c := Sample.cycle (Some 10%Q) "not_home" (Some r) in
  let s := Sample.entity "zone_name, city" 0 in
  exists k s',
    @do_update B c s = Raised (KeyError k) s'
    /\ get s' _attr_native_value = get s _attr_native_value.
Proof.
  intros B r c s.
  assert (Hp : exists p, @prelude B c s = Ok p /\ fst (@update_gate B c p s) = true).
  { let o := eval vm_compute in (@prelude B c s) in
    lazymatch o with Ok ?x => exists x end.
    split; vm_compute; reflexivity. }
  destruct Hp as (p & Hp & Hgate).
  apply (@error_message_without_address B c s p r "Unable to geocode" Hp Hgate);
    [discriminate | reflexivity | reflexivity | reflexivity].
Defined.

Example error_message_raises :
  let B := Sample.builtins 12500 250 (1 # 2) in
  let r := Sample.reply None None (Some "Unable to geocode") in
  let c := Sample.cycle (Some 10%Q) "not_home" (Some r) in
  completes (@do_update B c (Sample.entity "zone_name, city" 0)) = false
  /\ completes (@do_update B c (Sample.entity "zone_name, place" 0)) = false.
Proof. split; vm_compute; reflexivity. Qed.

(** ** The snapshot *)

Lemma lookup_put_ne (k k' : string) (v : pyval) (d : gmap string pyval) :
  k <> k' -> put k v d !! k' = d !! k'.
Proof. intros Hne. unfold put. destruct v; try reflexivity; now rewrite lookup_insert_ne. Qed.

Lemma lookup_put_eq (k : string) (v : pyval) (d : gmap string pyval) :
  put k v d !! k = if is_none v then d !! k else Some v.
Proof. unfold put. destruct v; try reflexivity; now rewrite lookup_insert_eq. Qed.

(** [json.dump] raises as soon as one entry holds a [datetime]. *)
Lemma json_dump_rejects (d : gmap string pyval) (k : string) (v : pyval) :
  d !! k = Some v -> serializable v = false -> json_dump d = None.
Proof.
  intros Hk Hv. unfold json_dump.
  destruct (decide _) as [Hall|]; [| reflexivity].
  specialize (Hall k v Hk). simpl in Hall. congruence.
Qed.

Lemma json_dump_some (d d' : gmap string pyval) :
  json_dump d = Some d' -> d' = d /\ forall k v, d !! k = Some v -> serializable v = true.
Proof.
  unfold json_dump. destruct (decide _) as [Hall|]; [| discriminate].
  intros [= <-]. split; [reflexivity | exact Hall].
Qed.

Section SnapshotFacts.

Context `{Builtins} (key : attr_key -> string).

(** Distinct constants of [const.py] are distinct keys. *)
Hypothesis key_inj : forall a b, key a = key b -> a = b.

Lemma extra_state_attributes_lookup (s : Places) (a : attr_key) :
  extra_state_attributes key s !! key a
  = if is_none (exported s a) then None else Some (exported s a).
Proof.
  unfold extra_state_attributes. cbv zeta.
  destruct a;
    repeat first
      [ rewrite lookup_put_ne by (let E := fresh in intros E; apply key_inj in E; discriminate E)
      | rewrite lookup_put_eq
      | rewrite lookup_empty ];
    cbn [exported];
    match goal with
    | |- (if is_none ?v then _ else _) = _ => destruct (is_none v); reflexivity
    | |- _ => reflexivity
    end.
Qed.

End SnapshotFacts.

Section SnapshotLoss.

Context `{Builtins} (key : attr_key -> string).

Hypothesis key_inj : forall a b, key a = key b -> a = b.

(** An entity whose [_mtime] holds a [datetime] cannot be written. *)
Lemma save_snapshot_datetime (s : Places) (now : string) :
  get s _mtime = PDatetime now -> save_snapshot key s = None.
Proof.
  intros Hm. unfold save_snapshot, sensor_attributes. cbv zeta.
  apply (json_dump_rejects _ (key ATTR_MTIME) (PDatetime now)); [| reflexivity].
  apply lookup_union_Some_l.
  rewrite (extra_state_attributes_lookup key key_inj s ATTR_MTIME).
  cbn [exported]. now rewrite Hm.
Qed.

Lemma begin_update_mtime (c : Cycle) (p : Prelude) (s : Places) :
  get (begin_update c p s) _mtime = PDatetime (now_reset c).
Proof.
  unfold begin_update, _reset_attributes. cbv zeta. skip_writes. apply get_set_eq.
Qed.

Lemma begin_update_zone (c : Cycle) (p : Prelude) (s : Places) :
  get (begin_update c p s) _devicetracker_zone = PStr (tracker_state c).
Proof.
  unfold begin_update. cbv zeta. skip_writes. apply get_set_eq.
Qed.

End SnapshotLoss.

(** C7, where the code departs from it: [_reset_attributes] stores a
    [datetime] object in [_mtime], and only a decoded reply replaces it by
    a string.  After a cycle that passes the gate and whose geocode request
    fails, [json.dump] rejects the attributes: no snapshot is written, and
    an entity started from the file gets back none of the fields, the zone
    of the tracker for one. *)
Theorem snapshot_lost_after_failed_fetch `{Builtins} (key : attr_key -> string)
    (c : Cycle) (s : Places) (p : Prelude) :
  (forall a b, key a = key b -> a = b) ->
  prelude c s = Ok p ->
  fst (update_gate c p s) = true ->
  tracker_state c <> EmptyString ->
  osm_decoded c = None ->
  let s' := state_of (do_update c s) in
  completes (do_update c s) = true
  /\ get s' _mtime = PDatetime (now_reset c)
  /\ save_snapshot key s' = None
  /\ forall cfg now,
       reload key (save_snapshot key s') cfg now = Ok (init cfg now)
       /\ get s' _devicetracker_zone = PStr (tracker_state c)
       /\ get (init cfg now) _devicetracker_zone = PNone.
Proof.
  intros Hinj Hp Hgate Hzone Hreply. cbv zeta.
  assert (Hrun : do_update c s
                 = finish (begin_update c p
                             (set_updateskipped (snd (update_gate c p s))
                                (sync_name c s)))).
  { rewrite (do_update_reached c s p Hp), Hgate, Hreply.
    apply String.eqb_neq in Hzone. now rewrite Hzone. }
  rewrite Hrun. unfold finish. cbn [state_of completes].
  assert (Hm : get (set_initial_update false
                      (begin_update c p
                         (set_updateskipped (snd (update_gate c p s))
                            (sync_name c s)))) _mtime
               = PDatetime (now_reset c)).
  { rewrite get_set_initial_update. apply begin_update_mtime. }
  assert (Hsave := save_snapshot_datetime key Hinj _ _ Hm).
  split; [reflexivity |]. split; [exact Hm |]. split; [exact Hsave |].
  intros cfg now. rewrite Hsave. split; [reflexivity |].
  split; [| reflexivity].
  rewrite get_set_initial_update. apply begin_update_zone.
Qed.

Lemma sample_key_inj (a b : attr_key) : Sample.key a = Sample.key b -> a = b.
Proof.
  destruct a, b; intros Hab;
    first [ reflexivity | cbv in Hab; discriminate Hab ].
Qed.

Lemma snapshot_lost_after_failed_fetch_witness :
  let B := Sample.builtins 12500 250 (1 # 2) in
  let c := Sample.cycle (Some 10%Q) "not_home" None in
  let s := Sample.entity "zone_name, place" 0 in
  completes (@do_update B c s) = true
  /\ @save_snapshot Sample.key (state_of (@do_update B c s)) = None.
Proof.
  intros B c s.
  assert (Hp : exists p, @prelude B c s = Ok p /\ fst (@update_gate B c p s) = true).
  { let o := eval vm_compute in (@prelude B c s) in
    lazymatch o with Ok ?x => exists x end.
    split; vm_compute; reflexivity. }
  destruct Hp as (p & Hp & Hgate).
  destruct (@snapshot_lost_after_failed_fetch B Sample.key c s p sample_key_inj Hp Hgate)
    as (Hdone & _ & Hsave & _); [discriminate | reflexivity |].
  split; [exact Hdone | exact Hsave].
Defined.

Section RoundTrip.

Context `{Builtins} (key : attr_key -> string).

Hypothesis key_inj : forall a b, key a = key b -> a = b.

Lemma sensor_attributes_lookup (s : Places) (a : attr_key) :
  sensor_attributes key s !! key a
  = match a with
    | CONF_NAME => Some (PStr (_attr_name (config s)))
    | CONF_STATE => Some (get s _attr_native_value)
    | _ => if is_none (exported s a) then None else Some (exported s a)
    end.
Proof.
  unfold sensor_attributes. cbv zeta.
  rewrite lookup_union, (extra_state_attributes_lookup key key_inj s a).
  destruct a; cbn [exported is_none];
    repeat first
      [ rewrite lookup_insert_eq
      | rewrite lookup_insert_ne by (let E := fresh in intros E; apply key_inj in E; discriminate E)
      | rewrite lookup_empty ];
    try reflexivity;
    match goal with
    | |- context [is_none ?v] => destruct (is_none v); reflexivity
    end.
Qed.

Lemma get_load_ne (d : gmap string pyval) (k : attr_key) (f g : field) (s : Places) :
  f <> g -> get (load key d k f s) g = get s g.
Proof.
  intros Hne. unfold load. destruct (d !! key k); [| reflexivity].
  now apply get_set_ne.
Qed.

Lemma get_load_eq (d : gmap string pyval) (k : attr_key) (f : field) (s : Places) :
  get (load key d k f s) f = default (get s f) (d !! key k).
Proof.
  unfold load. destruct (d !! key k); [| reflexivity]. apply get_set_eq.
Qed.

Lemma load_float_number (d : gmap string pyval) (k : attr_key)
    (store : Q -> Places -> Places) (s : Places) (q : Q) :
  d !! key k = Some (PNum q) -> load_float key d k store s = Ok (store q s).
Proof. intros Hk. unfold load_float. now rewrite Hk. Qed.

Lemma load_untyped (d : gmap string pyval) (k : attr_key) (f : field) (s : Places) :
  initial_update (load key d k f s) = initial_update s
  /\ _distance_km (load key d k f s) = _distance_km s
  /\ _distance_m (load key d k f s) = _distance_m s.
Proof. unfold load. destruct (d !! key k); repeat split; reflexivity. Qed.

(** X23: where [json.dump] accepts the attributes, the snapshot gives
    every non-null attribute, the display state and both distances back to
    a new entity, and clears its [initial_update]. *)
Lemma snapshot_roundtrip (s : Places) (d : gmap string pyval) (cfg : Config) (now : string) :
  save_snapshot key s = Some d ->
  exists s',
    reload key (Some d) cfg now = Ok s'
    /\ initial_update s' = false
    /\ (forall f, get s f <> PNone -> get s' f = get s f)
    /\ _distance_km s' = _distance_km s
    /\ _distance_m s' = _distance_m s.
Proof.
  intros Hsave. apply json_dump_some in Hsave as [-> _].
  pose proof (sensor_attributes_lookup s) as Hd.
  set (d := sensor_attributes key s) in *.
  assert (Hne : d <> ∅).
  { intros He. specialize (Hd CONF_NAME). rewrite He, lookup_empty in Hd. discriminate. }
  unfold reload, import_attributes.
  change (default ∅ (Some d)) with d. cbv zeta.
  rewrite decide_False by exact Hne.
  rewrite (load_float_number d ATTR_DISTANCE_KM _ _ (_distance_km s))
    by (rewrite Hd; reflexivity).
  cbn [bind].
  rewrite (load_float_number d ATTR_DISTANCE_M _ _ (_distance_m s))
    by (rewrite Hd; reflexivity).
  cbn [bind].
  eexists. split; [reflexivity |].
  split; [| split; [| split]].
  - repeat first
      [ rewrite (proj1 (load_untyped _ _ _ _))
      | progress cbn [initial_update set_distance_m set_distance_km set_initial_update] ].
    reflexivity.
  - intros f Hf.
    destruct f;
      repeat first
        [ rewrite get_load_ne by discriminate
        | rewrite get_set_distance_km
        | rewrite get_set_distance_m
        | rewrite get_set_initial_update ];
      rewrite get_load_eq, Hd; cbn [exported];
      match goal with
      | |- context [is_none ?v] => destruct v; try reflexivity; contradiction
      | |- _ => reflexivity
      end.
  - repeat first
      [ rewrite (proj1 (proj2 (load_untyped _ _ _ _)))
      | progress cbn [_distance_km set_distance_m set_distance_km set_initial_update] ].
    reflexivity.
  - repeat first
      [ rewrite (proj2 (proj2 (load_untyped _ _ _ _)))
      | progress cbn [_distance_m set_distance_m set_distance_km set_initial_update] ].
    reflexivity.
Qed.

End RoundTrip.

Example snapshot_roundtrip_ex :
  let s := Sample.entity "zone_name, place" 2 in
  (save_snapshot Sample.key s ≫= (fun d => d !! "current_latitude"))
  = Some (PStr "51.6").
Proof. vm_compute. reflexivity. Qed.

(** ** The cycle as a whole *)

Lemma int_ge_10 (x : Q) : (10 <= x)%Q -> 10 <= int x.
Proof.
  destruct x as [n d]. unfold Qle, int; simpl. intros Hx.
  apply Z.quot_le_lower_bound; lia.
Qed.

Lemma reset_attributes_get (now : string) (s : Places) (f : field) :
  get (_reset_attributes now s) f
  = if bool_decide (f ∈ reset_fields) then PNone
    else if decide (f = _mtime) then PDatetime now else get s f.
Proof.
  unfold _reset_attributes. rewrite get_set_updateskipped.
  destruct f;
    repeat first [ rewrite get_set_eq | rewrite get_set_ne by discriminate ];
    reflexivity.
Qed.

Section Cycle.

Context `{Builtins}.

Lemma update_gate_skipped (c : Cycle) (p : Prelude) (s : Places) :
  snd (update_gate c p s) = _updateskipped s
  \/ (fst (update_gate c p s) = false
      /\ snd (update_gate c p s) = _updateskipped s + 1).
Proof.
  unfold update_gate.
  repeat match goal with
         | |- context [if ?b then _ else _] => destruct b; cbn [fst snd]; auto
         end.
Qed.

Lemma do_update_held_back (c : Cycle) (s : Places) (p : Prelude) :
  prelude c s = Ok p ->
  fst (update_gate c p s) && negb (String.eqb (tracker_state c) EmptyString) = false ->
  do_update c s = Done (set_updateskipped (snd (update_gate c p s)) (sync_name c s)).
Proof. intros Hp Hgate. now rewrite (do_update_reached c s p Hp), Hgate. Qed.

Lemma do_update_passed (c : Cycle) (s : Places) (p : Prelude) :
  prelude c s = Ok p ->
  fst (update_gate c p s) = true ->
  tracker_state c <> EmptyString ->
  do_update c s =
    match osm_decoded c with
    | Some r => geocode_stage c p r (begin_update c p (sync_name c s))
    | None => finish (begin_update c p (sync_name c s))
    end.
Proof.
  intros Hp Hgate Hzone. rewrite (do_update_reached c s p Hp), Hgate.
  destruct (update_gate_skipped c p s) as [Hs|[Hf _]]; [| congruence].
  apply String.eqb_neq in Hzone. rewrite Hzone, Hs. cbn [andb negb].
  now rewrite set_updateskipped_sync_name.
Qed.

(** What the stage leaves alone *)
Lemma store_parsed_frame (c : Cycle) (p : Prelude) (q : Parsed) (s : Places) (f : field) :
  stage_assigns f = false -> get (store_parsed c p q s) f = get s f.
Proof.
  intros Hf. unfold store_parsed. cbv zeta.
  destruct f; try discriminate Hf; destruct (osm_id q); skip_writes; reflexivity.
Qed.

Lemma extended_fetch_frame (c : Cycle) (q : Parsed) (s : Places) (f : field) :
  stage_assigns f = false -> get (state_of (extended_fetch c q s)) f = get s f.
Proof.
  intros Hf. unfold extended_fetch.
  destruct (osm_id q); [| reflexivity].
  destruct (osm_type q) as [ty|]; [| reflexivity].
  destruct (osm_type_abbr ty); [| reflexivity].
  destruct (wikidata_of _) as [w|]; cbn [state_of];
    [destruct (is_none w) |];
    destruct f; try discriminate Hf; skip_writes; reflexivity.
Qed.

Lemma commit_frame (c : Cycle) (q : Parsed) (ns : option string) (s : Places) (f : field) :
  stage_assigns f = false -> get (state_of (commit c q ns s)) f = get s f.
Proof.
  intros Hf. unfold commit, finish. cbv zeta.
  destruct (event_data _ q); cbn [state_of];
    destruct f; try discriminate Hf; skip_writes; reflexivity.
Qed.

Lemma geocode_stage_frame (c : Cycle) (p : Prelude) (r : Reply) (s : Places) (f : field) :
  stage_assigns f = false -> get (state_of (geocode_stage c p r s)) f = get s f.
Proof.
  intros Hf.
  pose proof (store_parsed_frame c p) as Hstore.
  assert (Hfp : f <> _formatted_place) by (intros ->; discriminate Hf).
  assert (Hod : f <> _osm_dict) by (intros ->; discriminate Hf).
  unfold geocode_stage, finish. cbv zeta.
  destruct (parse_reply _ _ r) as [q|]; [| reflexivity].
  destruct (formatted_place _ _ _ _ q) as [fp|]; cbn [state_of]; [| now apply Hstore].
  destruct (build_new_state _ _ _ _ _ r q fp) as [ns|]; cbn [state_of];
    [| rewrite get_set_ne by congruence; now apply Hstore].
  set (s3 := if _extended_attr (config s)
             then set _osm_dict (r_raw r)
                    (set _formatted_place (PStr fp) (store_parsed c p q s))
             else set _formatted_place (PStr fp) (store_parsed c p q s)).
  assert (Hk : get s3 f = get s f).
  { subst s3. destruct (_extended_attr (config s));
      repeat (rewrite get_set_ne by congruence); now apply Hstore. }
  destruct (state_changed _ ns _ _) as [[|]|]; cbn [state_of].
  - destruct (_extended_attr (config s)).
    + pose proof (extended_fetch_frame c q s3 f Hf) as Hx.
      destruct (extended_fetch c q s3) as [s4|e s4]; cbn [state_of] in *.
      * rewrite commit_frame by exact Hf. congruence.
      * congruence.
    + rewrite commit_frame by exact Hf. exact Hk.
  - rewrite get_set_initial_update. exact Hk.
  - exact Hk.
Qed.

Lemma store_parsed_distances (c : Cycle) (p : Prelude) (q : Parsed) (s : Places) :
  _distance_km (store_parsed c p q s) = _distance_km s
  /\ _distance_m (store_parsed c p q s) = _distance_m s.
Proof. unfold store_parsed. destruct (osm_id q); split; reflexivity. Qed.

Lemma extended_fetch_distances (c : Cycle) (q : Parsed) (s : Places) :
  _distance_km (state_of (extended_fetch c q s)) = _distance_km s
  /\ _distance_m (state_of (extended_fetch c q s)) = _distance_m s.
Proof. unfold extended_fetch. repeat (case_match; simpl); split; reflexivity. Qed.

Lemma commit_distances (c : Cycle) (q : Parsed) (ns : option string) (s : Places) :
  _distance_km (state_of (commit c q ns s)) = _distance_km s
  /\ _distance_m (state_of (commit c q ns s)) = _distance_m s.
Proof. unfold commit, finish. repeat (case_match; simpl); split; reflexivity. Qed.

Lemma geocode_stage_distances (c : Cycle) (p : Prelude) (r : Reply) (s : Places) :
  _distance_km (state_of (geocode_stage c p r s)) = _distance_km s
  /\ _distance_m (state_of (geocode_stage c p r s)) = _distance_m s.
Proof.
  pose proof (store_parsed_distances c p) as Hstore.
  unfold geocode_stage, finish.
  destruct (parse_reply _ _ r) as [q|]; [| split; reflexivity].
  destruct (formatted_place _ _ _ _ q) as [fp|]; [| apply Hstore].
  destruct (build_new_state _ _ _ _ _ r q fp) as [ns|]; [| apply Hstore].
  destruct (state_changed _ ns _ _) as [[|]|];
    try (destruct (_extended_attr (config s)); apply Hstore).
  destruct (_extended_attr (config s)).
  - match goal with
    | |- context [extended_fetch c q ?s1] =>
        pose proof (extended_fetch_distances c q s1) as [Hx1 Hx2];
        destruct (extended_fetch c q s1) as [s2|e s2]; simpl in Hx1, Hx2
    end.
    + destruct (commit_distances c q ns s2) as [-> ->]. rewrite Hx1, Hx2. apply Hstore.
    + simpl. rewrite Hx1, Hx2. apply Hstore.
  - match goal with
    | |- context [commit c q ns ?s1] =>
        destruct (commit_distances c q ns s1) as [-> ->]
    end.
    apply Hstore.
Qed.

End Cycle.

(** X1: after the initial update, with valid coordinates, a non-zero
    accuracy and a changed location string, a movement of 10 meters or more
    passes the gate at any skip count, and the skip count is 0 when the
    cycle ends, however it ends, provided the tracker reports a state. *)
Theorem gate_ten_meters `{Builtins} (c : Cycle) (s : Places) (p : Prelude) :
  prelude c s = Ok p ->
  coordinates_ok c p = true ->
  ~ (gps_accuracy c == 0)%Q ->
  initial_update s = false ->
  current_location c <> previous_location p ->
  (10 <= distance_traveled c p)%Q ->
  proceed_with_update c s = Ok true
  /\ (tracker_state c <> EmptyString ->
      _updateskipped (state_of (do_update c s)) = 0).
Proof.
  intros Hp Hok Hacc Hinit Hloc Hge.
  assert (Hgate : fst (update_gate c p s) = true).
  { unfold update_gate. rewrite Hok, Hinit; simpl.
    destruct (Qeq_bool (gps_accuracy c) 0) eqn:E;
      [apply Qeq_bool_iff in E; contradiction |].
    rewrite bool_decide_eq_false_2 by exact Hloc.
    destruct ((0 <? int (distance_traveled c p)) && (3 <? _updateskipped s));
      [reflexivity |].
    pose proof (int_ge_10 _ Hge) as Hint.
    assert (E2 : (int (distance_traveled c p) <? 10) = false) by (apply Z.ltb_ge; lia).
    now rewrite E2. }
  split.
  - unfold proceed_with_update. rewrite Hp; simpl. now rewrite Hgate.
  - intros Hzone. now apply (do_update_resets_skips c p s Hp).
Qed.

Lemma gate_ten_meters_witness :
  let B := Sample.builtins 12500 250 (1 # 2) in
  let c := Sample.cycle (Some 10%Q) "not_home" None in
  let s := Sample.entity "zone_name, place" 2 in
  @proceed_with_update B c s = Ok true
  /\ _updateskipped (state_of (@do_update B c s)) = 0.
Proof.
  intros B c s.
  assert (Hp : exists p, @prelude B c s = Ok p
                         /\ coordinates_ok c p = true
                         /\ current_location c <> previous_location p
                         /\ (10 <= @distance_traveled B c p)%Q).
  { let o := eval vm_compute in (@prelude B c s) in
    lazymatch o with Ok ?x => exists x end.
    repeat split; vm_compute; congruence. }
  destruct Hp as (p & Hp & Hok & Hloc & Hge).
  assert (Hacc : ~ (gps_accuracy c == 0)%Q) by (vm_compute; congruence).
  destruct (@gate_ten_meters B c s p Hp Hok Hacc eq_refl Hloc Hge) as [Hgate Hskip].
  split; [exact Hgate | apply Hskip; discriminate].
Defined.

(** X2: with valid coordinates, a non-zero accuracy and after the initial
    update, a location string identical to the previous one holds the
    update back: the call returns, the cycle does not count as a skip, and
    the entity is as it was but for the name, which is synchronised before
    the gate (lines 901-944); every attribute keeps its value. *)
Theorem gate_same_location `{Builtins} (c : Cycle) (s : Places) (p : Prelude) :
  prelude c s = Ok p ->
  coordinates_ok c p = true ->
  ~ (gps_accuracy c == 0)%Q ->
  initial_update s = false ->
  current_location c = previous_location p ->
  proceed_with_update c s = Ok false
  /\ do_update c s = Done (sync_name c s)
  /\ forall f, get (state_of (do_update c s)) f = get s f.
Proof.
  intros Hp Hok Hacc Hinit Hloc.
  assert (Hgate : update_gate c p s = (false, _updateskipped s)).
  { unfold update_gate. rewrite Hok, Hinit; simpl.
    destruct (Qeq_bool (gps_accuracy c) 0) eqn:E;
      [apply Qeq_bool_iff in E; contradiction |].
    now rewrite bool_decide_eq_true_2 by exact Hloc. }
  assert (Hrun : do_update c s = Done (sync_name c s)).
  { rewrite (do_update_held_back c s p Hp) by now rewrite Hgate.
    rewrite Hgate. cbn [snd]. now rewrite set_updateskipped_sync_name. }
  split; [| split; [exact Hrun |]].
  - unfold proceed_with_update. rewrite Hp; simpl. now rewrite Hgate.
  - intros f. rewrite Hrun. apply get_sync_name.
Qed.

Lemma gate_same_location_witness :
  let B := Sample.builtins 12500 0 0 in
  let c := {| friendly_name := Some "Phone";
              new_latitude := Some "51.6"; new_longitude := Some "-0.2";
              gps_accuracy_attr := Some 10%Q; tracker_state := "not_home";
              tracker_zone := None; zone_entity_name := None;
              osm_decoded := None; osm_details_decoded := PDict [];
              wikidata_decoded := PDict []; now_hour := 9; now_minute := 5;
              now_text := "2023-01-01 09:05:00";
              now_reset := "2023-01-01 09:04:59" |} in
  let s := Sample.entity "zone_name, place" 2 in
  @do_update B c s = Done (set_name "Phone" s).
Proof.
  intros B c s.
  assert (Hp : exists p, @prelude B c s = Ok p
                         /\ coordinates_ok c p = true
                         /\ current_location c = previous_location p).
  { let o := eval vm_compute in (@prelude B c s) in
    lazymatch o with Ok ?x => exists x end.
    repeat split; vm_compute; congruence. }
  destruct Hp as (p & Hp & Hok & Hloc).
  assert (Hacc : ~ (gps_accuracy c == 0)%Q) by (vm_compute; congruence).
  exact (proj1 (proj2 (@gate_same_location B c s p Hp Hok Hacc eq_refl Hloc))).
Defined.

(** X3: when the tracker's latitude or longitude, or a home coordinate, is
    missing or is no number, the update is held back, also on the initial
    update: the call returns the entity as it was but for the name, which
    is synchronised before the gate (lines 901-944); every attribute keeps
    its value. *)
Theorem gate_missing_coordinates `{Builtins} (c : Cycle) (s : Places) (p : Prelude) :
  prelude c s = Ok p ->
  coordinates_ok c p = false ->
  proceed_with_update c s = Ok false
  /\ do_update c s = Done (sync_name c s)
  /\ forall f, get (state_of (do_update c s)) f = get s f.
Proof.
  intros Hp Hok.
  assert (Hgate : update_gate c p s = (false, _updateskipped s)).
  { unfold update_gate. now rewrite Hok. }
  assert (Hrun : do_update c s = Done (sync_name c s)).
  { rewrite (do_update_held_back c s p Hp) by now rewrite Hgate.
    rewrite Hgate. cbn [snd]. now rewrite set_updateskipped_sync_name. }
  split; [| split; [exact Hrun |]].
  - unfold proceed_with_update. rewrite Hp; simpl. now rewrite Hgate.
  - intros f. rewrite Hrun. apply get_sync_name.
Qed.

Lemma gate_missing_coordinates_witness :
  let B := Sample.builtins 12500 250 0 in
  let c := {| friendly_name := Some "Phone";
              new_latitude := None; new_longitude := Some "-0.3";
              gps_accuracy_attr := Some 10%Q; tracker_state := "not_home";
              tracker_zone := None; zone_entity_name := None;
              osm_decoded := None; osm_details_decoded := PDict [];
              wikidata_decoded := PDict []; now_hour := 9; now_minute := 5;
              now_text := "2023-01-01 09:05:00";
              now_reset := "2023-01-01 09:04:59" |} in
  let s := init (Sample.cfg "zone_name, place" None) "2023-01-01 09:00:00" in
  @do_update B c s = Done (set_name "Phone" s).
Proof.
  intros B c s.
  assert (Hp : exists p, @prelude B c s = Ok p /\ coordinates_ok c p = false).
  { let o := eval vm_compute in (@prelude B c s) in
    lazymatch o with Ok ?x => exists x end.
    split; vm_compute; reflexivity. }
  destruct Hp as (p & Hp & Hok).
  exact (proj1 (proj2 (@gate_missing_coordinates B c s p Hp Hok))).
Defined.

(** X4: a tracker whose state is the empty string blocks the update even
    when the gate lets it through: nothing is reset or fetched, the skip
    count and [initial_update] stay as they were, and the call returns the
    entity as it was but for the name, which is synchronised before the
    gate (lines 901-944); every attribute keeps its value. *)
Theorem empty_tracker_state_blocks `{Builtins} (c : Cycle) (s : Places) (p : Prelude) :
  prelude c s = Ok p ->
  tracker_state c = EmptyString ->
  fst (update_gate c p s) = true ->
  do_update c s = Done (sync_name c s)
  /\ (forall f, get (state_of (do_update c s)) f = get s f)
  /\ initial_update (state_of (do_update c s)) = initial_update s
  /\ _updateskipped (state_of (do_update c s)) = _updateskipped s.
Proof.
  intros Hp Hzone Hgate.
  assert (Hrun : do_update c s = Done (sync_name c s)).
  { rewrite (do_update_held_back c s p Hp)
      by (rewrite Hzone; apply andb_false_r).
    destruct (update_gate_skipped c p s) as [->|[Hf _]]; [| congruence].
    now rewrite set_updateskipped_sync_name. }
  rewrite Hrun. cbn [state_of].
  split; [reflexivity |]. split; [intros f; apply get_sync_name |].
  split; [apply initial_update_sync_name | apply updateskipped_sync_name].
Qed.

Lemma empty_tracker_state_blocks_witness :
  let B := Sample.builtins 12500 250 0 in
  let c := Sample.renamed "Phone" (Sample.cycle (Some 10%Q) EmptyString None) in
  let s := init (Sample.cfg "zone_name, place" None) "2023-01-01 09:00:00" in
  @do_update B c s = Done (set_name "Phone" s) /\ initial_update s = true.
Proof.
  intros B c s.
  assert (Hp : exists p, @prelude B c s = Ok p /\ fst (@update_gate B c p s) = true).
  { let o := eval vm_compute in (@prelude B c s) in
    lazymatch o with Ok ?x => exists x end.
    split; vm_compute; reflexivity. }
  destruct Hp as (p & Hp & Hgate).
  split; [exact (proj1 (@empty_tracker_state_blocks B c s p Hp eq_refl Hgate))
         | reflexivity].
Defined.

(** X5: one call of [do_update] leaves the skip count unchanged, adds 1 to
    it, or sets it to 0, however the call ends; the count stays
    non-negative. *)
Theorem updateskipped_step `{Builtins} (c : Cycle) (s : Places) :
  let n := _updateskipped (state_of (do_update c s)) in
  (n = 0 \/ n = _updateskipped s \/ n = _updateskipped s + 1)
  /\ (0 <= _updateskipped s -> 0 <= n).
Proof.
  cbv zeta.
  assert (Hstep : _updateskipped (state_of (do_update c s)) = 0
                  \/ _updateskipped (state_of (do_update c s)) = _updateskipped s
                  \/ _updateskipped (state_of (do_update c s)) = _updateskipped s + 1).
  { destruct (prelude c s) as [p|e] eqn:Hp.
    - destruct (fst (update_gate c p s)
                && negb (String.eqb (tracker_state c) EmptyString)) eqn:Hgate.
      + apply andb_prop in Hgate as [Hg Hz]. left.
        apply (do_update_resets_skips c p s Hp Hg).
        apply String.eqb_neq. now destruct (String.eqb (tracker_state c) EmptyString).
      + rewrite (do_update_held_back c s p Hp Hgate). cbn [state_of].
        right. change (_updateskipped (set_updateskipped ?k ?x)) with k.
        destruct (update_gate_skipped c p s) as [->|[_ ->]]; auto.
    - right; left.
      destruct (do_update_raised c s e Hp) as [-> | ->]; cbn [state_of];
        [reflexivity | apply updateskipped_sync_name]. }
  split; [exact Hstep | lia].
Qed.

Lemma updateskipped_step_witness :
  let B := Sample.builtins 12500 (5 # 2) 0 in
  let c := Sample.cycle (Some 10%Q) "not_home" None in
  let s := Sample.entity "zone_name, place" 2 in
  0 <= _updateskipped (state_of (@do_update B c s)).
Proof.
  intros B c s.
  apply (proj2 (@updateskipped_step B c s)). vm_compute. discriminate.
Defined.

Section Bookkeeping.

Context `{Builtins}.

Lemma begin_update_position (c : Cycle) (p : Prelude) (s : Places) :
  let s' := begin_update c p s in
  get s' _latitude = of_opt (new_latitude c)
  /\ get s' _longitude = of_opt (new_longitude c)
  /\ get s' _latitude_old = of_opt (old_latitude p)
  /\ get s' _longitude_old = of_opt (old_longitude p)
  /\ get s' _location_current = of_opt (current_location c)
  /\ get s' _location_previous = of_opt (previous_location p)
  /\ get s' _devicetracker_zone = PStr (tracker_state c)
  /\ get s' _devicetracker_zone_name = PStr (devicetracker_zone_name c)
  /\ get s' _direction = PStr (direction c p).
Proof.
  cbv zeta. unfold begin_update. cbv zeta.
  repeat split; skip_writes; apply get_set_eq.
Qed.

Lemma begin_update_kept (c : Cycle) (p : Prelude) (s : Places) (f : field) :
  f ∈ [_place_category; _place_neighbourhood; _formatted_place;
       _last_place_name; _attr_native_value] ->
  get (begin_update c p s) f = get s f.
Proof.
  intros Hf. unfold begin_update. cbv zeta.
  assert (Hreset : forall now s0,
            get (_reset_attributes now s0) f = get s0 f).
  { intros now s0. rewrite reset_attributes_get.
    repeat (apply elem_of_cons in Hf as [->|Hf]; [reflexivity |]).
    now apply elem_of_nil in Hf. }
  assert (Hne : stage_assigns f = true).
  { repeat (apply elem_of_cons in Hf as [->|Hf]; [reflexivity |]).
    now apply elem_of_nil in Hf. }
  repeat first
    [ rewrite get_set_ne by (intros <-; discriminate Hne)
    | rewrite get_set_distance_km
    | rewrite get_set_distance_m
    | rewrite Hreset ].
  reflexivity.
Qed.

Lemma begin_update_cleared (c : Cycle) (p : Prelude) (s : Places) :
  Forall (fun f => get (begin_update c p s) f = PNone) reset_fields.
Proof.
  unfold begin_update, reset_fields. cbv zeta.
  repeat (apply List.Forall_cons;
          [skip_writes; rewrite reset_attributes_get; reflexivity |]).
  apply List.Forall_nil.
Qed.

Lemma geocode_stage_initial_update (c : Cycle) (p : Prelude) (r : Reply) (s : Places) :
  initial_update (state_of (geocode_stage c p r s))
  = if completes (geocode_stage c p r s) then false else initial_update s.
Proof.
  pose proof (initial_update_store_parsed c p) as Hstore.
  unfold geocode_stage, finish.
  destruct (parse_reply _ _ r) as [q|]; [| reflexivity].
  destruct (formatted_place _ _ _ _ q) as [fp|]; [| apply Hstore].
  destruct (build_new_state _ _ _ _ _ r q fp) as [ns|]; [| apply Hstore].
  destruct (state_changed _ ns _ _) as [[|]|];
    try (destruct (_extended_attr (config s)); first [reflexivity | apply Hstore]).
  assert (Hcommit : forall s1,
            initial_update (state_of (commit c q ns s1))
            = if completes (commit c q ns s1) then false else initial_update s1).
  { intros s1. unfold commit, finish. destruct (event_data _ q); reflexivity. }
  assert (Hext : forall s1,
            initial_update (state_of (extended_fetch c q s1)) = initial_update s1).
  { intros s1. unfold extended_fetch. repeat (case_match; simpl); reflexivity. }
  destruct (_extended_attr (config s)).
  - match goal with
    | |- context [extended_fetch c q ?s1] =>
        pose proof (Hext s1) as Hx;
        destruct (extended_fetch c q s1) as [s2|e s2]; simpl in Hx
    end.
    + rewrite Hcommit. destruct (completes (commit c q ns s2)); [reflexivity |].
      rewrite Hx. apply Hstore.
    + simpl. rewrite Hx. apply Hstore.
  - rewrite Hcommit.
    match goal with
    | |- context [completes ?o] => destruct (completes o); [reflexivity |]
    end.
    apply Hstore.
Qed.

End Bookkeeping.

(** X6: once a cycle passes the gate and the tracker reports a state, the
    entity holds the position of the cycle when [do_update] ends, however it
    ends and whatever the geocode request returns: the new and the old
    coordinates and location strings, the zone and its name, the direction,
    and both distances from home. *)
Theorem position_recorded `{Builtins} (c : Cycle) (s : Places) (p : Prelude) :
  prelude c s = Ok p ->
  fst (update_gate c p s) = true ->
  tracker_state c <> EmptyString ->
  let s' := state_of (do_update c s) in
  get s' _latitude = of_opt (new_latitude c)
  /\ get s' _longitude = of_opt (new_longitude c)
  /\ get s' _latitude_old = of_opt (old_latitude p)
  /\ get s' _longitude_old = of_opt (old_longitude p)
  /\ get s' _location_current = of_opt (current_location c)
  /\ get s' _location_previous = of_opt (previous_location p)
  /\ get s' _devicetracker_zone = PStr (tracker_state c)
  /\ get s' _devicetracker_zone_name = PStr (devicetracker_zone_name c)
  /\ get s' _direction = PStr (direction c p)
  /\ _distance_m s' = distance_m c p
  /\ _distance_km s' = round_km (distance_m c p).
Proof.
  intros Hp Hgate Hzone. cbv zeta.
  rewrite (do_update_passed c s p Hp Hgate Hzone).
  pose proof (begin_update_position c p (sync_name c s)) as Hpos. cbv zeta in Hpos.
  destruct (osm_decoded c) as [r|].
  - destruct (geocode_stage_distances c p r (begin_update c p (sync_name c s)))
      as [-> ->].
    rewrite !geocode_stage_frame by reflexivity.
    repeat split; try apply Hpos.
  - unfold finish. cbn [state_of]. rewrite !get_set_initial_update.
    repeat split; try apply Hpos.
Qed.

Lemma position_recorded_witness :
  let B := Sample.builtins 12500 250 (1 # 2) in
  let c := Sample.cycle (Some 10%Q) "not_home" None in
  let s' := state_of (@do_update B c (Sample.entity "zone_name, place" 0)) in
  get s' _latitude = PStr "51.7"
  /\ get s' _latitude_old = PStr "51.6"
  /\ get s' _direction = PStr "away from home"
  /\ _distance_m s' = 12500%Q.
Proof.
  intros B c.
  assert (Hp : exists p, @prelude B c (Sample.entity "zone_name, place" 0) = Ok p
                         /\ fst (@update_gate B c p (Sample.entity "zone_name, place" 0)) = true
                         /\ old_latitude p = Some "51.6"
                         /\ @direction B c p = "away from home"
                         /\ @distance_m B c p = 12500%Q).
  { let o := eval vm_compute in (@prelude B c (Sample.entity "zone_name, place" 0)) in
    lazymatch o with Ok ?x => exists x end.
    repeat split; vm_compute; reflexivity. }
  destruct Hp as (p & Hp & Hgate & Hold & Hdir & Hdist).
  destruct (@position_recorded B c _ p Hp Hgate) as
    (H1 & _ & H3 & _ & _ & _ & _ & _ & H9 & H10 & _); [discriminate |].
  cbv zeta. rewrite H1, H3, H9, H10, Hold, Hdir, Hdist. repeat split.
Defined.

(** X7: after a cycle that passes the gate and whose geocode request
    fails, every attribute of the reset list is [None] and
    [initial_update] is cleared, while the display state, the last place
    name and the category, neighbourhood and formatted place of the
    previous place stay as they were. *)
Theorem failed_fetch_state `{Builtins} (c : Cycle) (s : Places) (p : Prelude) :
  prelude c s = Ok p ->
  fst (update_gate c p s) = true ->
  tracker_state c <> EmptyString ->
  osm_decoded c = None ->
  let s' := state_of (do_update c s) in
  completes (do_update c s) = true
  /\ Forall (fun f => get s' f = PNone) reset_fields
  /\ Forall (fun f => get s' f = get s f)
       [_place_category; _place_neighbourhood; _formatted_place;
        _last_place_name; _attr_native_value]
  /\ initial_update s' = false.
Proof.
  intros Hp Hgate Hzone Hreply. cbv zeta.
  rewrite (do_update_passed c s p Hp Hgate Hzone), Hreply.
  unfold finish. cbn [state_of completes].
  split; [reflexivity |]. split; [| split; [| reflexivity]].
  - eapply Forall_impl; [apply (begin_update_cleared c p (sync_name c s)) |].
    intros f Hf. now rewrite get_set_initial_update.
  - apply Forall_forall. intros f Hf.
    rewrite get_set_initial_update, begin_update_kept by exact Hf.
    apply get_sync_name.
Qed.

Lemma failed_fetch_state_witness :
  let B := Sample.builtins 12500 250 (1 # 2) in
  let c := Sample.cycle (Some 10%Q) "not_home" None in
  let s := Sample.entity "zone_name, place" 0 in
  completes (@do_update B c s) = true
  /\ initial_update (state_of (@do_update B c s)) = false.
Proof.
  intros B c s.
  assert (Hp : exists p, @prelude B c s = Ok p /\ fst (@update_gate B c p s) = true).
  { let o := eval vm_compute in (@prelude B c s) in
    lazymatch o with Ok ?x => exists x end.
    split; vm_compute; reflexivity. }
  destruct Hp as (p & Hp & Hgate).
  destruct (@failed_fetch_state B c s p Hp Hgate) as (Hdone & _ & _ & Hinit);
    [discriminate | reflexivity |].
  split; [exact Hdone | exact Hinit].
Defined.

(** X8: [initial_update] is cleared by a call of [do_update] that passes
    the gate with a tracker state and returns; a call that is held back or
    raises an exception leaves the flag as it was. *)
Theorem initial_update_after `{Builtins} (c : Cycle) (s : Places) :
  let s' := state_of (do_update c s) in
  (completes (do_update c s) = false -> initial_update s' = initial_update s)
  /\ (forall p, prelude c s = Ok p ->
        initial_update s' =
        if fst (update_gate c p s)
           && negb (String.eqb (tracker_state c) EmptyString)
           && completes (do_update c s)
        then false else initial_update s).
Proof.
  cbv zeta.
  assert (Hall : forall p, prelude c s = Ok p ->
            initial_update (state_of (do_update c s)) =
            if fst (update_gate c p s)
               && negb (String.eqb (tracker_state c) EmptyString)
               && completes (do_update c s)
            then false else initial_update s).
  { intros p Hp.
    destruct (fst (update_gate c p s)
              && negb (String.eqb (tracker_state c) EmptyString)) eqn:Hgate.
    - apply andb_prop in Hgate as [Hg Hz].
      assert (Hzone : tracker_state c <> EmptyString)
        by (apply String.eqb_neq; now destruct (String.eqb (tracker_state c) EmptyString)).
      rewrite (do_update_passed c s p Hp Hg Hzone). cbn [andb].
      destruct (osm_decoded c) as [r|]; [| reflexivity].
      rewrite geocode_stage_initial_update.
      change (initial_update (begin_update c p ?x)) with (initial_update x).
      now rewrite initial_update_sync_name.
    - rewrite (do_update_held_back c s p Hp Hgate). cbn [state_of].
      change (initial_update (set_updateskipped ?k ?x)) with (initial_update x).
      apply initial_update_sync_name. }
  split; [| exact Hall].
  intros Hraise.
  destruct (prelude c s) as [p|e] eqn:Hp.
  - rewrite (Hall p eq_refl), Hraise. now rewrite andb_false_r.
  - destruct (do_update_raised c s e Hp) as [-> | ->]; cbn [state_of];
      [reflexivity | apply initial_update_sync_name].
Qed.

Lemma initial_update_after_witness :
  let B := Sample.builtins 12500 0 0 in
  let r := Sample.reply None None (Some "Unable to geocode") in
  let c := Sample.cycle (Some 10%Q) "not_home" (Some r) in
  let s := init (Sample.cfg "zone_name, place" None) "2023-01-01 09:00:00" in
  completes (@do_update B c s) = false
  /\ initial_update (state_of (@do_update B c s)) = true.
Proof.
  intros B r c s.
  assert (Hraise : completes (@do_update B c s) = false) by (vm_compute; reflexivity).
  split; [exact Hraise |].
  exact (proj1 (@initial_update_after B c s) Hraise).
Defined.

(** ** The parser *)

Lemma first_present_first_hit (before after : list string) (k v : string)
    (d : gmap string string) :
  Forall (fun k' => d !! k' = None) before ->
  d !! k = Some v ->
  first_present (before ++ k :: after) d = Some v.
Proof.
  intros Hbefore Hhit. induction Hbefore as [|k' before Hk _ IH]; simpl.
  - now rewrite Hhit.
  - now rewrite Hk.
Qed.

(** X9: the city is taken from the first of the keys city, town, village,
    township, municipality, city_district that the address has, whatever
    the later keys hold; a value that does not start with "City of" is
    taken as it is. *)
Theorem city_priority (address : gmap string string)
    (before after : list string) (k v : string) :
  city_keys = before ++ k :: after ->
  Forall (fun k' => address !! k' = None) before ->
  address !! k = Some v ->
  PyStr.startswith "City of" v = false ->
  parse_city address = Some v.
Proof.
  intros Hkeys Hbefore Hk Hprefix. unfold parse_city.
  change ["city"; "town"; "village"; "township"; "municipality"; "city_district"]
    with city_keys.
  rewrite Hkeys, (first_present_first_hit before after k v address Hbefore Hk).
  now rewrite Hprefix.
Qed.

Lemma city_priority_witness :
  parse_city (<["village" := "Ambridge"]> (<["municipality" := "Borsetshire"]> ∅))
  = Some "Ambridge".
Proof.
  apply (city_priority _ ["city"; "town"] ["township"; "municipality"; "city_district"]
           "village" "Ambridge");
    [reflexivity | repeat constructor | reflexivity | reflexivity].
Defined.

(** X10: a city that starts with "City of" loses its first 8 characters
    and gets " City" appended: "City of Springfield" becomes
    "Springfield City", and the eighth character is dropped whatever it
    is. *)
Theorem city_of_rewrite (address : gmap string string) (ch : ascii) (rest : string) :
  first_present city_keys address = Some ("City of" +:+ String ch rest) ->
  parse_city address = Some (rest +:+ " City").
Proof.
  intros Hcity. unfold parse_city.
  change ["city"; "town"; "village"; "township"; "municipality"; "city_district"]
    with city_keys.
  rewrite Hcity. reflexivity.
Qed.

Lemma city_of_rewrite_witness :
  parse_city (<["city" := "City of Springfield"]> ∅) = Some "Springfield City".
Proof.
  apply (city_of_rewrite _ " "%char "Springfield"). reflexivity.
Defined.

Lemma split_without_separator (sep : ascii) (s : string) :
  has_char sep s = false -> PyStr.split sep s = [s].
Proof.
  induction s as [|c s IH]; simpl; [reflexivity |].
  intros Hs. apply orb_false_elim in Hs as [Hc Hs].
  rewrite Hc, (IH Hs). reflexivity.
Qed.

Lemma split_at_separator (sep : ascii) (a b : string) :
  has_char sep a = false ->
  PyStr.split sep (a +:+ String sep b) = a :: PyStr.split sep b.
Proof.
  induction a as [|c a IH]; simpl.
  - intros _. now rewrite Ascii.eqb_refl.
  - intros Ha. apply orb_false_elim in Ha as [Hc Ha].
    rewrite Hc, (IH Ha). reflexivity.
Qed.

(** X11: the state abbreviation is the upper-cased second segment of the
    ISO3166-2-lvl4 code; a code without a dash makes the parser raise
    [IndexError]. *)
Theorem state_abbr_segments (address : gmap string string) :
  (forall country abbr,
      address !! "ISO3166-2-lvl4" = Some (country +:+ String "-" abbr) ->
      has_char "-" country = false ->
      has_char "-" abbr = false ->
      parse_state_abbr address = Ok (Some (PyStr.upper abbr)))
  /\ (forall code,
        address !! "ISO3166-2-lvl4" = Some code ->
        has_char "-" code = false ->
        parse_state_abbr address = Raise IndexError).
Proof.
  split.
  - intros country abbr Hcode Hc Ha. unfold parse_state_abbr. rewrite Hcode.
    rewrite (split_at_separator "-" country abbr Hc).
    now rewrite (split_without_separator "-" abbr Ha).
  - intros code Hcode Hc. unfold parse_state_abbr. rewrite Hcode.
    now rewrite (split_without_separator "-" code Hc).
Qed.

Lemma state_abbr_segments_witness :
  parse_state_abbr (<["ISO3166-2-lvl4" := "US-il"]> ∅) = Ok (Some "IL")
  /\ parse_state_abbr (<["ISO3166-2-lvl4" := "Illinois"]> ∅) = Raise IndexError.
Proof.
  split.
  - apply (proj1 (state_abbr_segments _) "US" "il"); reflexivity.
  - apply (proj2 (state_abbr_segments _) "Illinois"); reflexivity.
Defined.

Lemma language_name_first_hit_witness :
  language_name (PyStr.split "," "de,fr,en")
    (<["name:fr" := "Parc Central"]> (<["name:en" := "Central Park"]> ∅))
  = Some "Parc Central".
Proof.
  apply (language_name_first_hit ["de"] ["en"] "fr" "Parc Central");
    [repeat constructor | reflexivity].
Defined.

(** ** The formatter *)

(** X13: building the formatted place raises an exception exactly when
    the tracker is in no zone, the reply gave no place name and no
    category, and the place type is there and is not "unclassified"; the
    exception is [AttributeError]. *)
Theorem formatted_place_raises_iff (options : list string)
    (zone zone_name direction : string) (q : Parsed) (e : exn) :
  formatted_place options zone zone_name direction q = Raise e
  <-> e = AttributeError
      /\ in_zone_str zone = false
      /\ place_name q = None
      /\ place_category q = None
      /\ exists pt, place_type q = Some pt
                    /\ String.eqb (PyStr.lower pt) "unclassified" = false.
Proof.
  unfold formatted_place, formatted_place_array, type_label.
  destruct (in_zone_str zone); cbn [negb bind].
  { split; [discriminate | intros (_ & Hz & _); discriminate Hz]. }
  destruct (place_name q) as [pn|]; cbn [bind].
  { split; [discriminate | intros (_ & _ & Hn & _); discriminate Hn]. }
  destruct (place_type q) as [pt|]; cbn [bind].
  - destruct (String.eqb (PyStr.lower pt) "unclassified") eqn:Hu; cbn [bind].
    + split; [discriminate |].
      intros (_ & _ & _ & _ & pt' & [= <-] & Hpt). congruence.
    + destruct (place_category q) as [pc|]; cbn [bind].
      * destruct (negb (String.eqb (PyStr.lower pc) "highway")); cbn [bind];
          (split; [discriminate | intros (_ & _ & _ & Hc & _); discriminate Hc]).
      * split.
        -- intros [= <-]. repeat split. eauto.
        -- intros (-> & _). reflexivity.
  - split; [discriminate |].
    intros (_ & _ & _ & _ & pt' & Hpt & _). discriminate Hpt.
Qed.

Lemma mem_elem_of (x : string) (items : list string) :
  PyStr.mem x items = bool_decide (x ∈ items).
Proof.
  unfold PyStr.mem. induction items as [|y items IH]; cbn [existsb].
  - symmetry. apply bool_decide_eq_false_2. apply not_elem_of_nil.
  - rewrite IH. destruct (String.eqb_spec x y) as [->|Hne]; cbn [orb].
    + symmetry. apply bool_decide_eq_true_2. apply elem_of_cons. now left.
    + apply bool_decide_ext. rewrite elem_of_cons. intuition congruence.
Qed.

Lemma mem_permutation (x : string) (a b : list string) :
  a ≡ₚ b -> PyStr.mem x a = PyStr.mem x b.
Proof.
  intros Hp. rewrite !mem_elem_of. apply bool_decide_ext. now rewrite Hp.
Qed.

(** X14: without the option do_not_reorder, the display state does not
    depend on the order of the tokens of the options string: two
    configurations whose token lists are permutations of each other give
    the same state. *)
Theorem display_order_independent (cfg cfg' : Config) (names : list string)
    (zone zone_name direction : string) (r : Reply) (q : Parsed) (fp : string) :
  display_options cfg ≡ₚ display_options cfg' ->
  PyStr.mem "do_not_reorder" (display_options cfg) = false ->
  build_new_state cfg names zone zone_name direction r q fp
  = build_new_state cfg' names zone zone_name direction r q fp.
Proof.
  intros Hperm Hno.
  assert (Hmem : forall o, PyStr.mem o (display_options cfg)
                           = PyStr.mem o (display_options cfg'))
    by (intros o; now apply mem_permutation).
  unfold build_new_state, user_display, isDriving. cbv zeta beta.
  rewrite <- !Hmem, Hno. reflexivity.
Qed.

Lemma display_order_independent_witness :
  let q := {| place_type := None; place_name := Some "Central Park";
              place_category := None; place_neighbourhood := None;
              street_number := None; street := None;
              city := Some "Springfield"; postal_town := None; region := None;
              state_abbr := None; county := None; country := None;
              postal_code := None; formatted_address := None;
              osm_id := None; osm_type := None; new_state_place := None |} in
  let r := Sample.reply (Some ∅) (Some ∅) None in
  build_new_state (Sample.cfg "city, place_name" None) [] "not_home" "Not_Home"
    "stationary" r q "x"
  = build_new_state (Sample.cfg "place_name, city" None) [] "not_home" "Not_Home"
      "stationary" r q "x".
Proof.
  intros q r.
  apply (display_order_independent (Sample.cfg "city, place_name" None)
           (Sample.cfg "place_name, city" None));
    [| reflexivity].
  change (display_options (Sample.cfg "city, place_name" None))
    with ["city"; "place_name"].
  change (display_options (Sample.cfg "place_name, city" None))
    with ["place_name"; "city"].
  apply Permutation_swap.
Defined.

Lemma reorder_placeholders (names : list string) (target : option string)
    (options : list string) :
  placeholder target = true ->
  forallb placeholder (reorder names target options) = true.
Proof.
  revert target. induction options as [|o options IH]; intros target Ht; simpl;
    [reflexivity |].
  set (t1 := if String.eqb o "state" then Some "region" else target).
  set (t2 := if String.eqb o "place_neighborhood" then Some "place_neighbourhood" else t1).
  assert (H2 : placeholder t2 = true).
  { subst t2 t1. destruct (String.eqb o "place_neighborhood"); [reflexivity |].
    destruct (String.eqb o "state"); [reflexivity | exact Ht]. }
  destruct (PyStr.mem o names); simpl; [rewrite H2 |]; now apply IH.
Qed.

Lemma all_strings_placeholders (items : list (option string)) (texts : list string) :
  forallb placeholder items = true ->
  all_strings items = Ok texts ->
  forallb (fun t => String.eqb t "region" || String.eqb t "place_neighbourhood") texts
  = true.
Proof.
  revert texts. induction items as [|[t|] items IH]; intros texts Hall; simpl.
  - intros [= <-]. reflexivity.
  - simpl in Hall. apply andb_prop in Hall as [Ht Hall].
    destruct (all_strings items) as [rest|]; [| discriminate].
    intros [= <-]. simpl. rewrite Ht. now apply IH.
  - discriminate.
Qed.

(** X15: with the option do_not_reorder, outside of a zone and without
    error message or formatted_place option, the values the display
    options name are never shown: joining the list raises [TypeError], or
    the list is empty and the state stays what the place block left, or the
    state is made of the literal words "region" and "place_neighbourhood"
    only. *)
Theorem do_not_reorder_shows_no_value (cfg : Config) (names : list string)
    (zone zone_name direction : string) (r : Reply) (q : Parsed) (fp : string) :
  PyStr.mem "do_not_reorder" (display_options cfg) = true ->
  PyStr.mem "formatted_place" (display_options cfg) = false ->
  r_error_message r = None ->
  in_zone_str zone = false ->
  let new_state := build_new_state cfg names zone zone_name direction r q fp in
  new_state = Raise TypeError
  \/ new_state = Ok (new_state_place q)
  \/ exists words,
       new_state = Ok (Some (PyStr.join ", " words))
       /\ forallb (fun t => String.eqb t "region" || String.eqb t "place_neighbourhood")
            words = true.
Proof.
  intros Hre Hfp Herr Hzone. cbv zeta.
  unfold build_new_state. cbv zeta. rewrite Herr, Hfp, Hzone, Hre. cbn [negb].
  pose proof (reorder_placeholders names None
                (remove_first "do_not_reorder" (display_options cfg)) eq_refl) as Hall.
  destruct (all_strings _) as [words|e] eqn:Hwords; cbn [bind].
  - pose proof (all_strings_placeholders _ _ Hall Hwords) as Hw.
    destruct words as [|w words]; [right; left; reflexivity |].
    right; right. eexists. split; [reflexivity | exact Hw].
  - left. f_equal.
    clear -Hwords. revert Hwords.
    generalize (reorder names None (remove_first "do_not_reorder" (display_options cfg))).
    intros items. induction items as [|[t|] items IH]; simpl; try discriminate.
    + destruct (all_strings items); [discriminate |]. intros [= <-]. now apply IH.
    + now intros [= <-].
Qed.

Lemma do_not_reorder_shows_no_value_witness :
  let q := {| place_type := None; place_name := None;
              place_category := None; place_neighbourhood := None;
              street_number := None; street := None;
              city := Some "Springfield"; postal_town := None; region := None;
              state_abbr := None; county := None; country := None;
              postal_code := None; formatted_address := None;
              osm_id := None; osm_type := None; new_state_place := None |} in
  let r := Sample.reply (Some ∅) (Some ∅) None in
  build_new_state (Sample.cfg "do_not_reorder, city" None) (locals true false)
    "not_home" "Not_Home" "stationary" r q "x" = Raise TypeError.
Proof.
  intros q r.
  destruct (do_not_reorder_shows_no_value (Sample.cfg "do_not_reorder, city" None)
              (locals true false) "not_home" "Not_Home" "stationary" r q "x"
              eq_refl eq_refl eq_refl eq_refl) as [Hr|[Hk|(words & Hw & _)]].
  - exact Hr.
  - vm_compute in Hk. discriminate Hk.
  - exfalso. revert Hw. vm_compute. discriminate.
Defined.

(** ** The time suffix and the change test *)

Lemma take_app_length (a b : string) : PyStr.take (String.length a) (a +:+ b) = a.
Proof. induction a as [|c a IH]; simpl; [now destruct b | now rewrite IH]. Qed.

Lemma take_all (n : nat) (s : string) : (String.length s <= n)%nat -> PyStr.take n s = s.
Proof.
  revert n. induction s as [|c s IH]; intros [|n] Hn; simpl in *; try reflexivity; try lia.
  rewrite IH by lia. reflexivity.
Qed.

(** X16: with [show_time] on, cutting the last 14 characters off a
    committed display value, as the next cycle does, gives back the new
    state it was built from, cut to 241 characters: the state itself when
    it has at most 241 characters. *)
Theorem time_suffix_roundtrip (c : Cycle) (new_state : string) :
  (now_hour c < 24)%nat ->
  (now_minute c < 60)%nat ->
  slice_off_time (commit_state true (current_time c) (Some new_state))
  = Ok (PStr (PyStr.take 241 new_state))
  /\ ((String.length new_state <= 241)%nat ->
      slice_off_time (commit_state true (current_time c) (Some new_state))
      = Ok (PStr new_state)).
Proof.
  intros Hh Hm.
  assert (Hcut : slice_off_time (commit_state true (current_time c) (Some new_state))
                 = Ok (PStr (PyStr.take 241 new_state))).
  { unfold commit_state, slice_off_time, PyStr.drop_last.
    change (255 - 14)%nat with 241%nat.
    rewrite length_app, (length_time_suffix c Hh Hm).
    replace (String.length (PyStr.take 241 new_state) + 14 - 14)%nat
      with (String.length (PyStr.take 241 new_state)) by lia.
    now rewrite take_app_length. }
  split; [exact Hcut |].
  intros Hlen. rewrite Hcut. now rewrite take_all.
Qed.

Lemma time_suffix_roundtrip_witness :
  slice_off_time
    (commit_state true (current_time (Sample.cycle None "home" None))
       (Some "Central Park, Springfield"))
  = Ok (PStr "Central Park, Springfield").
Proof.
  apply (proj2 (time_suffix_roundtrip (Sample.cycle None "home" None)
                  "Central Park, Springfield" ltac:(vm_compute; lia) ltac:(vm_compute; lia))).
  vm_compute. lia.
Defined.

Section Sticky.

Context `{Builtins}.

Lemma geocode_stage_native_changed (c : Cycle) (p : Prelude) (r : Reply) (s : Places) :
  get (state_of (geocode_stage c p r s)) _attr_native_value = get s _attr_native_value
  \/ exists ns,
       state_changed (previous_state p) ns (tracker_state c) (initial_update s) = Ok true
       /\ get (state_of (geocode_stage c p r s)) _attr_native_value
          = commit_state (_show_time (config s)) (current_time c) ns.
Proof.
  unfold geocode_stage, finish. cbv zeta.
  destruct (parse_reply _ _ r) as [q|]; [| now left].
  destruct (formatted_place _ _ _ _ q) as [fp|]; cbn [state_of];
    [| left; apply store_parsed_native].
  destruct (build_new_state _ _ _ _ _ r q fp) as [ns|]; cbn [state_of];
    [| left; skip_writes; apply store_parsed_native].
  set (s3 := if _extended_attr (config s)
             then set _osm_dict (r_raw r)
                    (set _formatted_place (PStr fp) (store_parsed c p q s))
             else set _formatted_place (PStr fp) (store_parsed c p q s)).
  assert (Hk : get s3 _attr_native_value = get s _attr_native_value).
  { subst s3. destruct (_extended_attr (config s)); skip_writes;
      apply store_parsed_native. }
  assert (Hc : config s3 = config s).
  { subst s3. destruct (_extended_attr (config s)); apply config_store_parsed. }
  assert (Hi : initial_update s3 = initial_update s).
  { subst s3. destruct (_extended_attr (config s)); apply initial_update_store_parsed. }
  rewrite Hi.
  destruct (state_changed _ ns _ _) as [[|]|] eqn:Hch; cbn [state_of].
  - destruct (_extended_attr (config s)).
    + destruct (extended_fetch_native c q s3) as [Hn Hg].
      destruct (extended_fetch c q s3) as [s4|e s4]; cbn [state_of] in *.
      * right. exists ns. split; [exact Hch |].
        rewrite commit_native, Hg, Hc. reflexivity.
      * left. rewrite Hn. exact Hk.
    + right. exists ns. split; [exact Hch |].
      rewrite commit_native, Hc. reflexivity.
  - left. skip_writes. exact Hk.
  - left. exact Hk.
Qed.

End Sticky.

(** X17: after the initial update, a display state that equals the raw
    state of the tracker (case and surrounding blanks apart) is never
    replaced by another text: whatever the reply holds, [do_update] leaves
    it as it is or sets it to [None]. *)
Theorem zone_display_is_sticky `{Builtins} (c : Cycle) (s : Places) (p : Prelude)
    (shown : string) :
  prelude c s = Ok p ->
  initial_update s = false ->
  previous_state p = PStr shown ->
  PyStr.strip (PyStr.lower shown) = PyStr.strip (PyStr.lower (tracker_state c)) ->
  let stored := get (state_of (do_update c s)) _attr_native_value in
  stored = get s _attr_native_value \/ stored = PNone.
Proof.
  intros Hp Hinit Hprev Hsame. cbv zeta.
  destruct (fst (update_gate c p s)
            && negb (String.eqb (tracker_state c) EmptyString)) eqn:Hgate.
  - apply andb_prop in Hgate as [Hg Hz].
    assert (Hzone : tracker_state c <> EmptyString)
      by (apply String.eqb_neq; now destruct (String.eqb (tracker_state c) EmptyString)).
    rewrite (do_update_passed c s p Hp Hg Hzone).
    destruct (osm_decoded c) as [r|].
    + destruct (geocode_stage_native_changed c p r (begin_update c p (sync_name c s)))
        as [Hn|(ns & Hch & Hn)]; rewrite Hn.
      * left. rewrite begin_update_native. apply get_sync_name.
      * change (initial_update (begin_update c p ?x)) with (initial_update x) in Hch.
        rewrite initial_update_sync_name, Hprev, Hinit in Hch.
        destruct ns as [ns|]; [| now right].
        exfalso. unfold state_changed in Hch. rewrite Hsame in Hch.
        rewrite String.eqb_refl in Hch. cbn [negb andb orb] in Hch.
        rewrite andb_false_r in Hch. discriminate Hch.
    + left. unfold finish. cbn [state_of]. rewrite get_set_initial_update.
      rewrite begin_update_native. apply get_sync_name.
  - left. rewrite (do_update_held_back c s p Hp Hgate). cbn [state_of].
    skip_writes. apply get_sync_name.
Qed.

Lemma zone_display_is_sticky_witness :
  let B := Sample.builtins 12500 250 (1 # 2) in
  let nd : gmap string string := <["name" := "Central Park"]> ∅ in
  let c := Sample.cycle (Some 10%Q) "not_home"
             (Some (Sample.reply (Some ∅) (Some nd) None)) in
  let s := set _attr_native_value (PStr "Not_Home") (Sample.entity "place_name" 0) in
  let stored := get (state_of (@do_update B c s)) _attr_native_value in
  stored = get s _attr_native_value \/ stored = PNone.
Proof.
  intros B nd c s.
  assert (Hp : exists p, @prelude B c s = Ok p /\ previous_state p = PStr "Not_Home").
  { let o := eval vm_compute in (@prelude B c s) in
    lazymatch o with Ok ?x => exists x end.
    split; vm_compute; reflexivity. }
  destruct Hp as (p & Hp & Hprev).
  apply (@zone_display_is_sticky B c s p "Not_Home" Hp eq_refl Hprev).
  vm_compute. reflexivity.
Defined.

Example zone_display_is_sticky_ex :
  let B := Sample.builtins 12500 250 (1 # 2) in
  let nd : gmap string string := <["name" := "Central Park"]> ∅ in
  let c := Sample.cycle (Some 10%Q) "not_home"
             (Some (Sample.reply (Some ∅) (Some nd) None)) in
  let s := set _attr_native_value (PStr "Not_Home") (Sample.entity "place_name" 0) in
  get (state_of (@do_update B c s)) _attr_native_value = PStr "Not_Home"
  /\ get (state_of (@do_update B c s)) _place_name = PStr "Central Park".
Proof. split; vm_compute; reflexivity. Qed.

(** ** The types of the stored values *)

Section Typed.

Context `{Builtins}.







End Typed.







(** ** Reading the snapshot *)

Section ImportAttributes.

Context `{Builtins} (key : attr_key -> string).

Lemma load_float_outcome (d : gmap string pyval) (k : attr_key)
    (store : Q -> Places -> Places) (s : Places) :
  (distance_loadable (d !! key k) = true
   /\ exists q, load_float key d k store s
                = Ok (match d !! key k with Some _ => store q s | None => s end))
  \/ (distance_loadable (d !! key k) = false
      /\ exists e, load_float key d k store s = Raise e).
Proof.
  unfold load_float, distance_loadable, float_accepts.
  destruct (d !! key k) as [v|]; [| left; split; [reflexivity | exists 0%Q; reflexivity]].
  destruct (py_float v) as [q|e]; cbn [bind]; [left | right]; split; eauto.
Qed.

Lemma load_float_fields (d : gmap string pyval) (k : attr_key) (s s' : Places) :
  (load_float key d k set_distance_km s = Ok s'
   \/ load_float key d k set_distance_m s = Ok s') ->
  initial_update s' = initial_update s /\ forall f, get s' f = get s f.
Proof.
  unfold load_float.
  destruct (d !! key k) as [v|]; [destruct (py_float v) as [q|e] |]; cbn [bind];
    intros [Hs|Hs]; try discriminate Hs; injection Hs as <-; split; reflexivity.
Qed.

End ImportAttributes.

(** X20: [import_attributes] raises an exception exactly when the
    dictionary is not empty and holds, under the key of one of the two
    distances, a value [float] rejects ([None] for one); otherwise it
    returns, with [initial_update] cleared when the dictionary is not
    empty, and with the entity unchanged when it is. *)
Theorem import_attributes_raises `{Builtins} (key : attr_key -> string)
    (d : gmap string pyval) (s : Places) :
  let loadable :=
    distance_loadable (d !! key ATTR_DISTANCE_KM)
    && distance_loadable (d !! key ATTR_DISTANCE_M) in
  match import_attributes key d s with
  | Ok s' =>
      (d = ∅ /\ s' = s) \/ (d <> ∅ /\ loadable = true /\ initial_update s' = false)
  | Raise _ => d <> ∅ /\ loadable = false
  end.
Proof.
  cbv zeta. unfold import_attributes.
  destruct (decide (d = ∅)) as [He|Hne]; [left; split; [exact He | reflexivity] |].
  cbv zeta.
  match goal with
  | |- context [load_float key d ATTR_DISTANCE_KM set_distance_km ?s0] =>
      set (s1 := s0);
      assert (Hinit : initial_update s1 = false)
        by (subst s1; repeat rewrite (proj1 (load_untyped key _ _ _ _)); reflexivity)
  end.
  destruct (load_float_outcome key d ATTR_DISTANCE_KM set_distance_km s1)
    as [[Hkm [q1 Hl1]]|[Hkm [e Hl1]]]; rewrite Hl1, Hkm; cbn [bind andb];
    [| split; [exact Hne | reflexivity]].
  match goal with
  | |- context [load_float key d ATTR_DISTANCE_M set_distance_m ?s0] =>
      set (s2 := s0);
      assert (Hinit2 : initial_update s2 = false)
        by (subst s2; destruct (d !! key ATTR_DISTANCE_KM); exact Hinit)
  end.
  destruct (load_float_outcome key d ATTR_DISTANCE_M set_distance_m s2)
    as [[Hm [q2 Hl2]]|[Hm [e Hl2]]]; rewrite Hl2, Hm; cbn [bind];
    [| split; [exact Hne | reflexivity]].
  right. split; [exact Hne |]. split; [reflexivity |].
  repeat rewrite (proj1 (load_untyped key _ _ _ _)).
  destruct (d !! key ATTR_DISTANCE_M); exact Hinit2.
Qed.

(** X21: when [import_attributes] returns on a dictionary that is not
    empty, every attribute whose key the dictionary has takes the value
    stored under that key, [None] for a JSON null, and every other
    attribute keeps the value [__init__] gave it. *)
Theorem import_attributes_fields `{Builtins} (key : attr_key -> string)
    (d : gmap string pyval) (s s' : Places) :
  d <> ∅ ->
  import_attributes key d s = Ok s' ->
  forall f, get s' f = default (get s f) (d !! key (key_of f)).
Proof.
  intros Hne Himp f. unfold import_attributes in Himp.
  rewrite decide_False in Himp by exact Hne. cbv zeta in Himp.
  match type of Himp with
  | context [load_float key d ATTR_DISTANCE_KM set_distance_km ?s0] =>
      set (s1 := s0) in Himp
  end.
  destruct (load_float key d ATTR_DISTANCE_KM set_distance_km s1) as [s2|e] eqn:Hkm;
    cbn [bind] in Himp; [| discriminate Himp].
  destruct (load_float key d ATTR_DISTANCE_M set_distance_m s2) as [s3|e] eqn:Hm;
    cbn [bind] in Himp; [| discriminate Himp].
  injection Himp as <-.
  pose proof (proj2 (load_float_fields key d _ s1 s2 (or_introl Hkm))) as H12.
  pose proof (proj2 (load_float_fields key d _ s2 s3 (or_intror Hm))) as H23.
  assert (Hs1 : get s3 f = get s1 f) by (rewrite H23; apply H12).
  subst s1.
  destruct f; cbn [key_of];
    repeat first
      [ rewrite (get_load_ne key) by discriminate
      | rewrite (get_load_eq key)
      | rewrite Hs1
      | rewrite get_set_initial_update ];
    reflexivity.
Qed.

Lemma import_attributes_fields_witness :
  let d : gmap string pyval :=
    <[Sample.key ATTR_CITY := PStr "Springfield"]>
      (<[Sample.key ATTR_DIRECTION_OF_TRAVEL := PNone]> ∅) in
  let s := init (Sample.cfg "zone_name, place" None) "2023-01-01" in
  match @import_attributes (Sample.builtins 0 0 0) Sample.key d s with
  | Ok s' =>
      get s' _city = PStr "Springfield"
      /\ get s' _direction = PNone
      /\ get s' _mtime = PStr "2023-01-01"
  | Raise _ => False
  end.
Proof.
  intros d s.
  destruct (@import_attributes (Sample.builtins 0 0 0) Sample.key d s) as [s'|e] eqn:Himp.
  - pose proof (@import_attributes_fields (Sample.builtins 0 0 0) Sample.key d s s'
                  ltac:(apply insert_non_empty) Himp) as Hf.
    split; [| split].
    + rewrite (Hf _city). vm_compute. reflexivity.
    + rewrite (Hf _direction). vm_compute. reflexivity.
    + rewrite (Hf _mtime). vm_compute. reflexivity.
  - vm_compute in Himp. discriminate Himp.
Defined.

(** ** The attribute dictionary *)

Lemma lookup_put_Some (k' k : string) (v' v : pyval) (d : gmap string pyval) :
  put k' v' d !! k = Some v -> (k = k' /\ v = v' /\ v <> PNone) \/ d !! k = Some v.
Proof.
  destruct (decide (k' = k)) as [->|Hne].
  - rewrite lookup_put_eq. destruct v'; cbn [is_none]; auto;
      intros [= <-]; left; repeat split; discriminate.
  - rewrite lookup_put_ne by exact Hne. auto.
Qed.

(** X22: the attribute dictionary holds exactly the attributes that are
    not [None]: an entry is stored under a key if and only if it is the
    value of that key's attribute and is not [None].  No entry is ever
    [None], and no key other than the 41 attribute keys is written. *)
Theorem extra_state_attributes_entries (key : attr_key -> string)
    (s : Places) (k : string) (v : pyval) :
  (forall a b, key a = key b -> a = b) ->
  extra_state_attributes key s !! k = Some v
  <-> v <> PNone /\ exists a, k = key a /\ exported s a = v.
Proof.
  intros key_inj. split.
  - unfold extra_state_attributes. cbv zeta. intros Hk.
    repeat match type of Hk with
           | put (key ?a) _ _ !! _ = Some _ =>
               apply lookup_put_Some in Hk as [(-> & -> & Hv)|Hk];
               [split; [exact Hv | exists a; split; reflexivity] |]
           end.
    rewrite lookup_empty in Hk. discriminate Hk.
  - intros (Hv & a & -> & <-).
    rewrite (extra_state_attributes_lookup key key_inj s a).
    destruct (exported s a); try reflexivity. contradiction.
Qed.

Lemma extra_state_attributes_entries_witness :
  let s := Sample.entity "zone_name, place" 2 in
  extra_state_attributes Sample.key s !! Sample.key ATTR_LATITUDE = Some (PStr "51.6").
Proof.
  intros s.
  apply (proj2 (extra_state_attributes_entries Sample.key s
                  (Sample.key ATTR_LATITUDE) (PStr "51.6") sample_key_inj)).
  split; [discriminate |]. exists ATTR_LATITUDE. split; vm_compute; reflexivity.
Defined.

Lemma snapshot_roundtrip_witness :
  let B := Sample.builtins 0 0 0 in
  let s := Sample.entity "zone_name, place" 2 in
  let cfg := Sample.cfg "zone_name, place" None in
  exists s',
    @reload B Sample.key (Some (sensor_attributes Sample.key s)) cfg "2023-01-01" = Ok s'
    /\ initial_update s' = false
    /\ (forall f, get s f <> PNone -> get s' f = get s f)
    /\ _distance_km s' = _distance_km s
    /\ _distance_m s' = _distance_m s.
Proof.
  intros B s cfg.
  apply (@snapshot_roundtrip B Sample.key sample_key_inj s
           (sensor_attributes Sample.key s) cfg "2023-01-01").
  unfold save_snapshot, json_dump.
  destruct (decide _) as [_|Hn]; [reflexivity |].
  exfalso. apply Hn. apply map_Forall_to_list.
  let l := eval vm_compute in (map_to_list (sensor_attributes Sample.key s)) in
  change (map_to_list (sensor_attributes Sample.key s)) with l.
  repeat constructor.
Defined.

(** ** The range of [haversine] *)

Lemma sin_half_sqr (x : R) : (sin (x / 2) ^ 2 = (1 - cos x) / 2)%R.
Proof.
  replace (cos x) with (cos (2 * (x / 2)))%R by (f_equal; lra).
  rewrite cos_2a_sin. lra.
Qed.

Lemma sin_cos_sqr (x : R) : (sin x * sin x + cos x * cos x = 1)%R.
Proof. pose proof (sin2_cos2 x) as Hx. unfold Rsqr in Hx. exact Hx. Qed.

Lemma haversine_argument_bounds (p1 p2 l : R) :
  (0 <= sin ((p2 - p1) / 2) ^ 2 + cos p1 * cos p2 * sin (l / 2) ^ 2 <= 1)%R.
Proof.
  rewrite (sin_half_sqr (p2 - p1)), (sin_half_sqr l), cos_minus.
  pose proof (sin_cos_sqr p1) as H1. pose proof (sin_cos_sqr p2) as H2.
  pose proof (COS_bound l) as [Hl Hu].
  set (s1 := sin p1) in *. set (c1 := cos p1) in *.
  set (s2 := sin p2) in *. set (c2 := cos p2) in *.
  set (u := cos l) in *.
  assert (Hu2 : (u * u <= 1)%R) by (assert (0 <= (1 - u) * (1 + u))%R by (apply Rmult_le_pos; lra); lra).
  assert (Hc2 : (0 <= c2 * c2)%R) by apply Rle_0_sqr.
  assert (Hlow : (0 <= (s1 - s2) * (s1 - s2) + (c1 - u * c2) * (c1 - u * c2))%R)
    by (apply Rplus_le_le_0_compat; apply Rle_0_sqr).
  assert (Hupp : (0 <= (s1 + s2) * (s1 + s2) + (c1 + u * c2) * (c1 + u * c2))%R)
    by (apply Rplus_le_le_0_compat; apply Rle_0_sqr).
  assert (Huc : (u * u * (c2 * c2) <= c2 * c2)%R)
    by (rewrite <- (Rmult_1_l (c2 * c2)) at 2; apply Rmult_le_compat_r; assumption).
  split; lra.
Qed.

Lemma asin_nonneg (x : R) : (0 <= x <= 1)%R -> (0 <= asin x)%R.
Proof.
  intros [H0 H1]. destruct (Rle_or_lt 0 (asin x)) as [Hge|Hlt]; [exact Hge |].
  exfalso. pose proof (asin_bound x) as [Hlow _]. pose proof PI_RGT_0 as Hpi.
  assert (Hs : (sin (asin x) < 0)%R) by (apply sin_lt_0_var; lra).
  rewrite sin_asin in Hs by lra. lra.
Qed.

Lemma asin_abs_sin (x : R) :
  (- (PI / 2) <= x <= PI / 2)%R -> asin (Rabs (sin x)) = Rabs x.
Proof.
  intros [Hl Hu]. pose proof PI_RGT_0 as Hpi.
  destruct (Rle_or_lt 0 x) as [Hx|Hx].
  - rewrite (Rabs_pos_eq x) by exact Hx.
    rewrite Rabs_pos_eq by (apply sin_ge_0; lra).
    apply asin_sin. lra.
  - rewrite (Rabs_left x) by exact Hx.
    assert (Hs : (sin x <= 0)%R) by (apply Rlt_le, sin_lt_0_var; lra).
    rewrite <- Rabs_Ropp, Rabs_pos_eq by lra.
    rewrite <- sin_neg. apply asin_sin. lra.
Qed.

(** X25: [haversine] never leaves the domain of [sqrt] and [asin], and
    its result lies between 0 and half the circumference of the sphere: for
    all arguments the number under the root is between 0 and 1, and the
    distance is between 0 and 6371 times pi kilometers. *)
Theorem haversine_bounds (lon1 lat1 lon2 lat2 : R) :
  let a := (sin ((Geo.radians lat2 - Geo.radians lat1) / 2) ^ 2
            + cos (Geo.radians lat1) * cos (Geo.radians lat2)
              * sin ((Geo.radians lon2 - Geo.radians lon1) / 2) ^ 2)%R in
  (0 <= a <= 1)%R
  /\ Geo.haversine lon1 lat1 lon2 lat2 = (2 * asin (sqrt a) * 6371)%R
  /\ (0 <= Geo.haversine lon1 lat1 lon2 lat2 <= 6371 * PI)%R.
Proof.
  cbv zeta.
  pose proof (haversine_argument_bounds (Geo.radians lat1) (Geo.radians lat2)
                (Geo.radians lon2 - Geo.radians lon1)) as Ha.
  split; [exact Ha |]. split; [reflexivity |].
  unfold Geo.haversine. cbv zeta.
  set (a := (sin ((Geo.radians lat2 - Geo.radians lat1) / 2) ^ 2
             + cos (Geo.radians lat1) * cos (Geo.radians lat2)
               * sin ((Geo.radians lon2 - Geo.radians lon1) / 2) ^ 2)%R) in *.
  assert (Hs : (0 <= sqrt a <= 1)%R).
  { split; [apply sqrt_pos |]. rewrite <- sqrt_1. apply sqrt_le_1_alt. lra. }
  pose proof (asin_nonneg (sqrt a) Hs) as Hlow.
  pose proof (asin_bound (sqrt a)) as [_ Hupp].
  split; lra.
Qed.

(** X26: along a meridian, and along the equator, [haversine] is the
    length of the arc: 6371 km times the difference of the two angles in
    radians, as long as they are at most 180 degrees apart. *)
Theorem haversine_arc (lon x y : R) :
  (Rabs (y - x) <= 180)%R ->
  Geo.haversine lon x lon y = (6371 * (Rabs (y - x) * (PI / 180)))%R
  /\ Geo.haversine x 0 y 0 = (6371 * (Rabs (y - x) * (PI / 180)))%R.
Proof.
  intros Hd. pose proof PI_RGT_0 as Hpi.
  assert (Hhalf : (- (PI / 2) <= (Geo.radians y - Geo.radians x) / 2 <= PI / 2)%R).
  { unfold Geo.radians. unfold Rabs in Hd. destruct (Rcase_abs (y - x)); split; nra. }
  assert (Harc : (2 * asin (sqrt (sin ((Geo.radians y - Geo.radians x) / 2) ^ 2)) * 6371
                  = 6371 * (Rabs (y - x) * (PI / 180)))%R).
  { rewrite <- Rsqr_pow2, sqrt_Rsqr_abs, asin_abs_sin by exact Hhalf.
    replace ((Geo.radians y - Geo.radians x) / 2)%R
      with ((y - x) * (PI / 360))%R by (unfold Geo.radians; lra).
    rewrite Rabs_mult, (Rabs_pos_eq (PI / 360)) by lra. lra. }
  split; unfold Geo.haversine; cbv zeta.
  - replace ((Geo.radians lon - Geo.radians lon) / 2)%R with 0%R by lra.
    rewrite sin_0.
    match goal with
    | |- (2 * asin (sqrt ?a) * 6371)%R = _ =>
        replace a with (sin ((Geo.radians y - Geo.radians x) / 2) ^ 2)%R by ring
    end.
    exact Harc.
  - replace (Geo.radians 0) with 0%R by (unfold Geo.radians; lra).
    replace ((0 - 0) / 2)%R with 0%R by lra.
    rewrite sin_0, cos_0.
    match goal with
    | |- (2 * asin (sqrt ?a) * 6371)%R = _ =>
        replace a with (sin ((Geo.radians y - Geo.radians x) / 2) ^ 2)%R by ring
    end.
    exact Harc.
Qed.

Lemma haversine_arc_witness :
  Geo.haversine 90 0 90 1 = (6371 * (Rabs (1 - 0) * (PI / 180)))%R
  /\ Geo.haversine 0 0 1 0 = (6371 * (Rabs (1 - 0) * (PI / 180)))%R.
Proof.
  apply (haversine_arc 90 0 1).
  rewrite Rabs_pos_eq; lra.
Defined.

(** ** The extended attributes *)

Lemma osm_type_abbr_ok (ty abbr : string) :
  osm_type_abbr ty = Ok abbr -> PyStr.lower ty ∈ ["node"; "way"; "relation"].
Proof.
  unfold osm_type_abbr. cbv zeta.
  destruct (String.eqb (PyStr.lower ty) "node") eqn:E1;
    [apply String.eqb_eq in E1; rewrite E1; intros _; set_solver |].
  destruct (String.eqb (PyStr.lower ty) "way") eqn:E2;
    [apply String.eqb_eq in E2; rewrite E2; intros _; set_solver |].
  destruct (String.eqb (PyStr.lower ty) "relation") eqn:E3;
    [apply String.eqb_eq in E3; rewrite E3; intros _; set_solver |].
  discriminate.
Qed.

Lemma geocode_stage_extended `{Builtins} (c : Cycle) (p : Prelude) (r : Reply) (s : Places) :
  _extended_attr (config s) = true ->
  initial_update s = true ->
  completes (geocode_stage c p r s) = true ->
  exists id ty,
    r_osm_id r = Some id /\ r_osm_type r = Some ty
    /\ PyStr.lower ty ∈ ["node"; "way"; "relation"].
Proof.
  intros Hext Hinit. unfold geocode_stage. cbv zeta. rewrite Hext.
  destruct (parse_reply _ _ r) as [q|] eqn:Hq; [| discriminate].
  destruct (parse_reply_osm _ _ _ _ Hq) as [Hid Hty].
  destruct (formatted_place _ _ _ _ q) as [fp|]; [| discriminate].
  destruct (build_new_state _ _ _ _ _ r q fp) as [ns|]; [| discriminate].
  assert (Hch : forall prev, state_changed prev ns (tracker_state c) true <> Ok false).
  { intros prev. unfold state_changed. destruct prev, ns; try discriminate.
    cbv zeta. rewrite orb_true_r. discriminate. }
  match goal with
  | |- context [state_changed ?prev ns ?z ?i] =>
      replace i with true
        by (symmetry; cbn [initial_update set]; rewrite initial_update_store_parsed;
            exact Hinit);
      destruct (state_changed prev ns z true) as [[|]|] eqn:Hs;
      [| exfalso; exact (Hch _ Hs) | discriminate]
  end.
  set (s3 := set _osm_dict (r_raw r)
               (set _formatted_place (PStr fp) (store_parsed c p q s))).
  assert (Hc : _extended_attr (config s3) = true)
    by (subst s3; cbn [config set]; rewrite config_store_parsed; exact Hext).
  assert (Hcommit : osm_id q = None \/ osm_type q = None ->
            completes (commit c q ns s3) = false).
  { intros Hnone. unfold commit, event_data. cbv zeta.
    change (config (set _attr_native_value _ s3)) with (config s3).
    rewrite Hc. destruct Hnone as [-> | ->]; [| destruct (osm_id q)]; reflexivity. }
  unfold extended_fetch.
  destruct (osm_id q) as [id|] eqn:Eid.
  - destruct (osm_type q) as [ty|] eqn:Ety.
    + destruct (osm_type_abbr ty) as [abbr|] eqn:Eab; [| discriminate].
      intros _. exists id, ty. rewrite <- Hid, <- Hty.
      split; [reflexivity |]. split; [reflexivity |].
      exact (osm_type_abbr_ok ty abbr Eab).
    + rewrite Hcommit by (right; reflexivity). discriminate.
  - rewrite Hcommit by (left; reflexivity). discriminate.
Qed.

(** X27: with the extended attributes configured, an initial update
    returns only for a reply that has an [osm_id] and an [osm_type] of
    node, way or relation.  For any other reply [do_update] raises an
    exception, and [initial_update] stays set: the next cycle is an initial
    update again. *)
Theorem extended_initial_update `{Builtins} (c : Cycle) (s : Places) (p : Prelude)
    (r : Reply) :
  prelude c s = Ok p ->
  fst (update_gate c p s) = true ->
  tracker_state c <> EmptyString ->
  osm_decoded c = Some r ->
  _extended_attr (config s) = true ->
  initial_update s = true ->
  (completes (do_update c s) = true ->
   exists id ty,
     r_osm_id r = Some id /\ r_osm_type r = Some ty
     /\ PyStr.lower ty ∈ ["node"; "way"; "relation"])
  /\ (completes (do_update c s) = false ->
      initial_update (state_of (do_update c s)) = true).
Proof.
  intros Hp Hgate Hzone Hr Hext Hinit.
  rewrite (do_update_passed c s p Hp Hgate Hzone), Hr. split.
  - apply geocode_stage_extended;
      destruct (sync_name_cases c s) as [->|[name ->]]; assumption.
  - intros Hraise. rewrite geocode_stage_initial_update, Hraise.
    destruct (sync_name_cases c s) as [->|[name ->]]; exact Hinit.
Qed.

Lemma extended_initial_update_witness :
  let B := Sample.builtins 12500 0 0 in
  let r := Sample.reply (Some ∅) (Some ∅) None in
  let c := Sample.cycle (Some 10%Q) "not_home" (Some r) in
  let cfg := Sample.cfg "zone_name, place" None in
  let s := init {| _attr_name := _attr_name cfg; _api_key := _api_key cfg;
                   _options := _options cfg;
                   _devicetracker_id := _devicetracker_id cfg;
                   _home_zone := _home_zone cfg; _map_provider := _map_provider cfg;
                   _map_zoom := _map_zoom cfg; _language := _language cfg;
                   _extended_attr := true; _show_time := _show_time cfg;
                   _home_latitude := _home_latitude cfg;
                   _home_longitude := _home_longitude cfg;
                   _attr_entity_picture := _attr_entity_picture cfg |}
            "2023-01-01 09:00:00" in
  completes (@do_update B c s) = false
  /\ initial_update (state_of (@do_update B c s)) = true
  /\ get (state_of (@do_update B c s)) _attr_native_value = PStr "Not_Home, leisure, park".
Proof.
  intros B r c cfg s.
  assert (Hp : exists p, @prelude B c s = Ok p /\ fst (@update_gate B c p s) = true).
  { let o := eval vm_compute in (@prelude B c s) in
    lazymatch o with Ok ?x => exists x end.
    split; vm_compute; reflexivity. }
  destruct Hp as (p & Hp & Hgate).
  assert (Hraise : completes (@do_update B c s) = false) by (vm_compute; reflexivity).
  split; [exact Hraise |]. split.
  - apply (proj2 (@extended_initial_update B c s p r Hp Hgate
                    ltac:(discriminate) eq_refl eq_refl eq_refl)).
    exact Hraise.
  - vm_compute. reflexivity.
Defined.

Lemma gate_below_one_meter_witness :
  let B := Sample.builtins 12500 (1 # 2) 0 in
  let c := Sample.cycle (Some 10%Q) "not_home" None in
  let s := Sample.entity "zone_name, place" 7 in
  exists p, @prelude B c s = Ok p /\ @update_gate B c p s = (false, 8).
Proof.
  intros B c s.
  assert (Hp : exists p, @prelude B c s = Ok p
                         /\ coordinates_ok c p = true
                         /\ current_location c <> previous_location p
                         /\ (@distance_traveled B c p < 1)%Q).
  { let o := eval vm_compute in (@prelude B c s) in
    lazymatch o with Ok ?x => exists x end.
    repeat split; vm_compute; congruence. }
  destruct Hp as (p & Hp & Hok & Hloc & Hlt).
  assert (Hacc : ~ (gps_accuracy c == 0)%Q) by (vm_compute; congruence).
  exists p. split; [exact Hp |].
  exact (@gate_below_one_meter B c s p Hok Hacc eq_refl Hloc Hlt).
Defined.

(** ** The YAML import *)

Lemma mem_In (x : string) (items : list string) :
  PyStr.mem x items = true -> In x items.
Proof.
  unfold PyStr.mem. intros Hx. apply existsb_exists in Hx as (y & Hy & Hxy).
  apply String.eqb_eq in Hxy. now subst.
Qed.

Lemma setdefault_lookup (k : string) (v : pyval) (d : gmap string pyval) :
  Yaml.setdefault k v d !! k = Some (default v (d !! k)).
Proof.
  unfold Yaml.setdefault. destruct (d !! k) eqn:E; cbn [default]; [exact E |].
  apply lookup_insert_eq.
Qed.

(** X28: [validate_import] returns [True] only for a configuration whose
    tracker id is a string with a domain of [TRACKING_DOMAINS] and an
    existing entity (with latitude and longitude attributes when it is a
    sensor), whose home zone is a string with a domain of
    [HOME_LOCATION_DOMAINS] and an existing entity, and whose name is a
    string; the configuration then carries a hash, the md5 of name, tracker
    id and home zone unless the YAML gave one, and no stored entry has an
    equal hash. *)
Theorem validate_import_sound (k : Yaml.Env) (hass : Yaml.Hass)
    (import_config import_config' : gmap string pyval) :
  Yaml.validate_import k hass import_config = Ok (true, import_config') ->
  exists id attributes home_zone name h,
    import_config !! Yaml.CONF_DEVICETRACKER_ID k = Some (PStr id)
    /\ In (Yaml.domain_of id) (Yaml.TRACKING_DOMAINS k)
    /\ Yaml.states hass id = Some attributes
    /\ (Yaml.domain_of id = Yaml.Platform_SENSOR k ->
        Yaml.has_position k attributes = true)
    /\ import_config !! Yaml.CONF_HOME_ZONE k = Some (PStr home_zone)
    /\ In (Yaml.domain_of home_zone) (Yaml.HOME_LOCATION_DOMAINS k)
    /\ is_Some (Yaml.states hass home_zone)
    /\ import_config !! Yaml.CONF_NAME k = Some (PStr name)
    /\ import_config' !! Yaml.CONF_YAML_HASH k = Some h
    /\ h = default (PStr (Yaml.md5_hexdigest k (name +:+ id +:+ home_zone)))
             (import_config !! Yaml.CONF_YAML_HASH k)
    /\ forall m h', In m (Yaml.data_domain hass) ->
         m !! Yaml.CONF_YAML_HASH k = Some h' -> Yaml.py_eq k h h' = false.
Proof.
  unfold Yaml.validate_import.
  destruct (import_config !! Yaml.CONF_DEVICETRACKER_ID k) as [[| | |id| | |]|] eqn:Hid;
    try discriminate.
  destruct (PyStr.mem (Yaml.domain_of id) (Yaml.TRACKING_DOMAINS k)) eqn:Hdom;
    cbn [negb]; [| discriminate].
  destruct (Yaml.states hass id) as [attributes|] eqn:Hst; [| discriminate].
  destruct (String.eqb (Yaml.domain_of id) (Yaml.Platform_SENSOR k)
            && negb (Yaml.has_position k attributes)) eqn:Hpos; [discriminate |].
  destruct (Yaml.home_zone_ok k hass import_config) as [[|]|] eqn:Hhz;
    cbn [bind negb]; try discriminate.
  destruct (Yaml.string_to_hash k import_config id) as [text|] eqn:Htext;
    cbn [bind]; [| discriminate].
  cbv zeta. rewrite setdefault_lookup. cbn [need bind].
  intros [= Hnew <-].
  unfold Yaml.string_to_hash in Htext.
  destruct (import_config !! Yaml.CONF_NAME k) as [[| | |name| | |]|] eqn:Hname;
    try discriminate.
  destruct (import_config !! Yaml.CONF_HOME_ZONE k) as [[| | |home_zone| | |]|] eqn:Hzone;
    try discriminate.
  injection Htext as <-.
  unfold Yaml.home_zone_ok in Hhz. rewrite Hzone in Hhz.
  destruct (PyStr.mem (Yaml.domain_of home_zone) (Yaml.HOME_LOCATION_DOMAINS k)) eqn:Hhd;
    cbn [negb] in Hhz; [| discriminate].
  injection Hhz as Hex. apply bool_decide_eq_true_1 in Hex.
  exists id, attributes, home_zone, name.
  eexists. repeat (split; [first [reflexivity | eassumption | idtac] |]).
  - now apply mem_In.
  - intros Hs. apply String.eqb_eq in Hs. rewrite Hs in Hpos. cbn [andb] in Hpos.
    now destruct (Yaml.has_position k attributes).
  - now apply mem_In.
  - rewrite setdefault_lookup. reflexivity.
  - intros m h' Hm Hh'. apply negb_true_iff in Hnew.
    destruct (Yaml.py_eq k _ h') eqn:Heq; [| reflexivity].
    exfalso. apply not_true_iff_false in Hnew. apply Hnew.
    apply existsb_exists. exists h'. split; [| exact Heq].
    unfold Yaml.all_yaml_hashes. apply list_elem_of_In, list_elem_of_omap.
    exists m. split; [now apply list_elem_of_In | exact Hh'].
Qed.

Lemma validate_import_sound_witness :
  exists id attributes home_zone name h,
    sample_yaml (Some "Phone") !! Yaml.CONF_DEVICETRACKER_ID sample_env = Some (PStr id)
    /\ In (Yaml.domain_of id) (Yaml.TRACKING_DOMAINS sample_env)
    /\ Yaml.states (sample_hass []) id = Some attributes
    /\ (Yaml.domain_of id = Yaml.Platform_SENSOR sample_env ->
        Yaml.has_position sample_env attributes = true)
    /\ sample_yaml (Some "Phone") !! Yaml.CONF_HOME_ZONE sample_env = Some (PStr home_zone)
    /\ In (Yaml.domain_of home_zone) (Yaml.HOME_LOCATION_DOMAINS sample_env)
    /\ is_Some (Yaml.states (sample_hass []) home_zone)
    /\ sample_yaml (Some "Phone") !! Yaml.CONF_NAME sample_env = Some (PStr name)
    /\ Yaml.setdefault "yaml_hash" (PStr "md5:Phonedevice_tracker.phonezone.home")
         (sample_yaml (Some "Phone")) !! Yaml.CONF_YAML_HASH sample_env = Some h
    /\ h = default (PStr (Yaml.md5_hexdigest sample_env (name +:+ id +:+ home_zone)))
             (sample_yaml (Some "Phone") !! Yaml.CONF_YAML_HASH sample_env)
    /\ forall m h', In m (Yaml.data_domain (sample_hass [])) ->
         m !! Yaml.CONF_YAML_HASH sample_env = Some h' -> Yaml.py_eq sample_env h h' = false.
Proof.
  apply (validate_import_sound sample_env (sample_hass []) (sample_yaml (Some "Phone"))
           (Yaml.setdefault "yaml_hash" (PStr "md5:Phonedevice_tracker.phonezone.home")
              (sample_yaml (Some "Phone")))).
  reflexivity.
Defined.

(** X29: a YAML sensor that passes the checks of its tracker and its
    home zone, and that gives no name, a name that is no string, or no
    home zone, is not imported: [validate_import] raises [TypeError] when
    it concatenates the text to hash, and so does [do_import]. *)
Theorem yaml_import_needs_name (k : Yaml.Env) (hass : Yaml.Hass)
    (config : gmap string pyval) (id : string) (attributes : gmap string pyval) :
  let import_config := Yaml.import_config_of k config in
  import_config !! Yaml.CONF_DEVICETRACKER_ID k = Some (PStr id) ->
  PyStr.mem (Yaml.domain_of id) (Yaml.TRACKING_DOMAINS k) = true ->
  Yaml.states hass id = Some attributes ->
  (Yaml.domain_of id = Yaml.Platform_SENSOR k -> Yaml.has_position k attributes = true) ->
  Yaml.home_zone_ok k hass import_config = Ok true ->
  (forall name, import_config !! Yaml.CONF_NAME k <> Some (PStr name))
  \/ import_config !! Yaml.CONF_HOME_ZONE k = None ->
  Yaml.validate_import k hass import_config = Raise TypeError
  /\ Yaml.do_import k hass config = Raise TypeError.
Proof.
  cbv zeta. intros Hid Hdom Hst Hpos Hhz Hmiss.
  assert (Hv : Yaml.validate_import k hass (Yaml.import_config_of k config)
               = Raise TypeError).
  { unfold Yaml.validate_import. rewrite Hid, Hdom, Hst. cbn [negb].
    destruct (String.eqb (Yaml.domain_of id) (Yaml.Platform_SENSOR k)) eqn:Hs.
    - apply String.eqb_eq in Hs. rewrite (Hpos Hs). cbn [andb negb].
      rewrite Hhz. cbn [bind negb]. unfold Yaml.string_to_hash.
      destruct Hmiss as [Hname | Hzone].
      + destruct (Yaml.import_config_of k config !! Yaml.CONF_NAME k) as [[| | |n| | |]|];
          try reflexivity. now destruct (Hname n).
      + rewrite Hzone.
        destruct (Yaml.import_config_of k config !! Yaml.CONF_NAME k) as [[| | |n| | |]|];
          reflexivity.
    - cbn [andb]. rewrite Hhz. cbn [bind negb]. unfold Yaml.string_to_hash.
      destruct Hmiss as [Hname | Hzone].
      + destruct (Yaml.import_config_of k config !! Yaml.CONF_NAME k) as [[| | |n| | |]|];
          try reflexivity. now destruct (Hname n).
      + rewrite Hzone.
        destruct (Yaml.import_config_of k config !! Yaml.CONF_NAME k) as [[| | |n| | |]|];
          reflexivity. }
  split; [exact Hv |]. unfold Yaml.do_import. now rewrite Hv.
Qed.

Lemma yaml_import_needs_name_witness :
  Yaml.validate_import sample_env (sample_hass [])
    (Yaml.import_config_of sample_env (sample_yaml None)) = Raise TypeError
  /\ Yaml.do_import sample_env (sample_hass []) (sample_yaml None) = Raise TypeError.
Proof.
  apply (yaml_import_needs_name sample_env (sample_hass []) (sample_yaml None)
           "device_tracker.phone" ∅).
  - vm_compute. reflexivity.
  - vm_compute. reflexivity.
  - vm_compute. reflexivity.
  - vm_compute. discriminate.
  - vm_compute. reflexivity.
  - left. intros name. vm_compute. discriminate.
Defined.

(** X30: the same YAML sensor is not imported twice.  When
    [validate_import] returned [True] and the configuration it left, with
    its hash, is among the stored entries, validating the same YAML again
    returns [False], provided the hash is equal to itself. *)
Theorem yaml_not_reimported (k : Yaml.Env) (hass : Yaml.Hass)
    (import_config import_config' : gmap string pyval)
    (stored : list (gmap string pyval)) :
  Yaml.validate_import k hass import_config = Ok (true, import_config') ->
  (forall h, import_config' !! Yaml.CONF_YAML_HASH k = Some h -> Yaml.py_eq k h h = true) ->
  In import_config' stored ->
  Yaml.validate_import k
    {| Yaml.states := Yaml.states hass; Yaml.data_domain := stored |} import_config
  = Ok (false, import_config').
Proof.
  unfold Yaml.validate_import. cbn [Yaml.states].
  destruct (import_config !! Yaml.CONF_DEVICETRACKER_ID k) as [[| | |id| | |]|];
    try discriminate.
  destruct (PyStr.mem (Yaml.domain_of id) (Yaml.TRACKING_DOMAINS k));
    cbn [negb]; [| discriminate].
  destruct (Yaml.states hass id) as [attributes|]; [| discriminate].
  destruct (String.eqb (Yaml.domain_of id) (Yaml.Platform_SENSOR k)
            && negb (Yaml.has_position k attributes)); [discriminate |].
  unfold Yaml.home_zone_ok. cbn [Yaml.states].
  destruct (import_config !! Yaml.CONF_HOME_ZONE k) as [[| | |home_zone| | |]|] eqn:Hzone;
    cbn [bind negb]; try discriminate.
  - destruct (PyStr.mem (Yaml.domain_of home_zone) (Yaml.HOME_LOCATION_DOMAINS k));
      cbn [negb bind]; [| discriminate].
    destruct (bool_decide (is_Some (Yaml.states hass home_zone)));
      cbn [negb bind]; [| discriminate].
    destruct (Yaml.string_to_hash k import_config id) as [text|]; cbn [bind];
      [| discriminate].
    cbv zeta. rewrite setdefault_lookup. cbn [need bind].
    intros [= _ <-] Hrefl Hin. f_equal. f_equal.
    apply negb_false_iff, existsb_exists.
    eexists. split.
    + unfold Yaml.all_yaml_hashes. cbn [Yaml.data_domain].
      apply list_elem_of_In, list_elem_of_omap.
      eexists. split; [apply list_elem_of_In; exact Hin |]. apply setdefault_lookup.
    + apply Hrefl. apply setdefault_lookup.
  - destruct (Yaml.string_to_hash k import_config id) as [text|] eqn:Htext; cbn [bind];
      [| discriminate].
    unfold Yaml.string_to_hash in Htext. rewrite Hzone in Htext.
    destruct (import_config !! Yaml.CONF_NAME k) as [[| | |n| | |]|]; discriminate Htext.
Qed.

Lemma yaml_not_reimported_witness :
  let imported :=
    Yaml.setdefault "yaml_hash" (PStr "md5:Phonedevice_tracker.phonezone.home")
      (sample_yaml (Some "Phone")) in
  Yaml.validate_import sample_env
    {| Yaml.states := Yaml.states (sample_hass []); Yaml.data_domain := [imported] |}
    (sample_yaml (Some "Phone"))
  = Ok (false, imported).
Proof.
  intros imported.
  apply (yaml_not_reimported sample_env (sample_hass []) (sample_yaml (Some "Phone"))
           imported [imported]).
  - reflexivity.
  - intros h Hh. subst imported. rewrite setdefault_lookup in Hh.
    injection Hh as <-. reflexivity.
  - left. reflexivity.
Defined.
